(** * RTI Connext DDS getting-started examples: command line, shutdown flag,
      run loops and teardown

    A shallow embedding of the glue code of the examples
    ([1_hello_world/c++11] and [2_streaming_data/c++98]) and the properties
    its specification states about it.  The vendor middleware is not
    embedded: every call into it is recorded as an event of the process
    trace, and what it answers (a null pointer, a return code, an exception)
    is read from an oracle that the theorems quantify over. *)

From Stdlib Require Import ZArith List String Ascii Bool Lia.
From Stdlib Require Decimal DecimalString DecimalPos DecimalZ.
Import ListNotations.

Open Scope string_scope.
Open Scope list_scope.
Open Scope Z_scope.

(** ** Machine integers

    [int] and [unsigned int] are 32 bits wide on the platforms the examples
    are built for.  Values are carried in [Z]; conversions write the
    wrap-around out. *)

Definition UINT_MODULUS : Z := 2 ^ 32.
Definition INT_MAX : Z := 2 ^ 31 - 1.
Definition INT_MIN : Z := - 2 ^ 31.

(** Conversion to [unsigned int]: reduction modulo [2^32]. *)
Definition to_unsigned (z : Z) : Z := z mod UINT_MODULUS.

(** Conversion to [int]: the two's complement reading of the low 32 bits.
    (Signed overflow of [count++] is undefined in C++; the model takes the
    wrap-around every supported target produces.) *)
Definition to_int (z : Z) : Z := (z + 2 ^ 31) mod UINT_MODULUS - 2 ^ 31.

(** [<stdlib.h>] *)
Definition EXIT_SUCCESS : Z := 0.
Definition EXIT_FAILURE : Z := 1.

(** ** The C library's [atoi]

    [atoi(s)] is [(int) strtol(s, NULL, 10)]: leading white space is
    skipped, one optional sign is read, then the longest run of decimal
    digits; anything after it is ignored and no digits at all give [0]. *)

Definition isspace (c : ascii) : bool :=
  let n := nat_of_ascii c in
  (Nat.eqb n 32 || (Nat.leb 9 n && Nat.leb n 13))%bool.

Definition isdigit (c : ascii) : bool :=
  let n := nat_of_ascii c in (Nat.leb 48 n && Nat.leb n 57)%bool.

Definition digit_value (c : ascii) : Z := Z.of_nat (nat_of_ascii c) - 48.

Fixpoint skip_spaces (s : string) : string :=
  match s with
  | String c r => if isspace c then skip_spaces r else s
  | EmptyString => s
  end.

Fixpoint atoi_digits (acc : Z) (s : string) : Z :=
  match s with
  | String c r =>
      if isdigit c then atoi_digits (10 * acc + digit_value c) r else acc
  | EmptyString => acc
  end.

(** The mathematical value [strtol] reads off the string. *)
Definition strtol_value (s : string) : Z :=
  match skip_spaces s with
  | String "-" r => - atoi_digits 0 r
  | String "+" r => atoi_digits 0 r
  | r => atoi_digits 0 r
  end.

(** The standard defines [atoi] only when the value fits an [int]; outside
    that range the model keeps the low 32 bits. *)
Definition atoi (s : string) : Z := to_int (strtol_value s).

(** ** Output and the process trace

    An output statement [std::cout << a << b << std::endl] is one event
    carrying its operands in order. *)

Inductive item : Type :=
| Str (s : string)       (* a string literal or a [char*] *)
| Num (z : Z).           (* an integer operand, printed in decimal *)

(** Calls into the vendor library, with the arguments the properties
    refer to. *)
Inductive call : Type :=
(* modern C++ API, hello_world *)
| Logger_verbosity (v : Z)
| DomainParticipant_ctor (domain_id : Z)
| Topic_ctor (name : string)
| Publisher_ctor
| DataWriter_ctor
| DataWriter_write
| rti_util_sleep (sec : Z)
| finalize_participant_factory
(* classic C++ API, streaming_data *)
| set_verbosity_call (v : Z)
| create_participant (domain_id : Z)
| create_publisher
| create_subscriber
| get_type_name
| register_type
| create_topic (name : string)
| create_datawriter
| create_datareader
| get_statuscondition
| set_enabled_statuses
| attach_condition
| narrow
| create_data
| write (sensor_id : string) (degrees : Z)
| NDDSUtility_sleep (sec nanosec : Z)
| waitset_wait (sec nanosec : Z)
| get_status_changes
| take
| print_data
| return_loan
| delete_data
| delete_contained_entities
| delete_participant
| finalize_instance.

Inductive event : Type :=
| Cout (l : list item)          (* a line on standard output *)
| Cerr (l : list item)          (* a line on standard error *)
| Signal_installed (signo : Z)  (* [signal(signo, stop_handler)] *)
| Dds (c : call).               (* a call into the middleware *)

Definition trace := list event.

(** [<csignal>] *)
Definition SIGINT : Z := 2.
Definition SIGTERM : Z := 15.

(** * application.hpp *)
Module Application.

(** The process state the header owns: the global [running] and, next to
    it, what the process has done so far. *)
Record process : Type := mkProcess {
  running : bool;
  events : trace
}.

(** [bool running = true;] *)
Definition initial_process : process :=
  {| running := true; events := [] |}.

Definition emit (e : event) (p : process) : process :=
  {| running := running p; events := events p ++ [e] |}.

Definition emits (es : trace) (p : process) : process :=
  {| running := running p; events := events p ++ es |}.

(** [inline void stop_handler(int)] *)
Definition stop_handler (signo : Z) (p : process) : process :=
  let p := {| running := false; events := events p |} in
  emit (Cout [Str "preparing to shut down..."]) p.

(** [inline void setup_signal_handlers()] *)
Definition setup_signal_handlers (p : process) : process :=
  emit (Signal_installed SIGTERM) (emit (Signal_installed SIGINT) p).

(** Delivery of the termination signals that arrive, in order, while the
    handlers are installed: each one runs [stop_handler]. *)
Definition deliver (signos : list Z) (p : process) : process :=
  fold_left (fun q signo => stop_handler signo q) signos p.

Inductive ParseReturn : Type :=
| PARSE_RETURN_OK
| PARSE_RETURN_FAILURE
| PARSE_RETURN_EXIT.

(** [rti::config::Verbosity] wraps an enumeration; a value is carried as the
    integer under it.  The header that numbers the enumerators is the
    vendor's, so [Verbosity::EXCEPTION] is a parameter of the parser. *)
Abbreviation Verbosity := Z (only parsing).

Record ApplicationArguments : Type := mkArguments {
  parse_result : ParseReturn;
  domain_id : Z;          (* unsigned int *)
  sample_count : Z;       (* unsigned int *)
  verbosity : Verbosity
}.

(** The usage text: one literal, its lines joined by newlines. *)
Definition usage_text : string :=
  String.concat (String "010"%char EmptyString)
    [ "Usage:";
      "    -d, --domain       <int>   Domain ID this application will";
      "                               subscribe in.  ";
      "                               Default: 0";
      "    -s, --sample_count <int>   Number of samples to receive before";
      "                               cleanly shutting down. ";
      "                               Default: infinite";
      "    -v, --verbosity    <int>   How much debugging output to show.";
      "                               Range: 0-5 ";
      "                               Default: 0" ].

(** The locals of [parse_arguments]. *)
Record locals : Type := mkLocals {
  arg_processing : nat;
  show_usage : bool;
  l_parse_result : ParseReturn;
  l_domain_id : Z;
  l_sample_count : Z;
  l_verbosity : Verbosity
}.

(** What the parser does to the outside: the indices of [argv] it reads (a
    ghost log, one entry per element looked at in an iteration) and the
    lines it prints. *)
Record parser_io : Type := mkIo {
  reads : list nat;
  printed : trace
}.

Definition log_read (i : nat) (io : parser_io) : parser_io :=
  {| reads := reads io ++ [i]; printed := printed io |}.

Definition print (e : event) (io : parser_io) : parser_io :=
  {| reads := reads io; printed := printed io ++ [e] |}.

(** One pass through the body of the [while] loop.  [argv] holds the [argc]
    strings [argv[0] .. argv[argc-1]]; the element after them, [argv[argc]],
    is the null pointer, and handing it to [strcmp] or [atoi] is the fault
    [Null_argument]. *)
Inductive step : Type :=
| Continue (l : locals)
| Break (l : locals)
| Null_argument (i : nat).

Definition is_domain_flag (tok : string) : bool :=
  (String.eqb tok "-d" || String.eqb tok "--domain")%bool.
Definition is_sample_count_flag (tok : string) : bool :=
  (String.eqb tok "-s" || String.eqb tok "--sample-count")%bool.
Definition is_verbosity_flag (tok : string) : bool :=
  (String.eqb tok "-v" || String.eqb tok "--verbosity")%bool.
Definition is_help_flag (tok : string) : bool :=
  (String.eqb tok "-h" || String.eqb tok "--help")%bool.

Definition loop_body (argv : list string) (l : locals) (io : parser_io)
  : step * parser_io :=
  let i := arg_processing l in
  let io := log_read i io in
  match nth_error argv i with
  | None => (Null_argument i, io)
  | Some tok =>
      if is_domain_flag tok then
        let io := log_read (i + 1) io in
        match nth_error argv (i + 1) with
        | None => (Null_argument (i + 1), io)
        | Some v =>
            (Continue (mkLocals (i + 2) (show_usage l) (l_parse_result l)
                         (to_unsigned (atoi v)) (l_sample_count l)
                         (l_verbosity l)), io)
        end
      else if is_sample_count_flag tok then
        let io := log_read (i + 1) io in
        match nth_error argv (i + 1) with
        | None => (Null_argument (i + 1), io)
        | Some v =>
            (Continue (mkLocals (i + 2) (show_usage l) (l_parse_result l)
                         (l_domain_id l) (to_unsigned (atoi v))
                         (l_verbosity l)), io)
        end
      else if is_verbosity_flag tok then
        let io := log_read (i + 1) io in
        match nth_error argv (i + 1) with
        | None => (Null_argument (i + 1), io)
        | Some v =>
            (Continue (mkLocals (i + 2) (show_usage l) (l_parse_result l)
                         (l_domain_id l) (l_sample_count l) (atoi v)), io)
        end
      else if is_help_flag tok then
        (Break (mkLocals i true PARSE_RETURN_EXIT
                  (l_domain_id l) (l_sample_count l) (l_verbosity l)),
         print (Cout [Str "Example application."]) io)
      else
        (Break (mkLocals i true PARSE_RETURN_FAILURE
                  (l_domain_id l) (l_sample_count l) (l_verbosity l)),
         print (Cout [Str "Bad parameter."]) io)
  end.

(** [while (arg_processing < argc) { ... }].  Every pass that continues
    moves [arg_processing] forward, so [argc] passes are always enough; the
    fuel is there for the recursion only and [None] reports that it ran
    out. *)
Fixpoint parse_loop (fuel : nat) (argc : nat) (argv : list string)
    (l : locals) (io : parser_io) : option (step * parser_io) :=
  if Nat.ltb (arg_processing l) argc then
    match fuel with
    | O => None
    | S fuel' =>
        match loop_body argv l io with
        | (Continue l', io') => parse_loop fuel' argc argv l' io'
        | r => Some r
        end
    end
  else Some (Break l, io).

(** The outcome of a call: the record returned, or the fault. *)
Inductive parsed : Type :=
| Returned (a : ApplicationArguments)
| Faulted (i : nat).          (* a null [argv[i]] was dereferenced *)

Section Parser.

Variable Verbosity_EXCEPTION : Verbosity.

Definition initial_locals : locals :=
  mkLocals 1 false PARSE_RETURN_OK 0 0 Verbosity_EXCEPTION.

Definition finish (r : step * parser_io) : parsed * parser_io :=
  match r with
  | (Null_argument i, io) => (Faulted i, io)
  | (Continue l, io) | (Break l, io) =>
      let io := if show_usage l then print (Cout [Str usage_text]) io
                else io in
      (Returned (mkArguments (l_parse_result l) (l_domain_id l)
                   (l_sample_count l) (l_verbosity l)), io)
  end.

(** [inline ApplicationArguments parse_arguments(int argc, char *argv[])] *)
Definition parse_arguments (argc : nat) (argv : list string)
  : option (parsed * parser_io) :=
  option_map finish
    (parse_loop argc argc argv initial_locals (mkIo [] [])).

End Parser.

End Application.

(** How a piece of the program that may loop or throw comes to an end. *)
Inductive completion (A : Type) : Type :=
| Normal (a : A)            (* ran to its end *)
| Threw (what : string)     (* left by a [std::exception] *)
| Out_of_fuel.              (* still running when the fuel was spent *)
Arguments Normal {A} a.
Arguments Threw {A} what.
Arguments Out_of_fuel {A}.

(** How the process ends. *)
Inductive exit : Type :=
| Exited (status : Z)       (* [main] returned [status] *)
| Crashed (i : nat)         (* the null [argv[i]] was dereferenced *)
| Unfinished.               (* still running when the fuel was spent *)

(** * hello_world_publisher.cxx *)
Module HelloWorldPublisher.
Import Application.

(** What the outside does during a run.  The modern C++ API reports failure
    by throwing: [Some what] is an exception whose [what()] is [what].
    [signals k] are the termination signals delivered before the loop
    condition is evaluated for the [k]-th time (counting from 0) and after
    its previous evaluation. *)
Record world : Type := mkWorld {
  participant_throws : option string;
  topic_throws : option string;
  publisher_throws : option string;
  datawriter_throws : option string;
  write_throws : nat -> option string;
  signals : nat -> list Z
}.

(** One pass of the [for] loop's body, as the events it leaves. *)
Definition iteration (count : Z) : trace :=
  [ Cout [Str "Writing HelloMessage, count "; Num count];
    Dds DataWriter_write;
    Dds (rti_util_sleep 4) ].

(** [for (int count = 0; running && (count < sample_count || sample_count == 0); count++)] *)
Fixpoint write_loop (fuel : nat) (w : world) (k : nat)
    (count sample_count : Z) (p : process) : completion unit * process :=
  let p := deliver (signals w k) p in
  if (running p && ((count <? sample_count) || (sample_count =? 0)))%bool then
    match fuel with
    | O => (Out_of_fuel, p)
    | S fuel' =>
        let p := emit (Cout [Str "Writing HelloMessage, count "; Num count]) p in
        let p := emit (Dds DataWriter_write) p in
        match write_throws w k with
        | Some what => (Threw what, p)
        | None =>
            let p := emit (Dds (rti_util_sleep 4)) p in
            write_loop fuel' w (S k) (to_int (count + 1)) sample_count p
        end
    end
  else (Normal tt, p).

(** [void run_example(int domain_id, int sample_count)] *)
Definition run_example (fuel : nat) (w : world) (domain_id sample_count : Z)
    (p : process) : completion unit * process :=
  let p := emit (Dds (DomainParticipant_ctor domain_id)) p in
  match participant_throws w with
  | Some what => (Threw what, p)
  | None =>
  let p := emit (Dds (Topic_ctor "Example HelloMessage")) p in
  match topic_throws w with
  | Some what => (Threw what, p)
  | None =>
  let p := emit (Dds Publisher_ctor) p in
  match publisher_throws w with
  | Some what => (Threw what, p)
  | None =>
  let p := emit (Dds DataWriter_ctor) p in
  match datawriter_throws w with
  | Some what => (Threw what, p)
  | None => write_loop fuel w 0 0 sample_count p
  end end end end.

(** [void set_verbosity(rti::config::Verbosity verbosity)] *)
Definition set_verbosity (verbosity : Verbosity) (p : process) : process :=
  emit (Dds (Logger_verbosity verbosity)) p.

Section Main.

Variable Verbosity_EXCEPTION : Verbosity.

(** [int main(int argc, char *argv[])], started with [argc = length argv]. *)
Definition main (fuel : nat) (w : world) (argv : list string)
  : exit * process :=
  match parse_arguments Verbosity_EXCEPTION (List.length argv) argv with
  | None => (Unfinished, initial_process)
  | Some (Faulted i, io) => (Crashed i, emits (printed io) initial_process)
  | Some (Returned arguments, io) =>
      let p := emits (printed io) initial_process in
      match parse_result arguments with
      | PARSE_RETURN_EXIT => (Exited EXIT_SUCCESS, p)
      | PARSE_RETURN_FAILURE => (Exited EXIT_FAILURE, p)
      | PARSE_RETURN_OK =>
          let p := setup_signal_handlers p in
          let p := set_verbosity (verbosity arguments) p in
          match run_example fuel w (to_int (domain_id arguments))
                  (to_int (sample_count arguments)) p with
          | (Threw what, p) =>
              (Exited EXIT_FAILURE,
               emit (Cerr [Str "Exception in publisher_main(): "; Str what]) p)
          | (Out_of_fuel, p) => (Unfinished, p)
          | (Normal _, p) =>
              (Exited EXIT_SUCCESS, emit (Dds finalize_participant_factory) p)
          end
      end
  end.

End Main.

End HelloWorldPublisher.

(** A pointer handed out by the classic C++ API: null, or some object. *)
Inductive pointer : Type :=
| NULL
| Ptr (address : nat).

Definition is_null (q : pointer) : bool :=
  match q with NULL => true | Ptr _ => false end.

(** * temperature_publisher.cxx *)
Module TemperaturePublisher.
Import Application.

(** Modelled from the spec: [application.h] of the streaming example is not
    among the sources.  Its [running] flag, signal handler and
    [ParseReturn] are those of section 4.1 and 4.2, the same as in
    [application.hpp]; its argument record adds the sensor identifier of
    section 3. *)
Record ApplicationArguments : Type := mkArguments {
  parse_result : ParseReturn;
  domain_id : Z;          (* unsigned int *)
  sample_count : Z;       (* unsigned int *)
  verbosity : Z;
  sensor_id : string
}.

(** What the middleware, the C library and the outside answer during a
    run: the pointer or return code of each call, [rand()] at the [k]-th
    pass of the loop, and the signals delivered before the [k]-th
    evaluation of the loop condition. *)
Record middleware : Type := mkMiddleware {
  r_create_participant : pointer;
  r_create_publisher : pointer;
  r_register_type : Z;
  r_create_topic : pointer;
  r_create_datawriter : pointer;
  r_narrow : pointer;
  r_create_data : pointer;
  r_write : nat -> Z;
  r_rand : nat -> Z;
  r_delete_data : Z;
  r_delete_contained_entities : Z;
  r_delete_participant : Z;
  r_finalize_instance : Z;
  signals : nat -> list Z
}.

(** [snprintf(dst, size, "%s", src)] keeps the first [size - 1] characters. *)
Definition snprintf (size : nat) (src : string) : string :=
  substring 0 (size - 1) src.

Section Example.

(** The vendor's constant. *)
Variable DDS_RETCODE_OK : Z.

(** [static int shutdown(DDSDomainParticipant *participant,
                         const char *shutdown_message, int status)] *)
Definition shutdown (m : middleware) (participant : pointer)
    (shutdown_message : string) (status : Z) (p : process) : Z * process :=
  let p := emit (Cout [Str shutdown_message]) p in
  match participant with
  | NULL => (status, p)
  | Ptr _ =>
      let p := emit (Dds delete_contained_entities) p in
      let retcode := r_delete_contained_entities m in
      let '(status, p) :=
        if negb (retcode =? DDS_RETCODE_OK)
        then (EXIT_FAILURE,
              emit (Cerr [Str "delete_contained_entities error "; Num retcode]) p)
        else (status, p) in
      let p := emit (Dds delete_participant) p in
      let retcode := r_delete_participant m in
      let '(status, p) :=
        if negb (retcode =? DDS_RETCODE_OK)
        then (EXIT_FAILURE,
              emit (Cerr [Str "delete_participant error "; Num retcode]) p)
        else (status, p) in
      (status, p)
  end.

(** The main loop of [run_example]:
    [for (unsigned int count = 0;
          running && ((sample_count == 0) || (count < sample_count));
          ++count)] *)
Fixpoint write_loop (fuel : nat) (m : middleware) (k : nat)
    (count sample_count : Z) (sensor : string) (p : process)
  : completion unit * process :=
  let p := deliver (signals m k) p in
  if (running p && ((sample_count =? 0) || (count <? sample_count)))%bool then
    match fuel with
    | O => (Out_of_fuel, p)
    | S fuel' =>
        let degrees := to_int (Z.rem (r_rand m k) 3 + 30) in
        let p := emit (Cout [Str "Writing ChocolateTemperature, count ";
                             Num count]) p in
        let p := emit (Dds (write (snprintf 255 sensor) degrees)) p in
        let retcode := r_write m k in
        let p := if negb (retcode =? DDS_RETCODE_OK)
                 then emit (Cerr [Str "write error "; Num retcode]) p
                 else p in
        let p := emit (Dds (NDDSUtility_sleep 4 0)) p in
        write_loop fuel' m (S k) (to_unsigned (count + 1)) sample_count
          sensor p
    end
  else (Normal tt, p).

(** [int run_example(unsigned int domain_id, unsigned int sample_count,
                     const char *sensor_id)];
    [None] when the loop is still running as the fuel is spent. *)
Definition run_example (fuel : nat) (m : middleware)
    (domain sample_count : Z) (sensor : string) (p : process)
  : option Z * process :=
  let p := emit (Dds (create_participant domain)) p in
  let participant := r_create_participant m in
  let leave msg p := let '(st, p) := shutdown m participant msg EXIT_FAILURE p
                     in (Some st, p) in
  if is_null participant then leave "create_participant error" p else
  let p := emit (Dds create_publisher) p in
  if is_null (r_create_publisher m) then leave "create_publisher error" p else
  let p := emit (Dds get_type_name) p in
  let p := emit (Dds register_type) p in
  if negb (r_register_type m =? DDS_RETCODE_OK)
  then leave "register_type error" p else
  let p := emit (Dds (create_topic "ChocolateTemperature")) p in
  if is_null (r_create_topic m) then leave "create_topic error" p else
  let p := emit (Dds create_datawriter) p in
  if is_null (r_create_datawriter m) then leave "create_datawriter error" p else
  let p := emit (Dds narrow) p in
  if is_null (r_narrow m) then leave "DataWriter narrow error" p else
  let p := emit (Dds create_data) p in
  if is_null (r_create_data m)
  then leave "TemperatureTypeSupport::create_data error" p else
  match write_loop fuel m 0 0 sample_count sensor p with
  | (Out_of_fuel, p) => (None, p)
  | (Threw _, p) => (None, p)     (* does not occur: this loop never throws *)
  | (Normal _, p) =>
      let p := emit (Dds delete_data) p in
      let retcode := r_delete_data m in
      let p := if negb (retcode =? DDS_RETCODE_OK)
               then emit (Cerr [Str "TemperatureTypeSupport::delete_data error ";
                                Num retcode]) p
               else p in
      let '(st, p) := shutdown m participant "shutting down" EXIT_SUCCESS p in
      (Some st, p)
  end.

(** [void set_verbosity(unsigned int verbosity)] *)
Definition set_verbosity (verbosity : Z) (p : process) : process :=
  emit (Dds (set_verbosity_call verbosity)) p.

(** [int main(int argc, char *argv[])] from the point where
    [parse_arguments] (of the absent header) has filled [arguments]; [p] is
    the process as the parser left it. *)
Definition main (fuel : nat) (m : middleware)
    (arguments : ApplicationArguments) (p : process) : exit * process :=
  match parse_result arguments with
  | PARSE_RETURN_EXIT => (Exited EXIT_SUCCESS, p)
  | PARSE_RETURN_FAILURE => (Exited EXIT_FAILURE, p)
  | PARSE_RETURN_OK =>
      let p := setup_signal_handlers p in
      let p := set_verbosity (verbosity arguments) p in
      match run_example fuel m (domain_id arguments) (sample_count arguments)
              (sensor_id arguments) p with
      | (None, p) => (Unfinished, p)
      | (Some status, p) =>
          let p := emit (Dds finalize_instance) p in
          let retcode := r_finalize_instance m in
          if negb (retcode =? DDS_RETCODE_OK)
          then (Exited EXIT_FAILURE,
                emit (Cerr [Str "finalize_instance error "; Num retcode]) p)
          else (Exited status, p)
      end
  end.

End Example.

End TemperaturePublisher.

(** * temperature_subscriber.cxx *)
Module TemperatureSubscriber.
Import Application.

(** What the middleware and the outside answer during a run.  [shutdown]
    can be reached more than once here, so its two calls answer by the
    number of the [shutdown] call; the loop's calls answer by the pass. *)
Record middleware : Type := mkMiddleware {
  r_create_participant : pointer;
  r_create_subscriber : pointer;
  r_register_type : Z;
  r_create_topic : pointer;
  r_create_datareader : pointer;
  r_get_statuscondition : pointer;
  r_set_enabled_statuses : Z;
  r_attach_condition : Z;
  r_narrow : pointer;
  r_wait : nat -> Z;
  r_get_status_changes : nat -> Z;
  r_take : nat -> list bool;      (* [valid_data] of each sample taken *)
  r_delete_contained_entities : nat -> Z;
  r_delete_participant : nat -> Z;
  signals : nat -> list Z
}.

(** How [run_example] ends. *)
Inductive ending : Type :=
| Returns (status : Z)
| Null_pointer_call (c : call)   (* a member call through a null pointer *)
| Fuel_spent.

(** The process together with the number of [shutdown] calls made. *)
Record run : Type := mkRun {
  proc : process;
  shutdowns : nat
}.

Definition say (e : event) (r : run) : run :=
  mkRun (emit e (proc r)) (shutdowns r).

Section Example.

(** The vendor's constants. *)
Variable DDS_RETCODE_OK : Z.
Variable DDS_RETCODE_TIMEOUT : Z.
Variable DDS_DATA_AVAILABLE_STATUS : Z.

(** [static int shutdown(DDSDomainParticipant *participant,
                         const char *shutdown_message, int status)] *)
Definition shutdown (m : middleware) (participant : pointer)
    (shutdown_message : string) (status : Z) (r : run) : Z * run :=
  let n := shutdowns r in
  let r := mkRun (emit (Cout [Str shutdown_message]) (proc r)) (S n) in
  match participant with
  | NULL => (status, r)
  | Ptr _ =>
      let r := say (Dds delete_contained_entities) r in
      let retcode := r_delete_contained_entities m n in
      let '(status, r) :=
        if negb (retcode =? DDS_RETCODE_OK)
        then (EXIT_FAILURE,
              say (Cerr [Str "delete_contained_entities error"; Num retcode]) r)
        else (status, r) in
      let r := say (Dds delete_participant) r in
      let retcode := r_delete_participant m n in
      let '(status, r) :=
        if negb (retcode =? DDS_RETCODE_OK)
        then (EXIT_FAILURE,
              say (Cerr [Str "delete_participant error"; Num retcode]) r)
        else (status, r) in
      (status, r)
  end.

(** The body of the [for] loop of [process_data], over the samples taken. *)
Fixpoint process_samples (valid : list bool) (samples_read : Z) (r : run)
  : Z * run :=
  match valid with
  | [] => (samples_read, r)
  | true :: rest =>
      process_samples rest (to_unsigned (samples_read + 1))
        (say (Dds print_data) r)
  | false :: rest =>
      process_samples rest samples_read
        (say (Cout [Str "Received instance state notification"]) r)
  end.

(** [unsigned int process_data(TemperatureDataReader *Temperature_reader)],
    at the [k]-th pass of the main loop. *)
Definition process_data (m : middleware) (k : nat) (r : run) : Z * run :=
  let r := say (Dds take) r in
  let '(samples_read, r) := process_samples (r_take m k) 0 r in
  (samples_read, say (Dds return_loan) r).

(** The main loop of [run_example]:
    [while (running && (samples_read < sample_count || sample_count == 0))];
    [None] when it is left, by its condition or by [break]. *)
Fixpoint read_loop (fuel : nat) (m : middleware) (k : nat)
    (samples_read sample_count : Z) (r : run) : option ending * run :=
  let r := mkRun (deliver (signals m k) (proc r)) (shutdowns r) in
  if (running (proc r)
      && ((samples_read <? sample_count) || (sample_count =? 0)))%bool then
    match fuel with
    | O => (Some Fuel_spent, r)
    | S fuel' =>
        let r := say (Dds (waitset_wait 4 0)) r in
        let retcode := r_wait m k in
        if retcode =? DDS_RETCODE_TIMEOUT then
          read_loop fuel' m (S k) samples_read sample_count
            (say (Cout [Str "Wait timed out after 4 seconds."]) r)
        else if negb (retcode =? DDS_RETCODE_OK) then
          (None, say (Cerr [Str "wait returned error: "; Num retcode]) r)
        else if is_null (r_narrow m) then
          (Some (Null_pointer_call get_status_changes), r)
        else
          let r := say (Dds get_status_changes) r in
          if negb (Z.land (r_get_status_changes m k) DDS_DATA_AVAILABLE_STATUS
                   =? 0)
          then
            let '(n, r) := process_data m k r in
            read_loop fuel' m (S k) (to_unsigned (samples_read + n))
              sample_count r
          else read_loop fuel' m (S k) samples_read sample_count r
    end
  else (None, r).

(** [int run_example(unsigned int domain_id, unsigned int sample_count)].
    None of the error branches before the loop returns: each calls
    [shutdown], drops its result and falls through to the next statement.
    Calls through pointers to entities that an earlier [shutdown] has
    deleted are recorded like the others. *)
Definition run_example (fuel : nat) (m : middleware)
    (domain sample_count : Z) (p : process) : ending * process :=
  let after b msg participant r :=
    if b : bool then snd (shutdown m participant msg EXIT_FAILURE r) else r in
  let r := say (Dds (create_participant domain)) (mkRun p 0) in
  let participant := r_create_participant m in
  let r := after (is_null participant) "create_participant error" participant r in
  if is_null participant
  then (Null_pointer_call create_subscriber, proc r) else
  let r := say (Dds create_subscriber) r in
  let subscriber := r_create_subscriber m in
  let r := after (is_null subscriber) "create_subscriber error" participant r in
  let r := say (Dds get_type_name) r in
  let r := say (Dds register_type) r in
  let r := after (negb (r_register_type m =? DDS_RETCODE_OK))
             "register_type error" participant r in
  let r := say (Dds (create_topic "ChocolateTemperature")) r in
  let r := after (is_null (r_create_topic m)) "create_topic error"
             participant r in
  if is_null subscriber
  then (Null_pointer_call create_datareader, proc r) else
  let r := say (Dds create_datareader) r in
  let reader := r_create_datareader m in
  let r := after (is_null reader) "create_datareader error" participant r in
  if is_null reader
  then (Null_pointer_call get_statuscondition, proc r) else
  let r := say (Dds get_statuscondition) r in
  let status_condition := r_get_statuscondition m in
  let r := after (is_null status_condition) "get_statuscondition error"
             participant r in
  if is_null status_condition
  then (Null_pointer_call set_enabled_statuses, proc r) else
  let r := say (Dds set_enabled_statuses) r in
  let r := after (negb (r_set_enabled_statuses m =? DDS_RETCODE_OK))
             "set_enabled_statuses error" participant r in
  let r := say (Dds attach_condition) r in
  let r := after (negb (r_attach_condition m =? DDS_RETCODE_OK))
             "attach_condition error" participant r in
  let r := say (Dds narrow) r in
  let r := after (is_null (r_narrow m)) "DataReader narrow error"
             participant r in
  match read_loop fuel m 0 0 sample_count r with
  | (Some e, r) => (e, proc r)
  | (None, r) =>
      let '(status, r) := shutdown m participant "shutting down" 0 r in
      (Returns status, proc r)
  end.

(** [void set_verbosity(NDDS_Config_LogVerbosity verbosity)] *)
Definition set_verbosity (verbosity : Z) (p : process) : process :=
  emit (Dds (set_verbosity_call verbosity)) p.

(** [int main(int argc, char *argv[])] from the point where
    [parse_arguments] (of the absent header, see
    [TemperaturePublisher.ApplicationArguments]) has filled [arguments];
    [p] is the process as the parser left it and [finalize_retcode] what
    [finalize_instance] answers. *)
Definition main (fuel : nat) (m : middleware) (finalize_retcode : Z)
    (arguments : TemperaturePublisher.ApplicationArguments) (p : process)
  : ending * process :=
  match TemperaturePublisher.parse_result arguments with
  | PARSE_RETURN_EXIT => (Returns EXIT_SUCCESS, p)
  | PARSE_RETURN_FAILURE => (Returns EXIT_FAILURE, p)
  | PARSE_RETURN_OK =>
      let p := setup_signal_handlers p in
      let p := set_verbosity (TemperaturePublisher.verbosity arguments) p in
      match run_example fuel m (TemperaturePublisher.domain_id arguments)
              (TemperaturePublisher.sample_count arguments) p with
      | (Returns status, p) =>
          let p := emit (Dds finalize_instance) p in
          if negb (finalize_retcode =? DDS_RETCODE_OK)
          then (Returns EXIT_FAILURE,
                emit (Cerr [Str "finalize_instance error";
                            Num finalize_retcode]) p)
          else (Returns status, p)
      | (e, p) => (e, p)
      end
  end.

End Example.

End TemperatureSubscriber.

(** * Vocabulary of the properties *)

(** The decimal numeral of an integer, as a user types it. *)
Definition decimal (z : Z) : string :=
  DecimalString.NilZero.string_of_int (Z.to_int z).

(** A token [atoi] finds no number in: after the white space and the sign
    it skips there is no digit. *)
Definition unsigned_part (s : string) : string :=
  match skip_spaces s with
  | String "-" r => r
  | String "+" r => r
  | r => r
  end.

Definition non_numeric (s : string) : bool :=
  match unsigned_part s with
  | String c _ => negb (isdigit c)
  | EmptyString => true
  end.

Module CommandLine.
Import Application.

Definition is_value_flag (tok : string) : bool :=
  (is_domain_flag tok || is_sample_count_flag tok || is_verbosity_flag tok)%bool.

Definition is_recognized (tok : string) : bool :=
  (is_value_flag tok || is_help_flag tok)%bool.

(** A command line made of options only: each a flag and the token after
    it. *)
Definition option_tokens (o : string * string) : list string :=
  [fst o; snd o].

Definition tokens (opts : list (string * string)) : list string :=
  flat_map option_tokens opts.

(** The same with integers for values, written in decimal. *)
Definition numeral_option (o : string * Z) : string * string :=
  (fst o, decimal (snd o)).

(** The integer after the last occurrence of a flag, or [default] when the
    flag does not occur. *)
Definition last_value (is_flag : string -> bool) (opts : list (string * Z))
    (default : Z) : Z :=
  fold_left (fun acc o => if is_flag (fst o) then snd o else acc) opts default.

(** The three fields the options assign, and the assignment one option
    makes: what [atoi] reads in the value token, converted to the field's
    type. *)
Definition fields : Type := (Z * Z * Z)%type.

Definition assign (s : fields) (o : string * string) : fields :=
  let '(d, n, v) := s in
  if is_domain_flag (fst o) then (to_unsigned (atoi (snd o)), n, v)
  else if is_sample_count_flag (fst o) then (d, to_unsigned (atoi (snd o)), v)
  else if is_verbosity_flag (fst o) then (d, n, atoi (snd o))
  else s.

Definition assign_all (opts : list (string * string)) (s : fields) : fields :=
  fold_left assign opts s.

(** The assignment of a plain [0] to the field of a flag. *)
Definition assign_zero (flag : string) (s : fields) : fields :=
  let '(d, n, v) := s in
  if is_domain_flag flag then (0, n, v)
  else if is_sample_count_flag flag then (d, 0, v)
  else if is_verbosity_flag flag then (d, n, 0)
  else s.

Definition arguments_of (r : ParseReturn) (s : fields) : ApplicationArguments :=
  let '(d, n, v) := s in mkArguments r d n v.

(** The fields held in the parser's locals, and locals with the position
    and the fields replaced. *)
Definition fields_of (l : locals) : fields :=
  (l_domain_id l, l_sample_count l, l_verbosity l).

Definition with_fields (l : locals) (i : nat) (s : fields) : locals :=
  let '(d, n, v) := s in
  mkLocals i (show_usage l) (l_parse_result l) d n v.

(** The positions at which the scan looks for a flag: the one after the
    program name, and the second one after a value-taking flag. *)
Inductive flag_position (argv : list string) : nat -> Prop :=
| flag_position_first : flag_position argv 1
| flag_position_next (i : nat) (tok : string) :
    flag_position argv i ->
    nth_error argv i = Some tok -> is_value_flag tok = true ->
    flag_position argv (i + 2).

(** Every occurrence of a value-taking flag, a token the scan takes for a
    flag, has a token after it. *)
Definition values_follow_flags (argv : list string) : Prop :=
  forall i tok,
    flag_position argv i ->
    nth_error argv i = Some tok -> is_value_flag tok = true ->
    (i + 1 < List.length argv)%nat.

(** The same asked of every token after the program name that is spelled
    like a value-taking flag, also one standing as a value. *)
Definition flags_have_values (argv : list string) : Prop :=
  forall i tok,
    (1 <= i)%nat -> nth_error argv i = Some tok -> is_value_flag tok = true ->
    (i + 1 < List.length argv)%nat.

Definition in_bounds (argv : list string) (i : nat) : Prop :=
  (1 <= i <= List.length argv - 1)%nat.

End CommandLine.

(** * Vocabulary of the run loops *)
Module RunLoop.
Import Application.

(** No termination signal is delivered before the evaluations [k] to
    [k + n - 1] of the loop condition. *)
Definition quiet (signals : nat -> list Z) (k n : nat) : Prop :=
  forall j, (k <= j < k + n)%nat -> signals j = [].

(** The hello-world publisher: the value of [int count] at pass [k], and
    the events of the passes [k] to [k + n - 1]. *)
Definition hello_count (k : nat) : Z := to_int (Z.of_nat k).

Definition hello_passes (k n : nat) : trace :=
  flat_map (fun j => HelloWorldPublisher.iteration (hello_count j)) (seq k n).

Section Temperature.
Import TemperaturePublisher.
Variable DDS_RETCODE_OK : Z.

(** The temperature publisher: the value of [unsigned int count] at pass
    [k], the events of pass [k], and those of the passes [k] to
    [k + n - 1]. *)
Definition temperature_count (k : nat) : Z := to_unsigned (Z.of_nat k).

Definition temperature_pass (m : middleware) (sensor : string) (k : nat)
  : trace :=
  [ Cout [Str "Writing ChocolateTemperature, count "; Num (temperature_count k)];
    Dds (write (snprintf 255 sensor) (to_int (Z.rem (r_rand m k) 3 + 30))) ]
  ++ (if negb (r_write m k =? DDS_RETCODE_OK)
      then [Cerr [Str "write error "; Num (r_write m k)]] else [])
  ++ [ Dds (NDDSUtility_sleep 4 0) ].

Definition temperature_passes (m : middleware) (sensor : string) (k n : nat)
  : trace :=
  flat_map (temperature_pass m sensor) (seq k n).

(** Whether a clean-up call of [shutdown] is made and fails, and the events
    [shutdown] leaves after its message. *)
Definition cleanup_failed (m : middleware) (participant : pointer) : bool :=
  (negb (is_null participant)
   && (negb (r_delete_contained_entities m =? DDS_RETCODE_OK)
       || negb (r_delete_participant m =? DDS_RETCODE_OK)))%bool.

Definition cleanup (m : middleware) (participant : pointer) : trace :=
  if is_null participant then []
  else
    [Dds delete_contained_entities]
    ++ (if negb (r_delete_contained_entities m =? DDS_RETCODE_OK)
        then [Cerr [Str "delete_contained_entities error ";
                    Num (r_delete_contained_entities m)]]
        else [])
    ++ [Dds delete_participant]
    ++ (if negb (r_delete_participant m =? DDS_RETCODE_OK)
        then [Cerr [Str "delete_participant error ";
                    Num (r_delete_participant m)]]
        else []).

Definition finalize_failed (m : middleware) : bool :=
  negb (r_finalize_instance m =? DDS_RETCODE_OK).

(** The set-up steps of [run_example] that can fail, in the order they are
    taken; the first one that fails under [m]; the calls made up to and
    including a step; and the message [shutdown] is given when it fails. *)
Inductive setup_step : Type :=
| At_create_participant
| At_create_publisher
| At_register_type
| At_create_topic
| At_create_datawriter
| At_narrow
| At_create_data.

Definition setup_failure (m : middleware) : option setup_step :=
  if is_null (r_create_participant m) then Some At_create_participant
  else if is_null (r_create_publisher m) then Some At_create_publisher
  else if negb (r_register_type m =? DDS_RETCODE_OK) then Some At_register_type
  else if is_null (r_create_topic m) then Some At_create_topic
  else if is_null (r_create_datawriter m) then Some At_create_datawriter
  else if is_null (r_narrow m) then Some At_narrow
  else if is_null (r_create_data m) then Some At_create_data
  else None.

Definition all_setup_calls (domain : Z) : trace :=
  [ Dds (create_participant domain); Dds create_publisher; Dds get_type_name;
    Dds register_type; Dds (create_topic "ChocolateTemperature");
    Dds create_datawriter; Dds narrow; Dds create_data ].

Definition setup_calls (domain : Z) (s : setup_step) : trace :=
  firstn (match s with
          | At_create_participant => 1
          | At_create_publisher => 2
          | At_register_type => 4
          | At_create_topic => 5
          | At_create_datawriter => 6
          | At_narrow => 7
          | At_create_data => 8
          end) (all_setup_calls domain).

Definition error_message (s : setup_step) : string :=
  match s with
  | At_create_participant => "create_participant error"
  | At_create_publisher => "create_publisher error"
  | At_register_type => "register_type error"
  | At_create_topic => "create_topic error"
  | At_create_datawriter => "create_datawriter error"
  | At_narrow => "DataWriter narrow error"
  | At_create_data => "TemperatureTypeSupport::create_data error"
  end.

(** The events after the loop of a run whose set-up succeeded. *)
Definition wind_down (m : middleware) : trace :=
  [Dds delete_data]
  ++ (if negb (r_delete_data m =? DDS_RETCODE_OK)
      then [Cerr [Str "TemperatureTypeSupport::delete_data error ";
                  Num (r_delete_data m)]]
      else [])
  ++ Cout [Str "shutting down"] :: cleanup m (r_create_participant m).

End Temperature.

(** Calls that create an entity or register a type, and calls that move
    data. *)
Definition creates_or_transfers (e : event) : bool :=
  match e with
  | Dds (create_participant _) | Dds create_publisher | Dds create_subscriber
  | Dds register_type | Dds (create_topic _) | Dds create_datawriter
  | Dds create_datareader | Dds narrow | Dds create_data
  | Dds (write _ _) | Dds take
  | Dds (DomainParticipant_ctor _) | Dds (Topic_ctor _) | Dds Publisher_ctor
  | Dds DataWriter_ctor | Dds DataWriter_write => true
  | _ => false
  end.

Definition on_stderr (e : event) : bool :=
  match e with Cerr _ => true | _ => false end.

(** An outside in which nothing goes wrong and no signal arrives. *)
Definition calm_world : HelloWorldPublisher.world :=
  HelloWorldPublisher.mkWorld None None None None (fun _ => None) (fun _ => []).

Definition calm_middleware : TemperaturePublisher.middleware :=
  TemperaturePublisher.mkMiddleware (Ptr 1) (Ptr 2) 0 (Ptr 3) (Ptr 4) (Ptr 4)
    (Ptr 5) (fun _ => 0) (fun k => Z.of_nat k) 0 0 0 0 (fun _ => []).

End RunLoop.

(** * Vocabulary of the further properties *)
Module Further.
Import Application CommandLine.

(** What the parser prints for each outcome. *)
Definition parser_output (r : ParseReturn) : trace :=
  match r with
  | PARSE_RETURN_OK => []
  | PARSE_RETURN_EXIT =>
      [Cout [Str "Example application."]; Cout [Str usage_text]]
  | PARSE_RETURN_FAILURE =>
      [Cout [Str "Bad parameter."]; Cout [Str usage_text]]
  end.

(** The value an [unsigned int] field holds after an [int] is stored in
    it. *)
Definition stored (o : string * Z) : string * Z :=
  (fst o, if snd o <? 0 then snd o + UINT_MODULUS else snd o).

(** A text that does not go on with a digit. *)
Definition no_leading_digit (s : string) : bool :=
  match s with
  | String c _ => negb (isdigit c)
  | EmptyString => true
  end.

(** An option whose value is a numeral followed by such a text, and the
    option without the text. *)
Definition trailed_option (o : string * (Z * string)) : string * string :=
  (fst o, (decimal (fst (snd o)) ++ snd (snd o))%string).

Definition plain_option (o : string * (Z * string)) : string * string :=
  (fst o, decimal (fst (snd o))).

(** The hello-world publisher: the entities [run_example] constructs, in
    order; what [main] has done when the loop starts; and the first
    constructor that throws, with its position and message. *)
Definition hello_ctors (domain : Z) : trace :=
  [ Dds (DomainParticipant_ctor domain); Dds (Topic_ctor "Example HelloMessage");
    Dds Publisher_ctor; Dds DataWriter_ctor ].

Definition hello_start (verbosity : Z) : trace :=
  [ Signal_installed SIGINT; Signal_installed SIGTERM;
    Dds (Logger_verbosity verbosity) ].

Definition setup_throw (w : HelloWorldPublisher.world) : option (nat * string) :=
  match HelloWorldPublisher.participant_throws w with
  | Some what => Some (1%nat, what)
  | None =>
  match HelloWorldPublisher.topic_throws w with
  | Some what => Some (2%nat, what)
  | None =>
  match HelloWorldPublisher.publisher_throws w with
  | Some what => Some (3%nat, what)
  | None =>
  match HelloWorldPublisher.datawriter_throws w with
  | Some what => Some (4%nat, what)
  | None => None
  end end end end.

(** The events of a pass whose [write] throws. *)
Definition broken_pass (count : Z) : trace :=
  [ Cout [Str "Writing HelloMessage, count "; Num count]; Dds DataWriter_write ].

Definition caught (what : string) : event :=
  Cerr [Str "Exception in publisher_main(): "; Str what].

(** The notice of the signal handler. *)
Definition shutdown_notice : event := Cout [Str "preparing to shut down..."].

(** What a sample written by the temperature publisher looks like: its
    sensor identifier is the first 254 characters of the one given, its
    temperature lies between 30 and 32. *)
Definition sample_written (sensor : string) (e : event) : Prop :=
  match e with
  | Dds (write s degrees) =>
      prefix s sensor = true
      /\ String.length s = Nat.min 254 (String.length sensor)
      /\ 30 <= degrees <= 32
  | _ => True
  end.

(** The temperature subscriber: what [process_data] does with one sample
    of a take, the number of valid samples in a take, and the events of a
    pass of the main loop whose wait times out. *)
Definition sample_event (valid_data : bool) : event :=
  if valid_data then Dds print_data
  else Cout [Str "Received instance state notification"].

Definition count_valid (valid : list bool) : nat :=
  List.length (filter (fun b => b) valid).

Definition timed_out_pass : trace :=
  [Dds (waitset_wait 4 0); Cout [Str "Wait timed out after 4 seconds."]].

(** How often the participant has been deleted so far. *)
Definition is_delete_participant (e : event) : bool :=
  match e with Dds delete_participant => true | _ => false end.

Definition deletions (p : process) : nat :=
  List.length (filter is_delete_participant (events p)).

(** The set-up steps of the subscriber whose failure does not keep
    [run_example] from reaching its loop, and how many of them fail. *)
Definition failed_steps (DDS_RETCODE_OK : Z)
    (m : TemperatureSubscriber.middleware) : nat :=
  count_valid
    [ negb (TemperatureSubscriber.r_register_type m =? DDS_RETCODE_OK);
      is_null (TemperatureSubscriber.r_create_topic m);
      negb (TemperatureSubscriber.r_set_enabled_statuses m =? DDS_RETCODE_OK);
      negb (TemperatureSubscriber.r_attach_condition m =? DDS_RETCODE_OK);
      is_null (TemperatureSubscriber.r_narrow m) ].

(** Whether one of the two deletions of the [n]-th [shutdown] fails. *)
Definition deletion_fails (DDS_RETCODE_OK : Z)
    (m : TemperatureSubscriber.middleware) (n : nat) : bool :=
  negb (TemperatureSubscriber.r_delete_contained_entities m n
        =? DDS_RETCODE_OK)
  || negb (TemperatureSubscriber.r_delete_participant m n =? DDS_RETCODE_OK).

(** A subscriber whose [register_type] fails (with [0] for
    [DDS_RETCODE_OK]) and which is offered one valid sample per pass; and
    one that cannot create its participant. *)
Definition failing_registration : TemperatureSubscriber.middleware :=
  TemperatureSubscriber.mkMiddleware (Ptr 1) (Ptr 2) 7 (Ptr 3) (Ptr 4) (Ptr 5)
    0 0 (Ptr 4) (fun _ => 0) (fun _ => 1024) (fun _ => [true])
    (fun _ => 0) (fun _ => 0) (fun _ => []).

Definition no_participant : TemperatureSubscriber.middleware :=
  TemperatureSubscriber.mkMiddleware NULL (Ptr 2) 0 (Ptr 3) (Ptr 4) (Ptr 5)
    0 0 (Ptr 4) (fun _ => 0) (fun _ => 1024) (fun _ => [true])
    (fun _ => 0) (fun _ => 0) (fun _ => []).

(** A subscriber whose waits time out twice (with [10] for
    [DDS_RETCODE_TIMEOUT]) before a take of three samples, two of them
    valid. *)
Definition slow_start : TemperatureSubscriber.middleware :=
  TemperatureSubscriber.mkMiddleware (Ptr 1) (Ptr 2) 0 (Ptr 3) (Ptr 4) (Ptr 5)
    0 0 (Ptr 4) (fun k => if (k <? 2)%nat then 10 else 0) (fun _ => 1024)
    (fun _ => [true; false; true])
    (fun _ => 0) (fun _ => 0) (fun _ => []).

Definition is_write (e : event) : bool :=
  match e with Dds (write _ _) => true | _ => false end.

(** The two calls that delete entities. *)
Definition is_delete (e : event) : bool :=
  match e with
  | Dds delete_contained_entities | Dds delete_participant => true
  | _ => false
  end.

End Further.

(** * Properties *)

(** ** Machine integers and [atoi] *)

Lemma to_int_small (z : Z) : INT_MIN <= z <= INT_MAX -> to_int z = z.
Proof.
  unfold INT_MIN, INT_MAX, to_int, UINT_MODULUS. intros H.
  rewrite Z.mod_small; lia.
Qed.

Lemma to_unsigned_small (z : Z) : 0 <= z < UINT_MODULUS -> to_unsigned z = z.
Proof. unfold to_unsigned. intros H. now apply Z.mod_small. Qed.

Ltac eval_digit :=
  unfold digit_value;
  match goal with
  | |- context [Z.of_nat (nat_of_ascii ?c)] =>
      let v := eval vm_compute in (Z.of_nat (nat_of_ascii c)) in
      change (Z.of_nat (nat_of_ascii c)) with v
  end;
  match goal with
  | |- context [DecimalPos.Unsigned.of_lu (?k Decimal.Nil)] =>
      let v := eval vm_compute in (DecimalPos.Unsigned.of_lu (k Decimal.Nil)) in
      change (DecimalPos.Unsigned.of_lu (k Decimal.Nil)) with v
  end.

Lemma atoi_digits_string_of_uint (d : Decimal.uint) (acc : Z) :
  atoi_digits acc (DecimalString.NilEmpty.string_of_uint d)
  = acc * 10 ^ Z.of_N (DecimalPos.Unsigned.usize d) + Z.of_N (DecimalPos.Unsigned.of_lu (Decimal.rev d)).
Proof.
  revert acc.
  induction d as [|d IH|d IH|d IH|d IH|d IH|d IH|d IH|d IH|d IH|d IH];
    intros acc;
    [ simpl; lia | .. ];
    cbn [DecimalString.NilEmpty.string_of_uint atoi_digits];
    change (isdigit _) with true; cbv iota;
    unfold Decimal.rev; cbn [Decimal.revapp];
    rewrite (DecimalPos.Unsigned.of_lu_revapp d); rewrite IH;
    cbn [DecimalPos.Unsigned.usize];
    rewrite N2Z.inj_succ, Z.pow_succ_r by lia;
    rewrite N2Z.inj_add, N2Z.inj_mul, N2Z.inj_pow;
    eval_digit; change (Z.of_N 10) with 10; fold (Decimal.rev d);
    lazymatch goal with
    | |- context [Z.of_N ?k * _] =>
        let v := eval vm_compute in (Z.of_N k) in change (Z.of_N k) with v
    end; ring.
Qed.

Lemma skip_spaces_uint (d : Decimal.uint) :
  skip_spaces (DecimalString.NilZero.string_of_uint d) = DecimalString.NilZero.string_of_uint d.
Proof. destruct d; reflexivity. Qed.

Lemma strtol_value_uint (d : Decimal.uint) :
  strtol_value (DecimalString.NilZero.string_of_uint d) = Z.of_uint d.
Proof.
  unfold Z.of_uint. rewrite DecimalPos.Unsigned.of_uint_alt.
  destruct d; [ reflexivity | .. ];
    match goal with
    | |- strtol_value (DecimalString.NilZero.string_of_uint ?x) = _ =>
        change (strtol_value (DecimalString.NilZero.string_of_uint x))
          with (atoi_digits 0 (DecimalString.NilEmpty.string_of_uint x));
        rewrite (atoi_digits_string_of_uint x 0)
    end; lia.
Qed.

Lemma strtol_value_decimal (z : Z) : strtol_value (decimal z) = z.
Proof.
  unfold decimal.
  rewrite <- (DecimalZ.of_to z) at 2.
  destruct (Z.to_int z) as [d|d]; cbn [DecimalString.NilZero.string_of_int Z.of_int].
  - apply strtol_value_uint.
  - rewrite <- strtol_value_uint.
    destruct d; reflexivity.
Qed.

Example atoi_examples :
  atoi "5" = 5 /\ atoi "abc" = 0 /\ atoi "  -12x" = -12 /\ atoi "+7" = 7
  /\ decimal 10 = "10" /\ decimal 0 = "0" /\ decimal (-120) = "-120".
Proof. repeat split. Qed.

Lemma atoi_decimal (z : Z) : INT_MIN <= z <= INT_MAX -> atoi (decimal z) = z.
Proof.
  intros H. unfold atoi. rewrite strtol_value_decimal. now apply to_int_small.
Qed.

Lemma atoi_non_numeric (s : string) : non_numeric s = true -> atoi s = 0.
Proof.
  unfold non_numeric, unsigned_part, atoi, strtol_value.
  intros H.
  assert (E : forall r, match r with
                        | String c _ => negb (isdigit c)
                        | EmptyString => true
                        end = true -> atoi_digits 0 r = 0).
  { intros [|c r] Hr; [reflexivity|]. cbn [atoi_digits].
    destruct (isdigit c); [discriminate|reflexivity]. }
  destruct (skip_spaces s) as [|c r]; [reflexivity|].
  destruct (Ascii.eqb_spec c "-") as [->|N1].
  { rewrite (E _ H). reflexivity. }
  destruct (Ascii.eqb_spec c "+") as [->|N2].
  { rewrite (E _ H). reflexivity. }
  assert (G : atoi_digits 0 (String c r) = 0).
  { apply E.
    destruct c as [[] [] [] [] [] [] [] []]; try exact H; congruence. }
  destruct c as [[] [] [] [] [] [] [] []]; try (rewrite G; reflexivity);
    congruence.
Qed.

(** ** The parser's loop *)

Section ParserFacts.
Import Application CommandLine.

Lemma fields_of_with_fields l i s : fields_of (with_fields l i s) = s.
Proof. destruct s as [[d n] v]. reflexivity. Qed.

Lemma arg_processing_with_fields l i s :
  arg_processing (with_fields l i s) = i.
Proof. destruct s as [[d n] v]. reflexivity. Qed.

Lemma with_fields_twice l i s j t :
  with_fields (with_fields l i s) j t = with_fields l j t.
Proof. destruct s as [[d n] v], t as [[d' n'] v']. reflexivity. Qed.

Lemma nth_error_middle {A} (pre : list A) (x : A) (rest : list A) :
  nth_error (pre ++ x :: rest) (List.length pre) = Some x.
Proof.
  rewrite nth_error_app2 by lia. now rewrite Nat.sub_diag.
Qed.

Lemma nth_error_middle_next {A} (pre : list A) (x y : A) (rest : list A) :
  nth_error (pre ++ x :: y :: rest) (List.length pre + 1) = Some y.
Proof.
  rewrite nth_error_app2 by lia.
  replace (List.length pre + 1 - List.length pre)%nat with 1%nat by lia.
  reflexivity.
Qed.

(** A pass that continues has consumed two tokens, so the loop ends within
    [argc] passes: the parser always returns or faults. *)
Lemma loop_body_advances argv l io l' io' :
  loop_body argv l io = (Continue l', io') ->
  arg_processing l' = (arg_processing l + 2)%nat.
Proof.
  unfold loop_body.
  destruct (nth_error argv (arg_processing l)) as [tok|]; [|discriminate].
  destruct (nth_error argv (arg_processing l + 1)) as [v|];
    destruct (is_domain_flag tok); try discriminate;
    try (intros H; injection H as <- _; reflexivity);
    destruct (is_sample_count_flag tok); try discriminate;
    try (intros H; injection H as <- _; reflexivity);
    destruct (is_verbosity_flag tok); try discriminate;
    try (intros H; injection H as <- _; reflexivity);
    destruct (is_help_flag tok); discriminate.
Qed.

Lemma parse_loop_total fuel : forall argc argv l io,
  (argc - arg_processing l <= fuel)%nat ->
  exists r, parse_loop fuel argc argv l io = Some r.
Proof.
  induction fuel as [|fuel IH]; intros argc argv l io Hfuel; cbn [parse_loop];
    destruct (Nat.ltb_spec (arg_processing l) argc) as [Hlt|Hge];
    try (eexists; reflexivity); [lia|].
  destruct (loop_body argv l io) as [[l'| |] io'] eqn:Hbody;
    try (eexists; reflexivity).
  apply IH. rewrite (loop_body_advances _ _ _ _ _ Hbody). lia.
Qed.

Lemma parse_arguments_total EXC argc argv :
  exists r, parse_arguments EXC argc argv = Some r.
Proof.
  unfold parse_arguments.
  destruct (parse_loop_total argc argc argv (initial_locals EXC) (mkIo [] []))
    as [r ->]; [lia|].
  eexists. reflexivity.
Qed.

(** One pass over a value-taking flag and the token after it. *)
Lemma loop_body_option pre f v rest l io :
  List.length pre = arg_processing l ->
  is_value_flag f = true ->
  loop_body (pre ++ f :: v :: rest) l io
  = (Continue (with_fields l (arg_processing l + 2) (assign (fields_of l) (f, v))),
     log_read (arg_processing l + 1) (log_read (arg_processing l) io)).
Proof.
  intros Hlen Hf. unfold loop_body.
  rewrite <- Hlen, nth_error_middle, nth_error_middle_next.
  unfold is_value_flag in Hf. unfold assign, fields_of, with_fields.
  cbn [fst snd].
  destruct (is_domain_flag f); [reflexivity|].
  destruct (is_sample_count_flag f); [reflexivity|].
  destruct (is_verbosity_flag f); [reflexivity|discriminate].
Qed.

(** The loop over a run of options. *)
Lemma parse_loop_options opts : forall pre rest l io fuel argc argv,
  argv = pre ++ tokens opts ++ rest ->
  argc = List.length argv ->
  List.length pre = arg_processing l ->
  Forall (fun o => is_value_flag (fst o) = true) opts ->
  (List.length opts <= fuel)%nat ->
  parse_loop fuel argc argv l io
  = parse_loop (fuel - List.length opts) argc argv
      (with_fields l (arg_processing l + 2 * List.length opts)
         (assign_all opts (fields_of l)))
      (mkIo (reads io ++ seq (arg_processing l) (2 * List.length opts))
         (printed io)).
Proof.
  induction opts as [|[f v] opts IH]; intros pre rest l io fuel argc argv
    Hargv Hargc Hlen Hflags Hfuel.
  - cbn [List.length tokens flat_map assign_all fold_left seq Nat.mul].
    rewrite Nat.sub_0_r, Nat.add_0_r, app_nil_r.
    destruct l, io; reflexivity.
  - inversion Hflags as [|? ? Hf Hrest]; subst.
    cbn [List.length] in Hfuel.
    destruct fuel as [|fuel]; [lia|].
    cbn [tokens flat_map option_tokens fst snd app].
    fold (tokens opts).
    cbn [parse_loop].
    assert (Hlt : Nat.ltb (arg_processing l)
                    (List.length (pre ++ f :: v :: tokens opts ++ rest)) = true).
    { apply Nat.ltb_lt. rewrite length_app. cbn [List.length]. lia. }
    rewrite Hlt, (loop_body_option pre f v _ l io Hlen Hf).
    rewrite (IH (pre ++ [f; v]) rest); clear IH.
    + cbn [List.length Nat.sub].
      rewrite fields_of_with_fields, arg_processing_with_fields,
        with_fields_twice.
      f_equal.
      * cbn [assign_all fold_left]. f_equal. lia.
      * unfold log_read. cbn [reads printed]. f_equal.
        rewrite <- !app_assoc. f_equal.
        replace (2 * S (List.length opts))%nat
          with (S (S (2 * List.length opts))) by lia.
        cbn [seq app].
        replace (arg_processing l + 2)%nat with (S (S (arg_processing l))) by lia.
        replace (arg_processing l + 1)%nat with (S (arg_processing l)) by lia.
        reflexivity.
    + rewrite <- app_assoc. reflexivity.
    + reflexivity.
    + rewrite length_app, arg_processing_with_fields. cbn [List.length]. lia.
    + assumption.
    + lia.
Qed.

(** The whole call on a command line that begins with a run of options:
    the loop reaches the token after them with the options assigned. *)
Lemma parse_arguments_options EXC prog opts rest :
  Forall (fun o => is_value_flag (fst o) = true) opts ->
  let argv := prog :: tokens opts ++ rest in
  parse_arguments EXC (List.length argv) argv
  = option_map finish
      (parse_loop (List.length argv - List.length opts) (List.length argv) argv
         (with_fields (initial_locals EXC) (1 + 2 * List.length opts)
            (assign_all opts (0, 0, EXC)))
         (mkIo (seq 1 (2 * List.length opts)) [])).
Proof.
  intros Hflags argv. unfold parse_arguments. f_equal.
  apply (parse_loop_options opts [prog] rest); trivial.
  subst argv. cbn [List.length]. rewrite length_app.
  unfold tokens. rewrite (flat_map_constant_length (c := 2%nat)); [lia|].
  intros o _. reflexivity.
Qed.

Lemma length_tokens opts : List.length (tokens opts) = (2 * List.length opts)%nat.
Proof.
  unfold tokens. rewrite (flat_map_constant_length (c := 2%nat)); [lia|].
  intros o _. reflexivity.
Qed.

Lemma nth_error_after_options prog opts (rest : list string) (k : nat) :
  nth_error (prog :: tokens opts ++ rest) (1 + 2 * List.length opts + k)
  = nth_error rest k.
Proof.
  change (prog :: tokens opts ++ rest) with ([prog] ++ tokens opts ++ rest).
  rewrite app_assoc, nth_error_app2;
    rewrite length_app, length_tokens; cbn [List.length]; [|lia].
  f_equal. lia.
Qed.

(** After the options, the three ways the loop ends. *)
Lemma parse_arguments_end EXC prog opts :
  Forall (fun o => is_value_flag (fst o) = true) opts ->
  let argv := prog :: tokens opts in
  parse_arguments EXC (List.length argv) argv
  = Some (Returned (arguments_of PARSE_RETURN_OK (assign_all opts (0, 0, EXC))),
          mkIo (seq 1 (2 * List.length opts)) []).
Proof.
  intros Hflags argv.
  pose proof (parse_arguments_options EXC prog opts [] Hflags) as H.
  cbn zeta in H. rewrite List.app_nil_r in H. fold argv in H. rewrite H.
  subst argv. cbn [List.length]. rewrite length_tokens.
  destruct (S (2 * List.length opts) - List.length opts)%nat as [|fuel];
    cbn [parse_loop]; rewrite arg_processing_with_fields;
    replace (1 + 2 * List.length opts)%nat with (S (2 * List.length opts)) by lia;
    rewrite Nat.ltb_irrefl; cbn [option_map finish];
    destruct (assign_all opts (0, 0, EXC)) as [[d n] v]; reflexivity.
Qed.

Lemma parse_arguments_stop EXC prog opts tok rest :
  Forall (fun o => is_value_flag (fst o) = true) opts ->
  is_value_flag tok = false ->
  let argv := prog :: tokens opts ++ tok :: rest in
  parse_arguments EXC (List.length argv) argv
  = Some (Returned
            (arguments_of
               (if is_help_flag tok then PARSE_RETURN_EXIT
                else PARSE_RETURN_FAILURE)
               (assign_all opts (0, 0, EXC))),
          mkIo (seq 1 (2 * List.length opts + 1))
            [Cout [Str (if is_help_flag tok then "Example application."
                        else "Bad parameter.")];
             Cout [Str usage_text]]).
Proof.
  intros Hflags Htok argv.
  pose proof (parse_arguments_options EXC prog opts (tok :: rest) Hflags) as H.
  cbn zeta in H. fold argv in H. rewrite H. clear H.
  assert (Hlen : List.length argv
                 = (2 * List.length opts + 2 + List.length rest)%nat).
  { subst argv. cbn [List.length]. rewrite length_app, length_tokens.
    cbn [List.length]. lia. }
  rewrite Hlen.
  replace (2 * List.length opts + 2 + List.length rest - List.length opts)%nat
    with (S (List.length opts + 1 + List.length rest)) by lia.
  cbn [parse_loop]. rewrite arg_processing_with_fields.
  replace (Nat.ltb _ _) with true by (symmetry; apply Nat.ltb_lt; lia).
  unfold loop_body. rewrite arg_processing_with_fields.
  pose proof (nth_error_after_options prog opts (tok :: rest) 0) as Hnth.
  rewrite Nat.add_0_r in Hnth. subst argv. rewrite Hnth. cbn [nth_error].
  unfold is_value_flag in Htok.
  destruct (is_domain_flag tok); [discriminate|].
  destruct (is_sample_count_flag tok); [discriminate|].
  destruct (is_verbosity_flag tok); [discriminate|].
  replace (seq 1 (2 * List.length opts + 1))
    with (seq 1 (2 * List.length opts) ++ [(1 + 2 * List.length opts)%nat])
    by (rewrite seq_app; reflexivity).
  destruct (assign_all opts (0, 0, EXC)) as [[d n] v].
  destruct (is_help_flag tok); reflexivity.
Qed.

Lemma parse_arguments_missing_value EXC prog opts flag :
  Forall (fun o => is_value_flag (fst o) = true) opts ->
  is_value_flag flag = true ->
  let argv := prog :: tokens opts ++ [flag] in
  parse_arguments EXC (List.length argv) argv
  = Some (Faulted (List.length argv), mkIo (seq 1 (List.length argv)) []).
Proof.
  intros Hflags Hflag argv.
  pose proof (parse_arguments_options EXC prog opts [flag] Hflags) as H.
  cbn zeta in H. fold argv in H. rewrite H. clear H.
  assert (Hlen : List.length argv = (2 * List.length opts + 2)%nat).
  { subst argv. cbn [List.length]. rewrite length_app, length_tokens.
    cbn [List.length]. lia. }
  rewrite Hlen.
  replace (2 * List.length opts + 2 - List.length opts)%nat
    with (S (List.length opts + 1)) by lia.
  cbn [parse_loop]. rewrite arg_processing_with_fields.
  replace (Nat.ltb _ _) with true by (symmetry; apply Nat.ltb_lt; lia).
  unfold loop_body. rewrite arg_processing_with_fields.
  pose proof (nth_error_after_options prog opts [flag] 0) as Hnth0.
  rewrite Nat.add_0_r in Hnth0.
  pose proof (nth_error_after_options prog opts [flag] 1) as Hnth1.
  subst argv. rewrite Hnth0, Hnth1. cbn [nth_error].
  replace (seq 1 (2 * List.length opts + 2))
    with ((seq 1 (2 * List.length opts) ++ [(1 + 2 * List.length opts)%nat])
          ++ [(1 + 2 * List.length opts + 1)%nat]).
  2:{ replace (2 * List.length opts + 2)%nat
        with (2 * List.length opts + 1 + 1)%nat by lia.
      rewrite !seq_app. cbn [seq app]. repeat f_equal. }
  replace (2 * List.length opts + 2)%nat
    with (1 + 2 * List.length opts + 1)%nat by lia.
  unfold is_value_flag in Hflag.
  destruct (is_domain_flag flag); [reflexivity|].
  destruct (is_sample_count_flag flag); [reflexivity|].
  destruct (is_verbosity_flag flag); [reflexivity|discriminate].
Qed.

(** No token is two flags at once. *)
Lemma flags_disjoint tok :
  (is_domain_flag tok = true ->
     is_sample_count_flag tok = false /\ is_verbosity_flag tok = false
     /\ is_help_flag tok = false)
  /\ (is_sample_count_flag tok = true ->
        is_verbosity_flag tok = false /\ is_help_flag tok = false)
  /\ (is_verbosity_flag tok = true -> is_help_flag tok = false).
Proof.
  unfold is_domain_flag, is_sample_count_flag, is_verbosity_flag, is_help_flag.
  repeat match goal with |- _ /\ _ => split end;
    intros H; apply Bool.orb_true_iff in H;
    destruct H as [H|H]; apply String.eqb_eq in H; subst tok;
    repeat split; reflexivity.
Qed.

Lemma assign_numeral d n v (o : string * Z) :
  0 <= snd o <= INT_MAX ->
  assign (d, n, v) (numeral_option o)
  = (if is_domain_flag (fst o) then snd o else d,
     if is_sample_count_flag (fst o) then snd o else n,
     if is_verbosity_flag (fst o) then snd o else v).
Proof.
  destruct o as [f z]. cbn [fst snd]. intros Hz.
  unfold assign, numeral_option. cbn [fst snd].
  rewrite atoi_decimal by (unfold INT_MIN, INT_MAX in *; lia).
  rewrite to_unsigned_small by (unfold UINT_MODULUS, INT_MAX in *; lia).
  destruct (flags_disjoint f) as (Hd & Hs & _).
  destruct (is_domain_flag f).
  - destruct Hd as (-> & -> & _); reflexivity.
  - destruct (is_sample_count_flag f).
    + destruct Hs as (-> & _); reflexivity.
    + destruct (is_verbosity_flag f); reflexivity.
Qed.

Lemma assign_all_numerals (opts : list (string * Z)) : forall d n v,
  Forall (fun o => 0 <= snd o <= INT_MAX) opts ->
  assign_all (map numeral_option opts) (d, n, v)
  = (last_value is_domain_flag opts d,
     last_value is_sample_count_flag opts n,
     last_value is_verbosity_flag opts v).
Proof.
  induction opts as [|o opts IH]; intros d n v H; [reflexivity|].
  inversion H as [|? ? Ho Hopts]; subst.
  cbn [map assign_all fold_left last_value].
  rewrite (assign_numeral d n v o Ho).
  apply IH, Hopts.
Qed.

Lemma assign_all_app pre post s :
  assign_all (pre ++ post) s = assign_all post (assign_all pre s).
Proof. apply fold_left_app. Qed.

Lemma assign_non_numeric s flag tok :
  non_numeric tok = true -> assign s (flag, tok) = assign_zero flag s.
Proof.
  intros H. unfold assign, assign_zero. cbn [fst snd].
  rewrite (atoi_non_numeric tok H). reflexivity.
Qed.

(** [main] of the hello-world publisher when the parser does not say
    "proceed". *)
Lemma main_stops_after_parsing EXC fuel w argv a io :
  parse_arguments EXC (List.length argv) argv = Some (Returned a, io) ->
  parse_result a <> PARSE_RETURN_OK ->
  HelloWorldPublisher.main EXC fuel w argv
  = (Exited (match parse_result a with
             | PARSE_RETURN_EXIT => EXIT_SUCCESS
             | _ => EXIT_FAILURE
             end),
     mkProcess true (printed io)).
Proof.
  intros Hp Hr. unfold HelloWorldPublisher.main. rewrite Hp.
  destruct (parse_result a); [contradiction| |]; reflexivity.
Qed.

(** ** The argument parser: the claims *)

(** C10.  On the command line that holds the program name only,
    [parse_arguments] returns the defaults, [domain_id = 0],
    [sample_count = 0] and verbosity [EXCEPTION], with the outcome
    [PARSE_RETURN_OK]; it reads no token and prints nothing, in particular
    no usage message. *)
Theorem parse_arguments_defaults (EXC : Verbosity) (prog : string) :
  parse_arguments EXC 1 [prog]
  = Some (Returned (mkArguments PARSE_RETURN_OK 0 0 EXC), mkIo [] []).
Proof. reflexivity. Qed.

(** C1.  On a command line made only of value-taking flags, each followed
    by the decimal numeral of an integer between [0] and [INT_MAX],
    [parse_arguments] returns [PARSE_RETURN_OK] with every field holding
    the integer given after (the last occurrence of) its flag, or its
    default when the flag is absent, and prints nothing; so
    [-d 5 -s 10] gives [domain_id = 5], [sample_count = 10] and the
    default verbosity. *)
Theorem parse_arguments_valid_options (EXC : Verbosity) (prog : string)
    (opts : list (string * Z)) :
  Forall (fun o => is_value_flag (fst o) = true /\ 0 <= snd o <= INT_MAX) opts ->
  let argv := prog :: tokens (map numeral_option opts) in
  parse_arguments EXC (List.length argv) argv
  = Some (Returned
            (mkArguments PARSE_RETURN_OK
               (last_value is_domain_flag opts 0)
               (last_value is_sample_count_flag opts 0)
               (last_value is_verbosity_flag opts EXC)),
          mkIo (seq 1 (2 * List.length opts)) [])
  /\ parse_arguments EXC 5 [prog; "-d"; "5"; "-s"; "10"]
     = Some (Returned (mkArguments PARSE_RETURN_OK 5 10 EXC),
             mkIo [1; 2; 3; 4]%nat []).
Proof.
  intros H argv. split; [|reflexivity].
  assert (Hflags : Forall (fun o => is_value_flag (fst o) = true)
                     (map numeral_option opts)).
  { apply Forall_map. eapply Forall_impl; [|exact H].
    intros [f z] [Hf _]. exact Hf. }
  assert (Hvals : Forall (fun o : string * Z => 0 <= snd o <= INT_MAX) opts).
  { eapply Forall_impl; [|exact H]. intros o [_ Hz]. exact Hz. }
  subst argv.
  rewrite (parse_arguments_end EXC prog _ Hflags).
  rewrite (assign_all_numerals opts 0 0 EXC Hvals), length_map.
  reflexivity.
Qed.

(** A negative numeral is read as a negative [int] and wraps when it is
    stored in the [unsigned int] field. *)
Example parse_arguments_negative_domain :
  parse_arguments 1 3 ["publisher"; "-d"; "-1"]
  = Some (Returned (mkArguments PARSE_RETURN_OK 4294967295 0 1),
          mkIo [1; 2]%nat []).
Proof. reflexivity. Qed.

Lemma parse_arguments_valid_options_witness :
  parse_arguments 1 7 ["publisher"; "--domain"; "7"; "-v"; "3"; "-d"; "42"]
  = Some (Returned (mkArguments PARSE_RETURN_OK 42 0 3),
          mkIo [1; 2; 3; 4; 5; 6]%nat []).
Proof.
  refine (proj1 (parse_arguments_valid_options 1 "publisher"
                   [("--domain", 7); ("-v", 3); ("-d", 42)] _)).
  repeat constructor; cbn; unfold INT_MAX; lia.
Defined.

Lemma help_is_not_value_flag tok :
  is_help_flag tok = true -> is_value_flag tok = false.
Proof.
  intros H. unfold is_value_flag.
  destruct (flags_disjoint tok) as (Hd & Hs & Hv).
  destruct (is_domain_flag tok).
  { destruct Hd as (_ & _ & Hd); [reflexivity|congruence]. }
  destruct (is_sample_count_flag tok).
  { destruct Hs as (_ & Hs); [reflexivity|congruence]. }
  destruct (is_verbosity_flag tok); [|reflexivity].
  rewrite Hv in H by reflexivity. discriminate.
Qed.

(** C2.  When the scan, after any number of value-taking flags with their
    values, meets a token that is none of the recognized flags,
    [parse_arguments] stops there: the last token it reads is that one,
    whatever follows it; it prints "Bad parameter." and the usage message
    and returns [PARSE_RETURN_FAILURE].  [main] then exits with code 1
    having done nothing else: no call into the middleware is made.  So for
    the single argument [-x]. *)
Theorem parse_arguments_unrecognized (EXC : Verbosity) (prog : string)
    (opts : list (string * string)) (bad : string) (rest : list string)
    (fuel : nat) (w : HelloWorldPublisher.world) :
  Forall (fun o => is_value_flag (fst o) = true) opts ->
  is_recognized bad = false ->
  let argv := prog :: tokens opts ++ bad :: rest in
  let notice := [Cout [Str "Bad parameter."]; Cout [Str usage_text]] in
  parse_arguments EXC (List.length argv) argv
  = Some (Returned
            (arguments_of PARSE_RETURN_FAILURE (assign_all opts (0, 0, EXC))),
          mkIo (seq 1 (2 * List.length opts + 1)) notice)
  /\ HelloWorldPublisher.main EXC fuel w argv
     = (Exited 1, mkProcess true notice)
  /\ HelloWorldPublisher.main EXC fuel w [prog; "-x"]
     = (Exited 1, mkProcess true notice).
Proof.
  intros Hflags Hbad argv notice.
  unfold is_recognized in Hbad. apply Bool.orb_false_iff in Hbad.
  destruct Hbad as [Hval Hhelp].
  pose proof (parse_arguments_stop EXC prog opts bad rest Hflags Hval) as Hp.
  cbn zeta in Hp. rewrite Hhelp in Hp. fold argv notice in Hp.
  split; [exact Hp|]. split; [|reflexivity].
  rewrite (main_stops_after_parsing EXC fuel w argv _ _ Hp);
    destruct (assign_all opts (0, 0, EXC)) as [[d n] v];
    [reflexivity|discriminate].
Qed.

(** The usage text spells the long sample-count flag [--sample_count]; the
    parser compares with [--sample-count], so the spelling the text shows
    is a bad parameter. *)
Example parse_arguments_usage_spelling :
  parse_arguments 1 3 ["publisher"; "--sample_count"; "5"]
  = Some (Returned (mkArguments PARSE_RETURN_FAILURE 0 0 1),
          mkIo [1%nat]
            [Cout [Str "Bad parameter."]; Cout [Str usage_text]]).
Proof. reflexivity. Qed.

Lemma parse_arguments_unrecognized_witness :
  parse_arguments 1 4 ["publisher"; "-d"; "5"; "-x"]
  = Some (Returned (mkArguments PARSE_RETURN_FAILURE 5 0 1),
          mkIo [1; 2; 3]%nat
            [Cout [Str "Bad parameter."]; Cout [Str usage_text]]).
Proof.
  refine (proj1 (parse_arguments_unrecognized 1 "publisher" [("-d", "5")]
                   "-x" [] 0
                   (HelloWorldPublisher.mkWorld None None None None
                      (fun _ => None) (fun _ => [])) _ _)).
  - repeat constructor.
  - reflexivity.
Defined.

(** C3.  When the scan, after any number of value-taking flags with their
    values, meets [-h] or [--help], [parse_arguments] stops there: the last
    token it reads is the help flag and the tokens after it make no
    difference; it prints "Example application." and the usage message and
    returns [PARSE_RETURN_EXIT].  [main] then exits with code 0 having done
    nothing else. *)
Theorem parse_arguments_help (EXC : Verbosity) (prog : string)
    (opts : list (string * string)) (help : string) (rest : list string)
    (fuel : nat) (w : HelloWorldPublisher.world) :
  Forall (fun o => is_value_flag (fst o) = true) opts ->
  is_help_flag help = true ->
  let argv := prog :: tokens opts ++ help :: rest in
  let notice := [Cout [Str "Example application."]; Cout [Str usage_text]] in
  parse_arguments EXC (List.length argv) argv
  = Some (Returned
            (arguments_of PARSE_RETURN_EXIT (assign_all opts (0, 0, EXC))),
          mkIo (seq 1 (2 * List.length opts + 1)) notice)
  /\ HelloWorldPublisher.main EXC fuel w argv
     = (Exited 0, mkProcess true notice).
Proof.
  intros Hflags Hhelp argv notice.
  pose proof (parse_arguments_stop EXC prog opts help rest Hflags
                (help_is_not_value_flag help Hhelp)) as Hp.
  cbn zeta in Hp. rewrite Hhelp in Hp. fold argv notice in Hp.
  split; [exact Hp|].
  rewrite (main_stops_after_parsing EXC fuel w argv _ _ Hp);
    destruct (assign_all opts (0, 0, EXC)) as [[d n] v];
    [reflexivity|discriminate].
Qed.

Lemma parse_arguments_help_witness :
  HelloWorldPublisher.main 1 0
    (HelloWorldPublisher.mkWorld None None None None
       (fun _ => None) (fun _ => []))
    ["publisher"; "-s"; "3"; "--help"; "-x"; "-d"]
  = (Exited 0,
     mkProcess true
       [Cout [Str "Example application."]; Cout [Str usage_text]]).
Proof.
  refine (proj2 (parse_arguments_help 1 "publisher" [("-s", "3")]
                   "--help" ["-x"; "-d"] 0 _ _ _)).
  - repeat constructor.
  - reflexivity.
Defined.

(** C9.  A value-taking flag followed by a token in which [atoi] finds no
    number (such as [-d abc]) assigns [0] to the flag's field: the
    conversion is not checked.  Both tokens are consumed, the scan goes on
    through the options after them, nothing is printed and the outcome
    stays [PARSE_RETURN_OK]. *)
Theorem parse_arguments_non_numeric (EXC : Verbosity) (prog : string)
    (pre : list (string * string)) (flag tok : string)
    (post : list (string * string)) :
  Forall (fun o => is_value_flag (fst o) = true) pre ->
  is_value_flag flag = true ->
  non_numeric tok = true ->
  Forall (fun o => is_value_flag (fst o) = true) post ->
  let argv := prog :: tokens pre ++ flag :: tok :: tokens post in
  parse_arguments EXC (List.length argv) argv
  = Some (Returned
            (arguments_of PARSE_RETURN_OK
               (assign_all post
                  (assign_zero flag (assign_all pre (0, 0, EXC))))),
          mkIo (seq 1 (List.length argv - 1)) [])
  /\ parse_arguments EXC 3 [prog; "-d"; "abc"]
     = Some (Returned (mkArguments PARSE_RETURN_OK 0 0 EXC),
             mkIo [1; 2]%nat []).
Proof.
  intros Hpre Hflag Htok Hpost argv. split; [|reflexivity].
  assert (Hargv : argv = prog :: tokens (pre ++ (flag, tok) :: post)).
  { subst argv. unfold tokens. rewrite flat_map_app. reflexivity. }
  rewrite Hargv.
  rewrite parse_arguments_end.
  - rewrite assign_all_app. cbn [assign_all fold_left].
    rewrite (assign_non_numeric _ flag tok Htok).
    cbn [List.length]. rewrite length_tokens.
    match goal with
    | |- context [(S ?n - 1)%nat] => replace (S n - 1)%nat with n by lia
    end.
    reflexivity.
  - apply Forall_app. split; [assumption|]. constructor; assumption.
Qed.

Lemma parse_arguments_non_numeric_witness :
  parse_arguments 1 7 ["publisher"; "-s"; "4"; "--verbosity"; "-h"; "-d"; "9"]
  = Some (Returned (mkArguments PARSE_RETURN_OK 9 4 0),
          mkIo [1; 2; 3; 4; 5; 6]%nat []).
Proof.
  refine (proj1 (parse_arguments_non_numeric 1 "publisher" [("-s", "4")]
                   "--verbosity" "-h" [("-d", "9")] _ _ _ _)).
  - repeat constructor.
  - reflexivity.
  - reflexivity.
  - repeat constructor.
Defined.

Lemma Forall_log_read (P : nat -> Prop) i io :
  Forall P (reads io) -> P i -> Forall P (reads (log_read i io)).
Proof.
  intros H Hi. unfold log_read. cbn [reads].
  apply Forall_app. split; [assumption|]. constructor; [assumption|constructor].
Qed.

Lemma flag_position_positive argv i : flag_position argv i -> (1 <= i)%nat.
Proof. induction 1; lia. Qed.

Lemma flags_have_values_follow argv :
  flags_have_values argv -> values_follow_flags argv.
Proof.
  intros H i tok Hpos. apply H. now apply flag_position_positive in Hpos.
Qed.

Lemma parse_loop_in_bounds argv (Hargv : values_follow_flags argv) fuel :
  forall l io,
    flag_position argv (arg_processing l) ->
    (List.length argv - arg_processing l <= fuel)%nat ->
    Forall (in_bounds argv) (reads io) ->
    exists l' io',
      parse_loop fuel (List.length argv) argv l io = Some (Break l', io')
      /\ Forall (in_bounds argv) (reads io').
Proof.
  induction fuel as [|fuel IH]; intros l io Hl Hfuel Hio; cbn [parse_loop];
    destruct (Nat.ltb_spec (arg_processing l) (List.length argv)) as [Hlt|Hge];
    try (exists l, io; split; [reflexivity|assumption]);
    [lia|].
  pose proof (flag_position_positive _ _ Hl) as Hpos.
  unfold loop_body.
  destruct (nth_error argv (arg_processing l)) as [tok|] eqn:Htok;
    [|apply nth_error_None in Htok; lia].
  assert (Hhere : in_bounds argv (arg_processing l)) by (unfold in_bounds; lia).
  assert (Hnext : is_value_flag tok = true ->
            exists v, nth_error argv (arg_processing l + 1) = Some v
                      /\ in_bounds argv (arg_processing l + 1)
                      /\ flag_position argv (arg_processing l + 2)).
  { intros Hv. pose proof (Hargv _ _ Hl Htok Hv) as Hi.
    destruct (nth_error argv (arg_processing l + 1)) as [v|] eqn:E.
    - exists v. split; [reflexivity|]. split; [unfold in_bounds; lia|].
      now apply (flag_position_next argv _ tok).
    - apply nth_error_None in E. lia. }
  unfold is_value_flag in Hnext.
  destruct (is_domain_flag tok);
    [|destruct (is_sample_count_flag tok);
      [|destruct (is_verbosity_flag tok)]];
    try (destruct Hnext as (v & -> & Hin & Hfp); [reflexivity|];
         apply IH; cbn [arg_processing];
         [exact Hfp|lia|repeat apply Forall_log_read; assumption]).
  destruct (is_help_flag tok); eexists _, _;
    (split; [reflexivity|]); cbn [print reads];
    apply Forall_log_read; assumption.
Qed.

Lemma firstn_succ_nth {A} (l : list A) : forall i x,
  nth_error l i = Some x -> firstn (S i) l = firstn i l ++ [x].
Proof.
  induction l as [|y l IH]; intros [|i] x H; try discriminate.
  - injection H as ->. reflexivity.
  - cbn [firstn app]. f_equal. now apply IH.
Qed.

(** Up to a flag position the command line is the program name and a run
    of options. *)
Lemma flag_position_options argv i :
  flag_position argv i -> (i <= List.length argv)%nat ->
  exists prog opts,
    firstn i argv = prog :: tokens opts
    /\ Forall (fun o => is_value_flag (fst o) = true) opts.
Proof.
  induction 1 as [|i tok Hpos IH Htok Hflag]; intros Hlen.
  - destruct argv as [|prog rest]; [cbn in Hlen; lia|].
    exists prog, []. split; [reflexivity|constructor].
  - destruct IH as (prog & opts & Hfirst & Hopts); [lia|].
    destruct (nth_error argv (i + 1)) as [v|] eqn:Hv;
      [|apply nth_error_None in Hv; lia].
    exists prog, (opts ++ [(tok, v)]). split.
    + replace (i + 2)%nat with (S (S i)) by lia.
      rewrite (firstn_succ_nth argv (S i) v)
        by (now replace (S i) with (i + 1)%nat by lia).
      rewrite (firstn_succ_nth argv i tok Htok), Hfirst.
      unfold tokens. rewrite flat_map_app. cbn [flat_map option_tokens fst snd].
      rewrite List.app_nil_r, <- !app_assoc. reflexivity.
    + apply Forall_app. split; [assumption|]. repeat constructor. exact Hflag.
Qed.

Lemma skipn_last {A} (l : list A) : forall i x,
  nth_error l i = Some x -> (i + 1 = List.length l)%nat -> skipn i l = [x].
Proof.
  induction l as [|y l IH]; intros [|i] x H Hlen; try discriminate.
  - injection H as ->. destruct l; [reflexivity|cbn in Hlen; lia].
  - cbn [skipn]. apply IH; [exact H|cbn in Hlen; lia].
Qed.

(** C6.  Call an occurrence of a value-taking flag a token the scan takes
    for a flag and that is one.  If every such occurrence has a token after
    it, [parse_arguments] returns and every index of [argv] it reads lies
    between [1] and [argc - 1].  If one has none, so that it is the last
    token and the scan stands on it with [arg_processing + 1 = argc], the
    parser reads [argv[argc]], one position past the tokens given: that
    element is the null pointer and the call faults on it.  (The first
    half holds all the more when every token spelled like a value-taking
    flag has a token after it.) *)
Theorem parse_arguments_reads (EXC : Verbosity) (argv : list string) :
  (values_follow_flags argv ->
   exists a io,
     parse_arguments EXC (List.length argv) argv = Some (Returned a, io)
     /\ Forall (in_bounds argv) (reads io))
  /\ (forall i flag,
        flag_position argv i ->
        nth_error argv i = Some flag -> is_value_flag flag = true ->
        (i + 1 = List.length argv)%nat ->
        let argc := List.length argv in
        parse_arguments EXC argc argv
        = Some (Faulted argc, mkIo (seq 1 argc) [])
        /\ In argc (seq 1 argc)
        /\ nth_error argv argc = None)
  /\ (flags_have_values argv -> values_follow_flags argv).
Proof.
  split; [|split].
  - intros Hargv. unfold parse_arguments.
    destruct (parse_loop_in_bounds argv Hargv (List.length argv)
                (initial_locals EXC) (mkIo [] []))
      as (l & io & Hloop & Hreads);
      [constructor | lia | constructor |].
    rewrite Hloop. cbn [option_map finish].
    destruct (show_usage l); eexists _, _; (split; [reflexivity|]);
      cbn [print reads]; assumption.
  - intros i flag Hpos Hflag Hvalue Hlast argc.
    destruct (flag_position_options argv i Hpos) as (prog & opts & Hfirst & Hopts);
      [lia|].
    assert (Hargv : argv = prog :: tokens opts ++ [flag]).
    { rewrite <- (firstn_skipn i argv) at 1.
      rewrite Hfirst, (skipn_last argv i flag Hflag Hlast). reflexivity. }
    split; [|split].
    + subst argc. rewrite Hargv.
      now apply parse_arguments_missing_value.
    + apply in_seq. pose proof (flag_position_positive _ _ Hpos). lia.
    + apply nth_error_None. lia.
  - apply flags_have_values_follow.
Qed.

Lemma parse_arguments_reads_witness :
  (exists a io,
     parse_arguments 1 4 ["publisher"; "-d"; "-d"; "-h"] = Some (Returned a, io)
     /\ Forall (in_bounds ["publisher"; "-d"; "-d"; "-h"]) (reads io))
  /\ parse_arguments 1 4 ["publisher"; "-s"; "2"; "-d"]
     = Some (Faulted 4, mkIo [1; 2; 3; 4]%nat []).
Proof.
  split.
  - refine (proj1 (parse_arguments_reads 1 ["publisher"; "-d"; "-d"; "-h"]) _).
    apply flags_have_values_follow.
    intros [|[|[|[|[|i]]]]] tok Hi Htok Hflag; cbn in *;
      try lia; try discriminate;
      injection Htok as <-; try discriminate; lia.
  - refine (proj1 (proj1 (proj2 (parse_arguments_reads 1
                                   ["publisher"; "-s"; "2"; "-d"]))
                     3%nat "-d" _ _ _ _)).
    + apply (flag_position_next _ 1 "-s"); [constructor|reflexivity..].
    + reflexivity.
    + reflexivity.
    + reflexivity.
Defined.

(** A token spelled like a flag but standing as a value is not an
    occurrence of the flag: [-d -d] sets the domain to [atoi "-d" = 0] and
    ends the scan in bounds. *)
Example parse_arguments_flag_as_value :
  parse_arguments 1 3 ["publisher"; "-d"; "-d"]
  = Some (Returned (mkArguments PARSE_RETURN_OK 0 0 1), mkIo [1; 2]%nat []).
Proof. reflexivity. Qed.

End ParserFacts.

(** ** The run loops *)

Section LoopFacts.
Import Application RunLoop.

Lemma emits_nil p : emits [] p = p.
Proof. destruct p. unfold emits. cbn. now rewrite List.app_nil_r. Qed.

Lemma emits_emits t u p : emits u (emits t p) = emits (t ++ u) p.
Proof. unfold emits. cbn. now rewrite app_assoc. Qed.

Lemma emit_emits e p : emit e p = emits [e] p.
Proof. reflexivity. Qed.

Lemma running_emits t p : running (emits t p) = running p.
Proof. reflexivity. Qed.

Lemma deliver_nil p : deliver [] p = p.
Proof. reflexivity. Qed.

Lemma running_deliver signos p :
  running (deliver signos p)
  = match signos with [] => running p | _ => false end.
Proof.
  destruct signos as [|s signos]; [reflexivity|].
  unfold deliver. cbn [fold_left].
  generalize (stop_handler s p) (eq_refl : running (stop_handler s p) = false).
  induction signos as [|s' signos IH]; intros q Hq; [exact Hq|].
  cbn [fold_left]. apply IH. reflexivity.
Qed.

Lemma hello_count_succ k : to_int (hello_count k + 1) = hello_count (S k).
Proof.
  unfold hello_count, to_int, UINT_MODULUS. rewrite Nat2Z.inj_succ.
  f_equal.
  replace ((Z.of_nat k + 2 ^ 31) mod 2 ^ 32 - 2 ^ 31 + 1 + 2 ^ 31)
    with ((Z.of_nat k + 2 ^ 31) mod 2 ^ 32 + 1) by lia.
  rewrite Zplus_mod_idemp_l. f_equal. lia.
Qed.

Lemma hello_count_small k : Z.of_nat k <= INT_MAX -> hello_count k = Z.of_nat k.
Proof.
  intros H. apply to_int_small. unfold INT_MIN, INT_MAX in *. lia.
Qed.

Lemma hello_passes_succ k n :
  hello_passes k (S n)
  = HelloWorldPublisher.iteration (hello_count k) ++ hello_passes (S k) n.
Proof. reflexivity. Qed.

(** [n] passes of the hello-world loop during which no signal arrives, no
    write throws and the condition on the count holds. *)
Lemma hello_write_loop_passes w sc n : forall fuel k p,
  running p = true ->
  quiet (HelloWorldPublisher.signals w) k n ->
  (forall j, (k <= j < k + n)%nat -> HelloWorldPublisher.write_throws w j = None) ->
  (forall j, (k <= j < k + n)%nat -> hello_count j < sc \/ sc = 0) ->
  (n <= fuel)%nat ->
  HelloWorldPublisher.write_loop fuel w k (hello_count k) sc p
  = HelloWorldPublisher.write_loop (fuel - n) w (k + n) (hello_count (k + n)) sc
      (emits (hello_passes k n) p).
Proof.
  induction n as [|n IH]; intros fuel k p Hrun Hquiet Hthrow Hcond Hfuel.
  - rewrite Nat.sub_0_r, Nat.add_0_r. unfold hello_passes. cbn [seq flat_map].
    now rewrite emits_nil.
  - destruct fuel as [|fuel]; [lia|].
    cbn [HelloWorldPublisher.write_loop].
    rewrite (Hquiet k) by lia. rewrite deliver_nil, Hrun.
    replace ((hello_count k <? sc) || (sc =? 0))%bool with true.
    2:{ symmetry. apply Bool.orb_true_iff.
        destruct (Hcond k) as [H|H]; [lia|left|right]; lia. }
    cbn [andb]. rewrite (Hthrow k) by lia.
    rewrite hello_count_succ, (IH fuel (S k)).
    + cbn [Nat.sub]. replace (S k + n)%nat with (k + S n)%nat by lia.
      f_equal. rewrite !emit_emits, !emits_emits. reflexivity.
    + exact Hrun.
    + intros j Hj. apply Hquiet. lia.
    + intros j Hj. apply Hthrow. lia.
    + intros j Hj. apply Hcond. lia.
    + lia.
Qed.

Lemma hello_passes_small n :
  Z.of_nat n <= INT_MAX + 1 ->
  hello_passes 0 n
  = flat_map HelloWorldPublisher.iteration (map Z.of_nat (seq 0 n)).
Proof.
  intros Hn. unfold hello_passes. rewrite flat_map_concat_map.
  rewrite (flat_map_concat_map _ (map Z.of_nat _)), map_map. f_equal.
  apply map_ext_in. intros j Hj. apply in_seq in Hj.
  rewrite hello_count_small by lia. reflexivity.
Qed.

(** The three ways the hello-world loop is left or goes on. *)
Lemma hello_write_loop_signal fuel w k count sc p :
  HelloWorldPublisher.signals w k <> [] ->
  HelloWorldPublisher.write_loop fuel w k count sc p
  = (Normal tt, deliver (HelloWorldPublisher.signals w k) p).
Proof.
  intros H.
  assert (E : running (deliver (HelloWorldPublisher.signals w k) p) = false).
  { rewrite running_deliver.
    destruct (HelloWorldPublisher.signals w k); [contradiction|reflexivity]. }
  destruct fuel; cbn [HelloWorldPublisher.write_loop]; rewrite E; reflexivity.
Qed.

Lemma hello_write_loop_limit fuel w k count sc p :
  HelloWorldPublisher.signals w k = [] ->
  sc <= count -> sc <> 0 ->
  HelloWorldPublisher.write_loop fuel w k count sc p = (Normal tt, p).
Proof.
  intros Hq H1 H2.
  assert (E : ((count <? sc) || (sc =? 0))%bool = false).
  { apply Bool.orb_false_iff. split; lia. }
  destruct fuel; cbn [HelloWorldPublisher.write_loop];
    rewrite Hq, deliver_nil, E, Bool.andb_false_r; reflexivity.
Qed.

Lemma temperature_count_succ k :
  to_unsigned (temperature_count k + 1) = temperature_count (S k).
Proof.
  unfold temperature_count, to_unsigned. rewrite Nat2Z.inj_succ.
  rewrite Zplus_mod_idemp_l. f_equal.
Qed.

Lemma temperature_count_small k :
  Z.of_nat k < UINT_MODULUS -> temperature_count k = Z.of_nat k.
Proof. intros H. apply to_unsigned_small. lia. Qed.

(** [n] passes of the temperature publisher's loop during which no signal
    arrives and the condition on the count holds. *)
Lemma temperature_write_loop_passes OK m sensor sc n : forall fuel k p,
  running p = true ->
  quiet (TemperaturePublisher.signals m) k n ->
  (forall j, (k <= j < k + n)%nat -> sc = 0 \/ temperature_count j < sc) ->
  (n <= fuel)%nat ->
  TemperaturePublisher.write_loop OK fuel m k (temperature_count k) sc sensor p
  = TemperaturePublisher.write_loop OK (fuel - n) m (k + n)
      (temperature_count (k + n)) sc sensor
      (emits (temperature_passes OK m sensor k n) p).
Proof.
  induction n as [|n IH]; intros fuel k p Hrun Hquiet Hcond Hfuel.
  - rewrite Nat.sub_0_r, Nat.add_0_r. unfold temperature_passes.
    cbn [seq flat_map]. now rewrite emits_nil.
  - destruct fuel as [|fuel]; [lia|].
    cbn [TemperaturePublisher.write_loop].
    rewrite (Hquiet k) by lia. rewrite deliver_nil, Hrun.
    replace ((sc =? 0) || (temperature_count k <? sc))%bool with true.
    2:{ symmetry. apply Bool.orb_true_iff.
        destruct (Hcond k) as [H|H]; [lia|left|right]; lia. }
    cbn [andb]. rewrite temperature_count_succ.
    rewrite (IH fuel (S k)).
    + cbn [Nat.sub]. replace (S k + n)%nat with (k + S n)%nat by lia.
      f_equal. unfold temperature_passes. cbn [seq flat_map].
      unfold temperature_pass at 2.
      destruct (negb (TemperaturePublisher.r_write m k =? OK));
        rewrite !emit_emits, !emits_emits; f_equal.
    + destruct (negb (TemperaturePublisher.r_write m k =? OK)); exact Hrun.
    + intros j Hj. apply Hquiet. lia.
    + intros j Hj. apply Hcond. lia.
    + lia.
Qed.

Lemma temperature_write_loop_signal OK fuel m k count sc sensor p :
  TemperaturePublisher.signals m k <> [] ->
  TemperaturePublisher.write_loop OK fuel m k count sc sensor p
  = (Normal tt, deliver (TemperaturePublisher.signals m k) p).
Proof.
  intros H.
  assert (E : running (deliver (TemperaturePublisher.signals m k) p) = false).
  { rewrite running_deliver.
    destruct (TemperaturePublisher.signals m k); [contradiction|reflexivity]. }
  destruct fuel; cbn [TemperaturePublisher.write_loop]; rewrite E; reflexivity.
Qed.

Lemma temperature_write_loop_limit OK fuel m k count sc sensor p :
  TemperaturePublisher.signals m k = [] ->
  sc <= count -> sc <> 0 ->
  TemperaturePublisher.write_loop OK fuel m k count sc sensor p = (Normal tt, p).
Proof.
  intros Hq H1 H2.
  assert (E : ((sc =? 0) || (count <? sc))%bool = false).
  { apply Bool.orb_false_iff. split; lia. }
  destruct fuel; cbn [TemperaturePublisher.write_loop];
    rewrite Hq, deliver_nil, E, Bool.andb_false_r; reflexivity.
Qed.

(** The temperature publisher's loop with a limit [n > 0] and no signal:
    [n] passes, then it is left. *)
Lemma temperature_write_loop_bounded OK m sensor n fuel p :
  running p = true ->
  quiet (TemperaturePublisher.signals m) 0 (S n) ->
  (0 < n <= fuel)%nat -> Z.of_nat n < UINT_MODULUS ->
  TemperaturePublisher.write_loop OK fuel m 0 0 (Z.of_nat n) sensor p
  = (Normal tt, emits (temperature_passes OK m sensor 0 n) p).
Proof.
  intros Hrun Hquiet Hn Hmax.
  change 0 with (temperature_count 0) at 1.
  rewrite (temperature_write_loop_passes OK m sensor (Z.of_nat n) n fuel 0 p);
    trivial.
  - cbn [Nat.add]. apply temperature_write_loop_limit.
    + apply Hquiet. lia.
    + rewrite temperature_count_small; lia.
    + lia.
  - intros j Hj. apply Hquiet. lia.
  - intros j Hj. right. rewrite temperature_count_small; lia.
  - lia.
Qed.

(** C4, as stated, fails on the hello-world publisher: with
    [sample_count = 2] and the flag true throughout, a [write] that throws
    at the first pass ends the loop after one write; for no amount of fuel
    does the loop complete with two. *)
Lemma write_loop_exception_counterexample :
  let w := HelloWorldPublisher.mkWorld None None None None
             (fun k => match k with O => Some "timed out" | _ => None end)
             (fun _ => []) in
  HelloWorldPublisher.write_loop 2 w 0 0 2 initial_process
  = (Threw "timed out",
     mkProcess true
       [Cout [Str "Writing HelloMessage, count "; Num 0]; Dds DataWriter_write])
  /\ ~ (exists fuel p,
          HelloWorldPublisher.write_loop fuel w 0 0 2 initial_process
          = (Normal tt, p)).
Proof.
  split; [reflexivity|].
  intros (fuel & p & H). destruct fuel; discriminate H.
Qed.

(** C4, amended.  Started with the flag true:
    - with a limit [sample_count = n > 0], while no signal arrives (and, in
      the hello-world publisher, no [write] throws) the loop makes exactly
      [n] passes, writing with the counts [0 .. n-1], and is then left;
    - with [sample_count = 0] the count never ends the loop: after any
      number [n] of passes without a signal it is still running, and it is
      left at the first evaluation of its condition that a signal
      precedes, with the flag false.
    In the temperature publisher a failed [write] is only logged, so no
    condition on [write] is needed there. *)
Theorem run_loop_iterations (OK : Z) (n fuel : nat) (p : process) :
  running p = true ->
  (n <= fuel)%nat ->
  (forall w,
     (forall j, (j < n)%nat -> HelloWorldPublisher.write_throws w j = None) ->
     (quiet (HelloWorldPublisher.signals w) 0 (S n) ->
      (0 < n)%nat -> Z.of_nat n <= INT_MAX ->
      HelloWorldPublisher.write_loop fuel w 0 0 (Z.of_nat n) p
      = (Normal tt,
         emits (flat_map HelloWorldPublisher.iteration
                  (map Z.of_nat (seq 0 n))) p))
     /\ (quiet (HelloWorldPublisher.signals w) 0 (S n) ->
         HelloWorldPublisher.write_loop n w 0 0 0 p
         = (Out_of_fuel, emits (hello_passes 0 n) p))
     /\ (quiet (HelloWorldPublisher.signals w) 0 n ->
         HelloWorldPublisher.signals w n <> [] ->
         HelloWorldPublisher.write_loop fuel w 0 0 0 p
         = (Normal tt,
            deliver (HelloWorldPublisher.signals w n)
              (emits (hello_passes 0 n) p))
         /\ running (deliver (HelloWorldPublisher.signals w n)
                       (emits (hello_passes 0 n) p)) = false))
  /\ (forall m sensor,
        (quiet (TemperaturePublisher.signals m) 0 (S n) ->
         (0 < n)%nat -> Z.of_nat n < UINT_MODULUS ->
         TemperaturePublisher.write_loop OK fuel m 0 0 (Z.of_nat n) sensor p
         = (Normal tt, emits (temperature_passes OK m sensor 0 n) p)
         /\ map temperature_count (seq 0 n) = map Z.of_nat (seq 0 n))
        /\ (quiet (TemperaturePublisher.signals m) 0 (S n) ->
            TemperaturePublisher.write_loop OK n m 0 0 0 sensor p
            = (Out_of_fuel, emits (temperature_passes OK m sensor 0 n) p))
        /\ (quiet (TemperaturePublisher.signals m) 0 n ->
            TemperaturePublisher.signals m n <> [] ->
            TemperaturePublisher.write_loop OK fuel m 0 0 0 sensor p
            = (Normal tt,
               deliver (TemperaturePublisher.signals m n)
                 (emits (temperature_passes OK m sensor 0 n) p))
            /\ running (deliver (TemperaturePublisher.signals m n)
                          (emits (temperature_passes OK m sensor 0 n) p))
               = false)).
Proof.
  intros Hrun Hfuel. split.
  - intros w Hthrow. repeat split.
    + intros Hquiet Hpos Hmax.
      change 0 with (hello_count 0) at 1.
      rewrite (hello_write_loop_passes w (Z.of_nat n) n fuel 0 p); trivial.
      * cbn [Nat.add]. rewrite hello_write_loop_limit.
        -- rewrite hello_passes_small by lia. reflexivity.
        -- apply Hquiet. lia.
        -- rewrite hello_count_small; lia.
        -- lia.
      * intros j Hj. apply Hquiet. lia.
      * intros j Hj. apply Hthrow. lia.
      * intros j Hj. left. rewrite hello_count_small; lia.
    + intros Hquiet.
      change 0 with (hello_count 0) at 1.
      rewrite (hello_write_loop_passes w 0 n n 0 p); trivial.
      * rewrite Nat.sub_diag. cbn [Nat.add HelloWorldPublisher.write_loop].
        rewrite (Hquiet n) by lia. rewrite deliver_nil, running_emits, Hrun.
        rewrite Bool.orb_true_r. reflexivity.
      * intros j Hj. apply Hquiet. lia.
      * intros j Hj. apply Hthrow. lia.
      * intros j Hj. now right.
    + change 0 with (hello_count 0) at 1.
      rewrite (hello_write_loop_passes w 0 n fuel 0 p); trivial.
      * now apply hello_write_loop_signal.
      * intros j Hj. apply Hthrow. lia.
      * intros j Hj. now right.
    + rewrite running_deliver.
      destruct (HelloWorldPublisher.signals w n); [contradiction|reflexivity].
  - intros m sensor. repeat split.
    + apply temperature_write_loop_bounded; trivial. lia.
    + apply map_ext_in. intros j Hj. apply in_seq in Hj.
      apply temperature_count_small. lia.
    + intros Hquiet.
      change 0 with (temperature_count 0) at 1.
      rewrite (temperature_write_loop_passes OK m sensor 0 n n 0 p); trivial.
      * rewrite Nat.sub_diag. cbn [Nat.add TemperaturePublisher.write_loop].
        rewrite (Hquiet n) by lia. rewrite deliver_nil, running_emits, Hrun.
        reflexivity.
      * intros j Hj. apply Hquiet. lia.
      * intros j Hj. now left.
    + change 0 with (temperature_count 0) at 1.
      rewrite (temperature_write_loop_passes OK m sensor 0 n fuel 0 p); trivial.
      * now apply temperature_write_loop_signal.
      * intros j Hj. now left.
    + rewrite running_deliver.
      destruct (TemperaturePublisher.signals m n); [contradiction|reflexivity].
Qed.

Lemma run_loop_iterations_witness :
  HelloWorldPublisher.write_loop 3 calm_world 0 0 2 initial_process
  = (Normal tt,
     emits (flat_map HelloWorldPublisher.iteration [0; 1]) initial_process)
  /\ TemperaturePublisher.write_loop 0 3 calm_middleware 0 0 2 "oven"
       initial_process
     = (Normal tt,
        emits (temperature_passes 0 calm_middleware "oven" 0 2) initial_process).
Proof.
  split.
  - refine (proj1 (proj1 (run_loop_iterations 0 2 3 initial_process
                            eq_refl _) calm_world _) _ _ _);
      try (intros j Hj; reflexivity); unfold INT_MAX; lia.
  - refine (proj1 (proj1 (proj2 (run_loop_iterations 0 2 3 initial_process
                                   eq_refl _) calm_middleware "oven") _ _ _));
      try (intros j Hj; reflexivity); unfold UINT_MODULUS; lia.
Defined.

(** Two whole runs of the hello-world publisher: [-s 2] writes twice and
    exits with 0; with no limit, a SIGINT during the first sleep ends the
    run after one write. *)
Example hello_main_two_samples :
  HelloWorldPublisher.main 1 5 calm_world ["publisher"; "-s"; "2"]
  = (Exited 0,
     mkProcess true
       ([ Signal_installed SIGINT; Signal_installed SIGTERM;
          Dds (Logger_verbosity 1);
          Dds (DomainParticipant_ctor 0); Dds (Topic_ctor "Example HelloMessage");
          Dds Publisher_ctor; Dds DataWriter_ctor ]
        ++ HelloWorldPublisher.iteration 0 ++ HelloWorldPublisher.iteration 1
        ++ [ Dds finalize_participant_factory ])).
Proof. reflexivity. Qed.

Example hello_main_interrupted :
  HelloWorldPublisher.main 1 5
    (HelloWorldPublisher.mkWorld None None None None (fun _ => None)
       (fun k => match k with 1%nat => [SIGINT] | _ => [] end))
    ["publisher"]
  = (Exited 0,
     mkProcess false
       ([ Signal_installed SIGINT; Signal_installed SIGTERM;
          Dds (Logger_verbosity 1);
          Dds (DomainParticipant_ctor 0); Dds (Topic_ctor "Example HelloMessage");
          Dds Publisher_ctor; Dds DataWriter_ctor ]
        ++ HelloWorldPublisher.iteration 0
        ++ [ Cout [Str "preparing to shut down..."];
             Dds finalize_participant_factory ])).
Proof. reflexivity. Qed.

End LoopFacts.

(** ** The shutdown flag *)

Section FlagFacts.
Import Application RunLoop.

Lemma running_stop_handler signo p : running (stop_handler signo p) = false.
Proof. reflexivity. Qed.

Lemma deliver_keeps_false signos p :
  running p = false -> running (deliver signos p) = false.
Proof.
  intros H. rewrite running_deliver. now destruct signos.
Qed.

Lemma hello_write_loop_keeps_false fuel w k count sc p :
  running p = false ->
  running (snd (HelloWorldPublisher.write_loop fuel w k count sc p)) = false.
Proof.
  intros H.
  destruct fuel; cbn [HelloWorldPublisher.write_loop];
    rewrite (deliver_keeps_false _ _ H); cbn [andb snd];
    now apply deliver_keeps_false.
Qed.

Lemma hello_run_example_keeps_false fuel w d sc p :
  running p = false ->
  running (snd (HelloWorldPublisher.run_example fuel w d sc p)) = false.
Proof.
  intros H. unfold HelloWorldPublisher.run_example.
  destruct (HelloWorldPublisher.participant_throws w); [exact H|].
  destruct (HelloWorldPublisher.topic_throws w); [exact H|].
  destruct (HelloWorldPublisher.publisher_throws w); [exact H|].
  destruct (HelloWorldPublisher.datawriter_throws w); [exact H|].
  now apply hello_write_loop_keeps_false.
Qed.

Lemma temperature_write_loop_keeps_false OK fuel m k count sc sensor p :
  running p = false ->
  running (snd (TemperaturePublisher.write_loop OK fuel m k count sc sensor p))
  = false.
Proof.
  intros H.
  destruct fuel; cbn [TemperaturePublisher.write_loop];
    rewrite (deliver_keeps_false _ _ H); cbn [andb snd];
    now apply deliver_keeps_false.
Qed.

Lemma shutdown_events OK m participant msg status p :
  TemperaturePublisher.shutdown OK m participant msg status p
  = (if cleanup_failed OK m participant then EXIT_FAILURE else status,
     emits (Cout [Str msg] :: cleanup OK m participant) p).
Proof.
  unfold TemperaturePublisher.shutdown, cleanup_failed, cleanup.
  destruct participant as [|a]; cbn [is_null negb andb]; [reflexivity|].
  destruct (negb (TemperaturePublisher.r_delete_contained_entities m =? OK));
    destruct (negb (TemperaturePublisher.r_delete_participant m =? OK));
    cbn [orb app]; rewrite !emit_emits, !emits_emits; reflexivity.
Qed.

Lemma temperature_run_example_keeps_false OK fuel m d sc sensor p :
  running p = false ->
  running (snd (TemperaturePublisher.run_example OK fuel m d sc sensor p))
  = false.
Proof.
  intros H. unfold TemperaturePublisher.run_example.
  repeat match goal with
         | |- context [if ?b then _ else _] =>
             destruct b; [rewrite shutdown_events; exact H|]
         end.
  match goal with
  | |- context [TemperaturePublisher.write_loop ?a ?b ?c ?d ?e ?f ?g ?q] =>
      pose proof (temperature_write_loop_keeps_false a b c d e f g q H) as Hl;
      destruct (TemperaturePublisher.write_loop a b c d e f g q) as [[u| |] q']
  end; cbn [snd] in *; try exact Hl.
  rewrite shutdown_events. cbn [snd].
  destruct (negb (TemperaturePublisher.r_delete_data m =? OK)); exact Hl.
Qed.

Lemma temperature_main_keeps_false OK fuel m arguments p :
  running p = false ->
  running (snd (TemperaturePublisher.main OK fuel m arguments p)) = false.
Proof.
  intros H. unfold TemperaturePublisher.main.
  destruct (TemperaturePublisher.parse_result arguments); try exact H.
  match goal with
  | |- context [TemperaturePublisher.run_example ?a ?b ?c ?d ?e ?f ?q] =>
      pose proof (temperature_run_example_keeps_false a b c d e f q H) as Hr;
      destruct (TemperaturePublisher.run_example a b c d e f q) as [[st|] q']
  end; cbn [snd] in *; [|exact Hr].
  destruct (negb (TemperaturePublisher.r_finalize_instance m =? OK)); exact Hr.
Qed.

Section Subscriber.
Import TemperatureSubscriber.
Variables OK TIMEOUT DATA_AVAILABLE : Z.

Lemma subscriber_shutdown_keeps_false m participant msg status r :
  running (proc r) = false ->
  running (proc (snd (shutdown OK m participant msg status r))) = false.
Proof.
  intros H. unfold shutdown. destruct participant; [exact H|].
  destruct (negb (r_delete_contained_entities m (shutdowns r) =? OK));
    destruct (negb (r_delete_participant m (shutdowns r) =? OK)); exact H.
Qed.

Lemma process_samples_keeps_false valid : forall n r,
  running (proc r) = false ->
  running (proc (snd (process_samples valid n r))) = false.
Proof.
  induction valid as [|[] valid IH]; intros n r H; cbn [process_samples];
    [exact H| |]; apply IH; exact H.
Qed.

Lemma process_data_keeps_false m k r :
  running (proc r) = false ->
  running (proc (snd (process_data m k r))) = false.
Proof.
  intros H. unfold process_data.
  pose proof (process_samples_keeps_false (r_take m k) 0 (say (Dds take) r) H)
    as Hs.
  destruct (process_samples (r_take m k) 0 (say (Dds take) r)) as [n r'].
  exact Hs.
Qed.

Lemma read_loop_keeps_false fuel m k samples_read sc r :
  running (proc r) = false ->
  running (proc (snd (read_loop OK TIMEOUT DATA_AVAILABLE fuel m k
                        samples_read sc r))) = false.
Proof.
  intros H.
  destruct fuel; cbn [read_loop proc]; rewrite (deliver_keeps_false _ _ H);
    cbn [andb snd proc]; now apply deliver_keeps_false.
Qed.

Lemma subscriber_run_example_keeps_false fuel m d sc p :
  running p = false ->
  running (snd (run_example OK TIMEOUT DATA_AVAILABLE fuel m d sc p)) = false.
Proof.
  intros H. unfold run_example.
  assert (Hafter : forall b msg q r,
            running (proc r) = false ->
            running (proc (if b : bool
                           then snd (shutdown OK m q msg EXIT_FAILURE r)
                           else r)) = false).
  { intros [] msg q r Hr; [now apply subscriber_shutdown_keeps_false|exact Hr]. }
  assert (Hsay : forall e r, running (proc r) = false ->
                             running (proc (say e r)) = false)
    by (intros e r Hr; exact Hr).
  cbv zeta beta.
  repeat match goal with
         | |- running (snd (if ?b then _ else _)) = false =>
             destruct b;
             [cbn [snd];
              repeat (apply Hafter || apply Hsay
                      || apply subscriber_shutdown_keeps_false);
              exact H|]
         end.
  match goal with
  | |- context [read_loop ?a ?b ?c ?f ?g ?k ?n ?s ?r] =>
      assert (Hr : running (proc r) = false)
        by (repeat (apply Hafter || apply Hsay
                    || apply subscriber_shutdown_keeps_false);
            exact H);
      pose proof (read_loop_keeps_false f g k n s r Hr) as Hl;
      destruct (read_loop a b c f g k n s r) as [[e|] r']
  end; cbn [snd] in *; [exact Hl|].
  pose proof (subscriber_shutdown_keeps_false m (r_create_participant m)
                "shutting down" 0 r' Hl) as Hs.
  destruct (shutdown OK m (r_create_participant m) "shutting down" 0 r').
  exact Hs.
Qed.

End Subscriber.

(** C5.  The flag [running] starts true; [stop_handler] leaves it false
    whatever it was; and from a state in which it is false no operation of
    the programs brings it back: not the delivery of further signals, not
    the installation of the handlers, not a run of either publisher or of
    the subscriber, not the teardown in [main]. *)
Theorem running_is_fire_once :
  running initial_process = true
  /\ (forall signo p, running (stop_handler signo p) = false)
  /\ (forall p,
        running p = false ->
        (forall signos, running (deliver signos p) = false)
        /\ (forall e, running (emit e p) = false)
        /\ running (setup_signal_handlers p) = false
        /\ (forall fuel w d sc,
              running (snd (HelloWorldPublisher.run_example fuel w d sc p))
              = false)
        /\ (forall OK fuel m arguments,
              running (snd (TemperaturePublisher.main OK fuel m arguments p))
              = false)
        /\ (forall OK TIMEOUT DATA_AVAILABLE fuel m d sc,
              running (snd (TemperatureSubscriber.run_example OK TIMEOUT
                              DATA_AVAILABLE fuel m d sc p)) = false)).
Proof.
  split; [reflexivity|]. split; [reflexivity|].
  intros p H. repeat split; intros.
  - now apply deliver_keeps_false.
  - exact H.
  - exact H.
  - now apply hello_run_example_keeps_false.
  - now apply temperature_main_keeps_false.
  - now apply subscriber_run_example_keeps_false.
Qed.

Lemma running_is_fire_once_witness :
  running (deliver [SIGTERM; SIGINT] (stop_handler SIGINT initial_process))
  = false
  /\ running (snd (HelloWorldPublisher.run_example 5 calm_world 0 0
                     (stop_handler SIGINT initial_process))) = false.
Proof.
  pose (p := stop_handler SIGINT initial_process).
  split.
  - exact (proj1 (proj2 (proj2 running_is_fire_once) p eq_refl)
             [SIGTERM; SIGINT]).
  - exact (proj1 (proj2 (proj2 (proj2 (proj2 (proj2 running_is_fire_once) p
                                                eq_refl))))
             5%nat calm_world 0 0).
Defined.

End FlagFacts.

(** ** Errors and teardown in the temperature publisher *)

Section TeardownFacts.
Import Application RunLoop TemperaturePublisher.

(** C8.  [shutdown] never turns a failure into a success: the status it
    returns is [EXIT_FAILURE] when the status it was given is, and when one
    of the clean-up calls it makes ([delete_contained_entities],
    [delete_participant]) fails; otherwise it is the status it was given.
    [main] treats [finalize_instance] the same way on the status
    [run_example] returned. *)
Theorem shutdown_escalates_only (OK : Z) (m : middleware)
    (participant : pointer) (msg : string) (status : Z) (p : process) :
  let status' := fst (shutdown OK m participant msg status p) in
  (status = EXIT_FAILURE -> status' = EXIT_FAILURE)
  /\ (cleanup_failed OK m participant = true -> status' = EXIT_FAILURE)
  /\ (cleanup_failed OK m participant = false -> status' = status)
  /\ (forall fuel arguments st q,
        parse_result arguments = PARSE_RETURN_OK ->
        run_example OK fuel m (domain_id arguments) (sample_count arguments)
          (sensor_id arguments)
          (set_verbosity (verbosity arguments) (setup_signal_handlers p))
        = (Some st, q) ->
        let exit_status :=
          if finalize_failed OK m then EXIT_FAILURE else st in
        fst (main OK fuel m arguments p) = Exited exit_status
        /\ (st = EXIT_FAILURE -> exit_status = EXIT_FAILURE)).
Proof.
  cbn zeta. rewrite shutdown_events. cbn [fst].
  split; [|split; [|split]].
  - intros ->. now destruct (cleanup_failed OK m participant).
  - now intros ->.
  - now intros ->.
  - intros fuel arguments st q Hparse Hrun. split.
    + unfold main. rewrite Hparse, Hrun. unfold finalize_failed.
      now destruct (negb (r_finalize_instance m =? OK)).
    + intros ->. now destruct (finalize_failed OK m).
Qed.

Lemma shutdown_escalates_only_witness :
  fst (shutdown 0
         (mkMiddleware (Ptr 1) (Ptr 2) 0 (Ptr 3) (Ptr 4) (Ptr 4) (Ptr 5)
            (fun _ => 0) (fun _ => 0) 0 0 3 0 (fun _ => []))
         (Ptr 1) "shutting down" EXIT_SUCCESS initial_process)
  = EXIT_FAILURE
  /\ fst (shutdown 0 calm_middleware (Ptr 1) "create_topic error" EXIT_FAILURE
            initial_process)
     = EXIT_FAILURE
  /\ fst (shutdown 0 calm_middleware (Ptr 1) "shutting down" EXIT_SUCCESS
            initial_process)
     = EXIT_SUCCESS.
Proof.
  split; [|split].
  - refine (proj1 (proj2 (shutdown_escalates_only 0 _ (Ptr 1) _ EXIT_SUCCESS
                            initial_process)) _).
    reflexivity.
  - refine (proj1 (shutdown_escalates_only 0 calm_middleware (Ptr 1) _
                     EXIT_FAILURE initial_process) _).
    reflexivity.
  - refine (proj1 (proj2 (proj2 (shutdown_escalates_only 0 calm_middleware
                                   (Ptr 1) _ EXIT_SUCCESS initial_process))) _).
    reflexivity.
Defined.

Lemma leave_events OK m msg p :
  (let '(st, q) := shutdown OK m (r_create_participant m) msg EXIT_FAILURE p in
   (Some st, q))
  = (Some EXIT_FAILURE,
     emits (Cout [Str msg] :: cleanup OK m (r_create_participant m)) p).
Proof.
  rewrite shutdown_events.
  now destruct (cleanup_failed OK m (r_create_participant m)).
Qed.

Lemma cleanup_is_teardown OK m participant :
  forallb (fun e => negb (creates_or_transfers e)) (cleanup OK m participant)
  = true.
Proof.
  unfold cleanup. destruct (is_null participant); [reflexivity|].
  destruct (negb (r_delete_contained_entities m =? OK));
    destruct (negb (r_delete_participant m =? OK)); reflexivity.
Qed.

Lemma In_temperature_passes OK m sensor n k e :
  (k < n)%nat -> In e (temperature_pass OK m sensor k) ->
  In e (temperature_passes OK m sensor 0 n).
Proof.
  intros Hk He. unfold temperature_passes. apply in_flat_map.
  exists k. split; [apply in_seq; lia|exact He].
Qed.

(** C7, as stated, fails on the temperature publisher.  A failed [write]
    is logged and the run goes on: it writes again and returns
    [EXIT_SUCCESS].  A failed entity creation is reported by [shutdown] on
    standard output, without a return code: nothing reaches standard
    error. *)
Lemma write_failure_counterexample :
  (let m := mkMiddleware (Ptr 1) (Ptr 2) 0 (Ptr 3) (Ptr 4) (Ptr 4) (Ptr 5)
              (fun k => match k with O => 1 | _ => 0 end) (fun _ => 0)
              0 0 0 0 (fun _ => []) in
   run_example 0 2 m 0 2 "oven" initial_process
   = (Some EXIT_SUCCESS,
      mkProcess true
        (all_setup_calls 0
         ++ [ Cout [Str "Writing ChocolateTemperature, count "; Num 0];
              Dds (write "oven" 30);
              Cerr [Str "write error "; Num 1];
              Dds (NDDSUtility_sleep 4 0);
              Cout [Str "Writing ChocolateTemperature, count "; Num 1];
              Dds (write "oven" 30);
              Dds (NDDSUtility_sleep 4 0);
              Dds delete_data;
              Cout [Str "shutting down"];
              Dds delete_contained_entities;
              Dds delete_participant ])))
  /\ (let m := mkMiddleware (Ptr 1) NULL 0 (Ptr 3) (Ptr 4) (Ptr 4) (Ptr 5)
                 (fun _ => 0) (fun _ => 0) 0 0 0 0 (fun _ => []) in
      run_example 0 2 m 0 2 "oven" initial_process
      = (Some EXIT_FAILURE,
         mkProcess true
           [ Dds (create_participant 0); Dds create_publisher;
             Cout [Str "create_publisher error"];
             Dds delete_contained_entities; Dds delete_participant ])).
Proof. split; reflexivity. Qed.

(** C7, amended.  In the temperature publisher:
    - when a set-up step fails (an entity creation, [narrow] or
      [create_data] answers a null pointer, or [register_type] another code
      than [DDS_RETCODE_OK]), [run_example] hands [shutdown] the message
      naming the step, which goes to standard output with no return code,
      and returns [EXIT_FAILURE] at once: after the failing call come the
      message and the clean-up calls only, no creation and no transfer of
      data;
    - a failed [write] is reported on standard error as "write error "
      with its return code and nothing more: the loop makes all its passes
      and the status returned is [EXIT_SUCCESS] unless the clean-up
      fails. *)
Theorem setup_failure_returns (OK : Z) (fuel : nat) (m : middleware)
    (domain : Z) (sensor : string) (p : process) :
  (forall sc s,
     setup_failure OK m = Some s ->
     let report :=
       Cout [Str (error_message s)] :: cleanup OK m (r_create_participant m) in
     run_example OK fuel m domain sc sensor p
     = (Some EXIT_FAILURE, emits (setup_calls domain s ++ report) p)
     /\ forallb (fun e => negb (creates_or_transfers e)) report = true
     /\ forallb (fun e => negb (on_stderr e))
          (setup_calls domain s ++ [Cout [Str (error_message s)]]) = true)
  /\ (forall n,
        setup_failure OK m = None ->
        running p = true ->
        quiet (signals m) 0 (S n) ->
        (0 < n <= fuel)%nat -> Z.of_nat n < UINT_MODULUS ->
        run_example OK fuel m domain (Z.of_nat n) sensor p
        = (Some (if cleanup_failed OK m (r_create_participant m)
                 then EXIT_FAILURE else EXIT_SUCCESS),
           emits (all_setup_calls domain
                  ++ temperature_passes OK m sensor 0 n
                  ++ wind_down OK m) p)
        /\ (forall k,
              (k < n)%nat -> r_write m k <> OK ->
              In (Cerr [Str "write error "; Num (r_write m k)])
                (temperature_passes OK m sensor 0 n))).
Proof.
  split.
  - intros sc s Hs report. subst report.
    split; [|split].
    + unfold setup_failure in Hs. unfold run_example. cbv zeta beta.
      repeat match goal with
             | |- (if ?b then _ else _) = _ =>
                 destruct b;
                 [injection Hs as <-; rewrite leave_events;
                  rewrite !emit_emits, !emits_emits; reflexivity|]
             end.
      discriminate Hs.
    + cbn [forallb creates_or_transfers negb andb].
      apply cleanup_is_teardown.
    + destruct s; reflexivity.
  - intros n Hs Hrun Hquiet Hn Hmax. split.
    + unfold setup_failure in Hs. unfold run_example. cbv zeta beta.
      repeat match goal with
             | |- (if ?b then _ else _) = _ =>
                 destruct b; [discriminate Hs|]
             end.
      rewrite !emit_emits, !emits_emits. cbn [app].
      fold (all_setup_calls domain).
      rewrite (temperature_write_loop_bounded OK m sensor n fuel
                 (emits (all_setup_calls domain) p) Hrun Hquiet Hn Hmax),
        shutdown_events.
      f_equal. unfold wind_down.
      destruct (negb (r_delete_data m =? OK));
        rewrite !emit_emits, !emits_emits, <- ?app_assoc; reflexivity.
    + intros k Hk Hw. apply (In_temperature_passes OK m sensor n k _ Hk).
      unfold temperature_pass.
      destruct (r_write m k =? OK) eqn:E; [lia|].
      cbn. auto.
Qed.

Lemma setup_failure_returns_witness :
  run_example 0 0
    (mkMiddleware (Ptr 1) (Ptr 2) 7 (Ptr 3) (Ptr 4) (Ptr 4) (Ptr 5)
       (fun _ => 0) (fun _ => 0) 0 0 0 0 (fun _ => []))
    3 4 "oven" initial_process
  = (Some EXIT_FAILURE,
     emits [ Dds (create_participant 3); Dds create_publisher;
             Dds get_type_name; Dds register_type;
             Cout [Str "register_type error"];
             Dds delete_contained_entities; Dds delete_participant ]
       initial_process)
  /\ run_example 0 2
       (mkMiddleware (Ptr 1) (Ptr 2) 0 (Ptr 3) (Ptr 4) (Ptr 4) (Ptr 5)
          (fun _ => 1) (fun _ => 0) 0 0 0 0 (fun _ => []))
       3 2 "oven" initial_process
     = (Some EXIT_SUCCESS,
        emits (all_setup_calls 3
               ++ temperature_passes 0
                    (mkMiddleware (Ptr 1) (Ptr 2) 0 (Ptr 3) (Ptr 4) (Ptr 4)
                       (Ptr 5) (fun _ => 1) (fun _ => 0) 0 0 0 0 (fun _ => []))
                    "oven" 0 2
               ++ wind_down 0
                    (mkMiddleware (Ptr 1) (Ptr 2) 0 (Ptr 3) (Ptr 4) (Ptr 4)
                       (Ptr 5) (fun _ => 1) (fun _ => 0) 0 0 0 0 (fun _ => [])))
          initial_process).
Proof.
  split.
  - refine (proj1 (proj1 (setup_failure_returns 0 0 _ 3 "oven" initial_process)
                     4 At_register_type _)).
    reflexivity.
  - refine (proj1 (proj2 (setup_failure_returns 0 2 _ 3 "oven" initial_process)
                     2%nat _ _ _ _ _)).
    + reflexivity.
    + reflexivity.
    + intros j Hj. reflexivity.
    + lia.
    + unfold UINT_MODULUS. lia.
Defined.

End TeardownFacts.

(** ** The temperature subscriber's error branches *)

Section SubscriberFacts.
Import Application TemperatureSubscriber.

(** When [create_participant] answers a null pointer the subscriber calls
    [shutdown] but does not return: the next statement calls
    [create_subscriber] through the null pointer. *)
Lemma subscriber_null_participant OK TIMEOUT DATA_AVAILABLE fuel m d sc p :
  r_create_participant m = NULL ->
  run_example OK TIMEOUT DATA_AVAILABLE fuel m d sc p
  = (Null_pointer_call create_subscriber,
     emits [Dds (create_participant d); Cout [Str "create_participant error"]]
       p).
Proof.
  intros H. unfold run_example. rewrite H. cbn.
  unfold emits, emit. cbn. now rewrite <- app_assoc.
Qed.

(** When [register_type] fails the subscriber tears the participant down
    and carries on: it creates the topic and the reader, takes a sample,
    tears down again and returns [0]. *)
Example subscriber_register_type_failure :
  run_example 0 10 1024 3
    (mkMiddleware (Ptr 1) (Ptr 2) 7 (Ptr 3) (Ptr 4) (Ptr 5) 0 0 (Ptr 4)
       (fun _ => 0) (fun _ => 1024) (fun _ => [true])
       (fun _ => 0) (fun _ => 0) (fun _ => []))
    0 1 initial_process
  = (Returns 0,
     mkProcess true
       [ Dds (create_participant 0); Dds create_subscriber; Dds get_type_name;
         Dds register_type;
         Cout [Str "register_type error"];
         Dds delete_contained_entities; Dds delete_participant;
         Dds (create_topic "ChocolateTemperature"); Dds create_datareader;
         Dds get_statuscondition; Dds set_enabled_statuses;
         Dds attach_condition; Dds narrow;
         Dds (waitset_wait 4 0); Dds get_status_changes;
         Dds take; Dds print_data; Dds return_loan;
         Cout [Str "shutting down"];
         Dds delete_contained_entities; Dds delete_participant ]).
Proof. reflexivity. Qed.

End SubscriberFacts.

(** * Further properties *)

(** ** The argument parser *)

Section ParserMore.
Import Application CommandLine Further.

Lemma seq_one_snoc n : seq 1 n ++ [S n] = seq 1 (S n).
Proof. now rewrite seq_S. Qed.

Lemma parse_loop_reads_prefix argv fuel : forall l io s io',
  (1 <= arg_processing l)%nat ->
  (arg_processing l <= Nat.max 1 (List.length argv))%nat ->
  reads io = seq 1 (arg_processing l - 1) ->
  parse_loop fuel (List.length argv) argv l io = Some (s, io') ->
  reads io' = seq 1 (List.length (reads io'))
  /\ (List.length (reads io') <= List.length argv)%nat.
Proof.
  induction fuel as [|fuel IH]; intros l io s io' Hl Hmax Hio; cbn [parse_loop];
    destruct (Nat.ltb_spec (arg_processing l) (List.length argv)) as [Hlt|Hge];
    try discriminate;
    try (intros H; injection H as <- <-; rewrite Hio, length_seq;
         split; [reflexivity|lia]).
  assert (Hhere : reads (log_read (arg_processing l) io)
                  = seq 1 (arg_processing l)).
  { unfold log_read. cbn [reads]. rewrite Hio.
    replace [arg_processing l] with [S (arg_processing l - 1)]
      by (f_equal; lia).
    rewrite seq_one_snoc. f_equal. lia. }
  assert (Hnext : reads (log_read (arg_processing l + 1)
                           (log_read (arg_processing l) io))
                  = seq 1 (arg_processing l + 1)).
  { unfold log_read at 1. cbn [reads]. rewrite Hhere.
    replace [(arg_processing l + 1)%nat] with [S (arg_processing l)]
      by (f_equal; lia).
    rewrite seq_one_snoc. f_equal. lia. }
  unfold loop_body.
  destruct (nth_error argv (arg_processing l)) as [tok|] eqn:Htok;
    [|apply nth_error_None in Htok; lia].
  assert (Hvalue : forall k,
            match nth_error argv (arg_processing l + 1) with
            | Some v =>
                parse_loop fuel (List.length argv) argv
                  (k v) (log_read (arg_processing l + 1)
                           (log_read (arg_processing l) io))
            | None =>
                Some (Null_argument (arg_processing l + 1),
                      log_read (arg_processing l + 1)
                        (log_read (arg_processing l) io))
            end = Some (s, io') ->
            (forall v, arg_processing (k v) = (arg_processing l + 2)%nat) ->
            reads io' = seq 1 (List.length (reads io'))
            /\ (List.length (reads io') <= List.length argv)%nat).
  { intros k H Hk.
    destruct (nth_error argv (arg_processing l + 1)) as [v|] eqn:Hv.
    - assert (arg_processing l + 1 < List.length argv)%nat
        by (apply nth_error_Some; congruence).
      refine (IH (k v) _ s io' _ _ _ H); rewrite ?Hk; try lia.
      rewrite Hnext. f_equal. lia.
    - apply nth_error_None in Hv. injection H as <- <-.
      rewrite Hnext, length_seq. split; [reflexivity|lia]. }
  destruct (is_domain_flag tok).
  { intros H.
    apply (Hvalue (fun v => mkLocals (arg_processing l + 2) (show_usage l)
                              (l_parse_result l) (to_unsigned (atoi v))
                              (l_sample_count l) (l_verbosity l)));
      [|reflexivity].
    destruct (nth_error argv (arg_processing l + 1)); exact H. }
  destruct (is_sample_count_flag tok).
  { intros H.
    apply (Hvalue (fun v => mkLocals (arg_processing l + 2) (show_usage l)
                              (l_parse_result l) (l_domain_id l)
                              (to_unsigned (atoi v)) (l_verbosity l)));
      [|reflexivity].
    destruct (nth_error argv (arg_processing l + 1)); exact H. }
  destruct (is_verbosity_flag tok).
  { intros H.
    apply (Hvalue (fun v => mkLocals (arg_processing l + 2) (show_usage l)
                              (l_parse_result l) (l_domain_id l)
                              (l_sample_count l) (atoi v)));
      [|reflexivity].
    destruct (nth_error argv (arg_processing l + 1)); exact H. }
  destruct (is_help_flag tok); intros H; injection H as <- <-;
    cbn [print reads]; rewrite Hhere, length_seq; split; try reflexivity; lia.
Qed.

(** X1.  The parser reads the tokens from left to right, each at most
    once and without a gap: the indices it reads are [1, 2, .., n] for some
    [n <= argc], whatever the command line.  (In particular it always
    comes to an end.) *)
Theorem parse_arguments_scans_left_to_right (EXC : Verbosity)
    (argv : list string) :
  match parse_arguments EXC (List.length argv) argv with
  | Some (_, io) =>
      reads io = seq 1 (List.length (reads io))
      /\ (List.length (reads io) <= List.length argv)%nat
  | None => False
  end.
Proof.
  unfold parse_arguments.
  destruct (parse_loop (List.length argv) (List.length argv) argv
              (initial_locals EXC) (mkIo [] [])) as [[s io]|] eqn:Hloop.
  - destruct (parse_loop_reads_prefix argv _ (initial_locals EXC)
                (mkIo [] []) s io (le_n 1) (Nat.le_max_l _ _) eq_refl Hloop)
      as [H1 H2].
    cbn [option_map]. unfold finish.
    destruct s as [l|l|i]; try destruct (show_usage l); cbn [print reads];
      split; assumption.
  - destruct (parse_loop_total (List.length argv) (List.length argv) argv
                (initial_locals EXC) (mkIo [] [])) as [r Hr]; [lia|].
    congruence.
Qed.

(** An induction principle for the [while] loop: an invariant of the passes
    that continue gives what holds when the loop is left. *)
Lemma parse_loop_invariant (I : locals -> parser_io -> Prop)
    (Q : step -> parser_io -> Prop) (argc : nat) (argv : list string) :
  (forall l io, I l io -> (argc <= arg_processing l)%nat -> Q (Break l) io) ->
  (forall l io, I l io -> (arg_processing l < argc)%nat ->
     match loop_body argv l io with
     | (Continue l', io') => I l' io'
     | (s, io') => Q s io'
     end) ->
  forall fuel l io s io',
    I l io -> parse_loop fuel argc argv l io = Some (s, io') -> Q s io'.
Proof.
  intros Hexit Hbody.
  induction fuel as [|fuel IH]; intros l io s io' HI; cbn [parse_loop];
    destruct (Nat.ltb_spec (arg_processing l) argc) as [Hlt|Hge];
    try discriminate;
    try (intros H; injection H as <- <-; now apply Hexit).
  specialize (Hbody l io HI Hlt).
  destruct (loop_body argv l io) as [[l1|l1|i] io1].
  - now apply IH.
  - intros H; injection H as <- <-. exact Hbody.
  - intros H; injection H as <- <-. exact Hbody.
Qed.

(** X2.  What the parser prints is fixed by its outcome: nothing when it
    returns [PARSE_RETURN_OK], the line "Example application." and the
    usage text for [PARSE_RETURN_EXIT], the line "Bad parameter." and the
    usage text for [PARSE_RETURN_FAILURE].  So the usage text is shown
    exactly when the outcome is not "proceed", and once.  A call that
    faults has printed nothing and faults on [argv[argc]]. *)
Theorem parse_arguments_output (EXC : Verbosity) (argv : list string) :
  match parse_arguments EXC (List.length argv) argv with
  | Some (Returned a, io) => printed io = parser_output (parse_result a)
  | Some (Faulted i, io) => printed io = [] /\ i = List.length argv
  | None => False
  end.
Proof.
  unfold parse_arguments.
  destruct (parse_loop (List.length argv) (List.length argv) argv
              (initial_locals EXC) (mkIo [] [])) as [[s io]|] eqn:Hloop.
  2:{ destruct (parse_loop_total (List.length argv) (List.length argv) argv
                  (initial_locals EXC) (mkIo [] [])) as [r Hr]; [lia|].
      congruence. }
  pose (I := fun (l : locals) (io : parser_io) =>
               show_usage l = false /\ l_parse_result l = PARSE_RETURN_OK
               /\ printed io = []).
  pose (Q := fun (s : step) (io : parser_io) =>
               match s with
               | Continue l => False
               | Break l =>
                   (show_usage l = false /\ l_parse_result l = PARSE_RETURN_OK
                    /\ printed io = [])
                   \/ (show_usage l = true
                       /\ l_parse_result l = PARSE_RETURN_EXIT
                       /\ printed io = [Cout [Str "Example application."]])
                   \/ (show_usage l = true
                       /\ l_parse_result l = PARSE_RETURN_FAILURE
                       /\ printed io = [Cout [Str "Bad parameter."]])
               | Null_argument i => printed io = [] /\ i = List.length argv
               end).
  assert (HQ : Q s io).
  { apply (parse_loop_invariant I Q (List.length argv) argv) with (4 := Hloop);
      [| |repeat split].
    - intros l io0 HI _. left. exact HI.
    - intros l io0 (H1 & H2 & H3) Hlt. unfold loop_body.
      destruct (nth_error argv (arg_processing l)) as [tok|] eqn:Htok;
        [|apply nth_error_None in Htok; lia].
      assert (Hnone : nth_error argv (arg_processing l + 1) = None ->
                      (arg_processing l + 1)%nat = List.length argv).
      { intros E. apply nth_error_None in E. lia. }
      destruct (is_domain_flag tok);
        [|destruct (is_sample_count_flag tok);
          [|destruct (is_verbosity_flag tok)]];
        try (destruct (nth_error argv (arg_processing l + 1));
             [repeat split; assumption|split; [exact H3|now apply Hnone]]).
      destruct (is_help_flag tok); unfold Q;
        cbn [show_usage l_parse_result print printed log_read];
        rewrite H3; [right; left|right; right]; repeat split. }
  cbn [option_map]. unfold finish.
  destruct s as [l|l|i]; cbn [Q] in HQ; [contradiction| |exact HQ].
  destruct HQ as [(H1 & H2 & H3)|[(H1 & H2 & H3)|(H1 & H2 & H3)]];
    rewrite H1; cbn [parse_result print printed]; rewrite H2, H3; reflexivity.
Qed.

Lemma loop_body_program_name prog1 prog2 rest l io :
  (1 <= arg_processing l)%nat ->
  loop_body (prog1 :: rest) l io = loop_body (prog2 :: rest) l io.
Proof.
  intros Hl. unfold loop_body.
  destruct (arg_processing l) as [|i]; [lia|].
  cbn [nth_error Nat.add]. reflexivity.
Qed.

Lemma parse_loop_program_name prog1 prog2 rest argc fuel : forall l io,
  (1 <= arg_processing l)%nat ->
  parse_loop fuel argc (prog1 :: rest) l io
  = parse_loop fuel argc (prog2 :: rest) l io.
Proof.
  induction fuel as [|fuel IH]; intros l io Hl; cbn [parse_loop];
    [reflexivity|].
  destruct (Nat.ltb (arg_processing l) argc); [|reflexivity].
  rewrite (loop_body_program_name prog1 prog2 rest l io Hl).
  destruct (loop_body (prog2 :: rest) l io) as [[l1|l1|i] io1] eqn:Hbody;
    try reflexivity.
  apply IH. rewrite (loop_body_advances _ _ _ _ _ Hbody). lia.
Qed.

(** X3.  The parser never looks at [argv[0]]: two command lines that
    differ in the program name only give the same record, the same reads
    and the same output. *)
Theorem parse_arguments_ignores_program_name (EXC : Verbosity)
    (prog1 prog2 : string) (rest : list string) :
  parse_arguments EXC (List.length (prog1 :: rest)) (prog1 :: rest)
  = parse_arguments EXC (List.length (prog2 :: rest)) (prog2 :: rest).
Proof.
  unfold parse_arguments. cbn [List.length]. f_equal.
  apply parse_loop_program_name. cbn. lia.
Qed.

Lemma to_unsigned_int (z : Z) :
  INT_MIN <= z <= INT_MAX ->
  to_unsigned z = if z <? 0 then z + UINT_MODULUS else z.
Proof.
  unfold INT_MIN, INT_MAX, to_unsigned, UINT_MODULUS. intros H.
  destruct (Z.ltb_spec z 0).
  - symmetry. apply (Z.mod_unique _ _ (-1)); lia.
  - apply Z.mod_small. lia.
Qed.

Lemma assign_signed_numeral d n v (f : string) (z : Z) :
  INT_MIN <= z <= INT_MAX ->
  assign (d, n, v) (numeral_option (f, z))
  = (if is_domain_flag f then snd (stored (f, z)) else d,
     if is_sample_count_flag f then snd (stored (f, z)) else n,
     if is_verbosity_flag f then z else v).
Proof.
  intros Hz. unfold assign, numeral_option, stored. cbn [fst snd].
  rewrite (atoi_decimal z Hz), (to_unsigned_int z Hz).
  destruct (flags_disjoint f) as (Hd & Hs & _).
  destruct (is_domain_flag f).
  - destruct Hd as (-> & -> & _); reflexivity.
  - destruct (is_sample_count_flag f).
    + destruct Hs as (-> & _); reflexivity.
    + destruct (is_verbosity_flag f); reflexivity.
Qed.

Lemma assign_all_signed_numerals (opts : list (string * Z)) : forall d n v,
  Forall (fun o => INT_MIN <= snd o <= INT_MAX) opts ->
  assign_all (map numeral_option opts) (d, n, v)
  = (last_value is_domain_flag (map stored opts) d,
     last_value is_sample_count_flag (map stored opts) n,
     last_value is_verbosity_flag opts v).
Proof.
  induction opts as [|[f z] opts IH]; intros d n v H; [reflexivity|].
  inversion H as [|? ? Hz Hopts]; subst. cbn [snd] in Hz.
  cbn [map assign_all fold_left].
  rewrite (assign_signed_numeral d n v f z Hz).
  unfold last_value. cbn [map fold_left].
  change (fst (stored (f, z))) with f. cbn [fst snd].
  apply IH, Hopts.
Qed.

(** X4.  A value is read as an [int] and stored as given only in the
    verbosity: in the two [unsigned int] fields a negative value [z] is
    stored as [z + 2^32].  On a command line of value-taking flags with
    numerals of the [int] range the parser returns [PARSE_RETURN_OK] with
    the last value of each flag stored so. *)
Theorem parse_arguments_signed_options (EXC : Verbosity) (prog : string)
    (opts : list (string * Z)) :
  Forall (fun o => is_value_flag (fst o) = true
                   /\ INT_MIN <= snd o <= INT_MAX) opts ->
  let argv := prog :: tokens (map numeral_option opts) in
  parse_arguments EXC (List.length argv) argv
  = Some (Returned
            (mkArguments PARSE_RETURN_OK
               (last_value is_domain_flag (map stored opts) 0)
               (last_value is_sample_count_flag (map stored opts) 0)
               (last_value is_verbosity_flag opts EXC)),
          mkIo (seq 1 (2 * List.length opts)) []).
Proof.
  intros H argv.
  assert (Hflags : Forall (fun o => is_value_flag (fst o) = true)
                     (map numeral_option opts)).
  { apply Forall_map. eapply Forall_impl; [|exact H].
    intros [f z] [Hf _]. exact Hf. }
  assert (Hvals : Forall (fun o : string * Z => INT_MIN <= snd o <= INT_MAX)
                    opts).
  { eapply Forall_impl; [|exact H]. intros o [_ Hz]. exact Hz. }
  subst argv.
  rewrite (parse_arguments_end EXC prog _ Hflags).
  rewrite (assign_all_signed_numerals opts 0 0 EXC Hvals), length_map.
  reflexivity.
Qed.

Lemma parse_arguments_signed_options_witness :
  parse_arguments 1 7 ["subscriber"; "-d"; "-1"; "-v"; "-2"; "-s"; "7"]
  = Some (Returned (mkArguments PARSE_RETURN_OK 4294967295 7 (-2)),
          mkIo [1; 2; 3; 4; 5; 6]%nat []).
Proof.
  refine (parse_arguments_signed_options 1 "subscriber"
            [("-d", -1); ("-v", -2); ("-s", 7)] _).
  repeat constructor; cbn; unfold INT_MIN, INT_MAX; lia.
Defined.

Lemma atoi_digits_no_digit acc junk :
  no_leading_digit junk = true -> atoi_digits acc junk = acc.
Proof.
  destruct junk as [|c r]; [reflexivity|]. cbn [no_leading_digit atoi_digits].
  now destruct (isdigit c).
Qed.

Lemma atoi_digits_uint_trailed (d : Decimal.uint) junk :
  no_leading_digit junk = true ->
  forall acc,
    atoi_digits acc (DecimalString.NilEmpty.string_of_uint d ++ junk)%string
    = atoi_digits acc (DecimalString.NilEmpty.string_of_uint d).
Proof.
  intros Hjunk.
  induction d as [|d IH|d IH|d IH|d IH|d IH|d IH|d IH|d IH|d IH|d IH];
    intros acc;
    cbn [DecimalString.NilEmpty.string_of_uint String.append atoi_digits];
    [now apply atoi_digits_no_digit|..];
    change (isdigit _) with true; cbv iota; apply IH.
Qed.

Lemma strtol_value_uint_trailed (d : Decimal.uint) junk :
  no_leading_digit junk = true ->
  strtol_value (DecimalString.NilZero.string_of_uint d ++ junk)%string
  = strtol_value (DecimalString.NilZero.string_of_uint d)
  /\ atoi_digits 0 (DecimalString.NilZero.string_of_uint d ++ junk)%string
     = atoi_digits 0 (DecimalString.NilZero.string_of_uint d).
Proof.
  intros Hjunk.
  destruct d;
    match goal with
    | |- context [DecimalString.NilZero.string_of_uint Decimal.Nil] =>
        change (DecimalString.NilZero.string_of_uint Decimal.Nil)
          with (DecimalString.NilEmpty.string_of_uint (Decimal.D0 Decimal.Nil));
        pose proof (atoi_digits_uint_trailed (Decimal.D0 Decimal.Nil) junk
                      Hjunk 0) as H
    | |- context [DecimalString.NilZero.string_of_uint ?x] =>
        change (DecimalString.NilZero.string_of_uint x)
          with (DecimalString.NilEmpty.string_of_uint x);
        pose proof (atoi_digits_uint_trailed x junk Hjunk 0) as H
    end;
    (split; [exact H|exact H]).
Qed.

Lemma atoi_trailed (z : Z) junk :
  no_leading_digit junk = true ->
  atoi (decimal z ++ junk)%string = atoi (decimal z).
Proof.
  intros Hjunk. unfold atoi. f_equal. unfold decimal.
  destruct (Z.to_int z) as [d|d]; cbn [DecimalString.NilZero.string_of_int].
  - apply strtol_value_uint_trailed, Hjunk.
  - change (strtol_value
              (String "-" (DecimalString.NilZero.string_of_uint d) ++ junk))
      with (- atoi_digits 0
                (DecimalString.NilZero.string_of_uint d ++ junk)%string).
    change (strtol_value (String "-" (DecimalString.NilZero.string_of_uint d)))
      with (- atoi_digits 0 (DecimalString.NilZero.string_of_uint d)).
    f_equal. apply strtol_value_uint_trailed, Hjunk.
Qed.

Lemma assign_all_trailed (opts : list (string * (Z * string))) : forall s,
  Forall (fun o => no_leading_digit (snd (snd o)) = true) opts ->
  assign_all (map trailed_option opts) s = assign_all (map plain_option opts) s.
Proof.
  induction opts as [|o opts IH]; intros s H; [reflexivity|].
  inversion H as [|? ? Ho Hopts]; subst.
  cbn [map assign_all fold_left].
  replace (assign s (trailed_option o)) with (assign s (plain_option o)).
  - now apply IH.
  - unfold assign, trailed_option, plain_option. cbn [fst snd].
    now rewrite atoi_trailed.
Qed.

(** X5.  The value of an option is not checked beyond its number: whatever
    follows the numeral and does not go on with a digit is ignored, so the
    command line gives the same result as the one without the trailing
    texts, [PARSE_RETURN_OK] included. *)
Theorem parse_arguments_trailing_text (EXC : Verbosity) (prog : string)
    (opts : list (string * (Z * string))) :
  Forall (fun o => is_value_flag (fst o) = true
                   /\ no_leading_digit (snd (snd o)) = true) opts ->
  let trailed := prog :: tokens (map trailed_option opts) in
  let plain := prog :: tokens (map plain_option opts) in
  parse_arguments EXC (List.length trailed) trailed
  = parse_arguments EXC (List.length plain) plain
  /\ exists a,
       parse_arguments EXC (List.length plain) plain
       = Some (Returned a, mkIo (seq 1 (2 * List.length opts)) [])
       /\ parse_result a = PARSE_RETURN_OK.
Proof.
  intros H trailed plain.
  assert (Ht : Forall (fun o => is_value_flag (fst o) = true)
                 (map trailed_option opts)).
  { apply Forall_map. eapply Forall_impl; [|exact H]. now intros o [Hf _]. }
  assert (Hp : Forall (fun o => is_value_flag (fst o) = true)
                 (map plain_option opts)).
  { apply Forall_map. eapply Forall_impl; [|exact H]. now intros o [Hf _]. }
  assert (Hj : Forall (fun o : string * (Z * string) =>
                         no_leading_digit (snd (snd o)) = true) opts).
  { eapply Forall_impl; [|exact H]. now intros o [_ Hj]. }
  subst trailed plain.
  rewrite (parse_arguments_end EXC prog _ Ht),
    (parse_arguments_end EXC prog _ Hp), !length_map,
    (assign_all_trailed opts _ Hj).
  split; [reflexivity|].
  destruct (assign_all (map plain_option opts) (0, 0, EXC)) as [[d n] v].
  eexists. split; reflexivity.
Qed.

Lemma parse_arguments_trailing_text_witness :
  parse_arguments 1 5 ["publisher"; "-d"; "12abc"; "-s"; "3 4"]
  = parse_arguments 1 5 ["publisher"; "-d"; "12"; "-s"; "3"].
Proof.
  refine (proj1 (parse_arguments_trailing_text 1 "publisher"
                   [("-d", (12, "abc")); ("-s", (3, " 4"))] _)).
  repeat constructor.
Defined.

End ParserMore.

(** ** The signal handler and the hello-world publisher *)

Section HelloMore.
Import Application CommandLine RunLoop Further.

Lemma deliver_events (signos : list Z) (p : process) :
  deliver signos p
  = mkProcess (match signos with [] => running p | _ => false end)
      (events p ++ map (fun _ => shutdown_notice) signos).
Proof.
  revert p. induction signos as [|s signos IH]; intros p.
  - destruct p. cbn. now rewrite List.app_nil_r.
  - change (deliver (s :: signos) p) with (deliver signos (stop_handler s p)).
    rewrite IH. cbn [stop_handler emit running events map].
    rewrite <- app_assoc. cbn [app]. f_equal. now destruct signos.
Qed.


Lemma hello_write_loop_throw fuel w k count sc p what :
  running p = true ->
  HelloWorldPublisher.signals w k = [] ->
  count < sc \/ sc = 0 ->
  HelloWorldPublisher.write_throws w k = Some what ->
  HelloWorldPublisher.write_loop (S fuel) w k count sc p
  = (Threw what, emits (broken_pass count) p).
Proof.
  intros Hrun Hq Hc Ht. cbn [HelloWorldPublisher.write_loop].
  rewrite Hq, deliver_nil, Hrun, Ht.
  replace ((count <? sc) || (sc =? 0))%bool with true
    by (symmetry; apply Bool.orb_true_iff; destruct Hc; [left|right]; lia).
  cbn [andb]. rewrite !emit_emits, emits_emits. reflexivity.
Qed.

(** How the hello-world loop with a limit [n] ends, from pass [k] on. *)
Lemma hello_write_loop_ends w n : forall r k fuel p,
  (k + r = n)%nat -> (0 < n)%nat -> Z.of_nat n <= INT_MAX ->
  (r <= fuel)%nat -> running p = true ->
  exists i, (i <= r)%nat
    /\ quiet (HelloWorldPublisher.signals w) k i
    /\ (forall j, (k <= j < k + i)%nat ->
          HelloWorldPublisher.write_throws w j = None)
    /\ (((i = r \/ HelloWorldPublisher.signals w (k + i) <> [])
         /\ HelloWorldPublisher.write_loop fuel w k (hello_count k)
              (Z.of_nat n) p
            = (Normal tt,
               deliver (HelloWorldPublisher.signals w (k + i))
                 (emits (hello_passes k i) p)))
        \/ (exists what,
              (i < r)%nat
              /\ HelloWorldPublisher.signals w (k + i) = []
              /\ HelloWorldPublisher.write_throws w (k + i) = Some what
              /\ HelloWorldPublisher.write_loop fuel w k (hello_count k)
                   (Z.of_nat n) p
                 = (Threw what,
                    emits (hello_passes k i ++ broken_pass (hello_count (k + i)))
                      p))).
Proof.
  induction r as [|r IH]; intros k fuel p Hk Hn Hmax Hfuel Hrun.
  - exists 0%nat. rewrite Nat.add_0_r.
    split; [lia|]. split; [intros j Hj; lia|]. split; [intros j Hj; lia|].
    left. split; [now left|].
    unfold hello_passes. cbn [seq flat_map]. rewrite emits_nil.
    destruct (HelloWorldPublisher.signals w k) eqn:Hs.
    + rewrite hello_write_loop_limit; trivial;
        rewrite ?hello_count_small; lia.
    + rewrite hello_write_loop_signal by congruence. now rewrite Hs.
  - destruct (HelloWorldPublisher.signals w k) eqn:Hs.
    2:{ exists 0%nat. rewrite Nat.add_0_r.
        split; [lia|]. split; [intros j Hj; lia|]. split; [intros j Hj; lia|].
        left. split; [right; congruence|].
        unfold hello_passes. cbn [seq flat_map]. rewrite emits_nil.
        rewrite hello_write_loop_signal by congruence. now rewrite Hs. }
    destruct fuel as [|fuel]; [lia|].
    assert (Hc : hello_count k < Z.of_nat n \/ Z.of_nat n = 0)
      by (left; rewrite hello_count_small; lia).
    destruct (HelloWorldPublisher.write_throws w k) as [what|] eqn:Ht.
    { exists 0%nat. rewrite Nat.add_0_r.
      split; [lia|]. split; [intros j Hj; lia|]. split; [intros j Hj; lia|].
      right. exists what. repeat split; trivial; [lia|].
      unfold hello_passes. cbn [seq flat_map app].
      now apply hello_write_loop_throw. }
    destruct (IH (S k) fuel
                (emits (HelloWorldPublisher.iteration (hello_count k)) p))
      as (i & Hi & Hquiet & Hthrow & Hend); trivial; try lia.
    assert (Hstep : HelloWorldPublisher.write_loop (S fuel) w k (hello_count k)
                      (Z.of_nat n) p
                    = HelloWorldPublisher.write_loop fuel w (S k)
                        (hello_count (S k)) (Z.of_nat n)
                        (emits (HelloWorldPublisher.iteration (hello_count k)) p)).
    { rewrite (hello_write_loop_passes w (Z.of_nat n) 1 (S fuel) k p); trivial.
      - cbn [Nat.sub]. rewrite Nat.sub_0_r.
        replace (k + 1)%nat with (S k) by lia.
        unfold hello_passes. cbn [seq flat_map]. now rewrite List.app_nil_r.
      - intros j Hj. replace j with k by lia. exact Hs.
      - intros j Hj. replace j with k by lia. exact Ht.
      - intros j Hj. replace j with k by lia. exact Hc.
      - lia. }
    exists (S i). replace (k + S i)%nat with (S k + i)%nat by lia.
    split; [lia|].
    split; [intros j Hj; destruct (Nat.eq_dec j k) as [->|];
            [exact Hs|apply Hquiet; lia]|].
    split; [intros j Hj; destruct (Nat.eq_dec j k) as [->|];
            [exact Ht|apply Hthrow; lia]|].
    rewrite Hstep, hello_passes_succ.
    destruct Hend as [[Hi' Hloop]|(what & Hi' & Hs' & Ht' & Hloop)].
    + left. split; [destruct Hi'; [left; lia|now right]|].
      rewrite Hloop, emits_emits. reflexivity.
    + right. exists what. repeat split; trivial; [lia|].
      rewrite Hloop, emits_emits, <- app_assoc. reflexivity.
Qed.

(** X7.  With a limit [sample_count = n > 0] the loop of the hello-world
    publisher always ends within [n] passes, whatever the signals and the
    writes do: either after [i] passes at the limit ([i = n]) or at a
    signal, with nothing thrown before, or at pass [i < n] by the
    exception of its [write]. *)
Theorem hello_write_loop_terminates (w : HelloWorldPublisher.world)
    (n fuel : nat) (p : process) :
  (0 < n <= fuel)%nat -> Z.of_nat n <= INT_MAX -> running p = true ->
  exists i, (i <= n)%nat
    /\ quiet (HelloWorldPublisher.signals w) 0 i
    /\ (forall j, (j < i)%nat -> HelloWorldPublisher.write_throws w j = None)
    /\ (((i = n \/ HelloWorldPublisher.signals w i <> [])
         /\ HelloWorldPublisher.write_loop fuel w 0 0 (Z.of_nat n) p
            = (Normal tt,
               deliver (HelloWorldPublisher.signals w i)
                 (emits (hello_passes 0 i) p)))
        \/ (exists what,
              (i < n)%nat
              /\ HelloWorldPublisher.write_throws w i = Some what
              /\ HelloWorldPublisher.write_loop fuel w 0 0 (Z.of_nat n) p
                 = (Threw what,
                    emits (hello_passes 0 i ++ broken_pass (hello_count i)) p))).
Proof.
  intros Hn Hmax Hrun.
  destruct (hello_write_loop_ends w n n 0 fuel p)
    as (i & Hi & Hquiet & Hthrow & Hend); trivial; try lia.
  exists i. cbn [Nat.add] in *.
  split; [exact Hi|]. split; [exact Hquiet|].
  split; [intros j Hj; apply Hthrow; lia|].
  destruct Hend as [H|(what & H1 & _ & H2 & H3)]; [left; exact H|].
  right. exists what. repeat split; assumption.
Qed.

Lemma hello_write_loop_terminates_witness :
  exists i, (i <= 3)%nat
    /\ quiet (HelloWorldPublisher.signals calm_world) 0 i
    /\ (forall j, (j < i)%nat ->
          HelloWorldPublisher.write_throws calm_world j = None)
    /\ (((i = 3%nat \/ HelloWorldPublisher.signals calm_world i <> [])
         /\ HelloWorldPublisher.write_loop 3 calm_world 0 0 (Z.of_nat 3)
              initial_process
            = (Normal tt,
               deliver (HelloWorldPublisher.signals calm_world i)
                 (emits (hello_passes 0 i) initial_process)))
        \/ (exists what,
              (i < 3)%nat
              /\ HelloWorldPublisher.write_throws calm_world i = Some what
              /\ HelloWorldPublisher.write_loop 3 calm_world 0 0 (Z.of_nat 3)
                   initial_process
                 = (Threw what,
                    emits (hello_passes 0 i ++ broken_pass (hello_count i))
                      initial_process))).
Proof.
  refine (hello_write_loop_terminates calm_world 3 3 initial_process _ _ _).
  - lia.
  - unfold INT_MAX. cbn. lia.
  - reflexivity.
Defined.

(** [main] once the parser has said "proceed" without printing. *)
Lemma hello_main_proceeds EXC fuel w argv d n v rs :
  parse_arguments EXC (List.length argv) argv
  = Some (Returned (mkArguments PARSE_RETURN_OK d n v), mkIo rs []) ->
  HelloWorldPublisher.main EXC fuel w argv
  = match HelloWorldPublisher.run_example fuel w (to_int d) (to_int n)
            (mkProcess true (hello_start v)) with
    | (Threw what, q) => (Exited EXIT_FAILURE, emit (caught what) q)
    | (Out_of_fuel, q) => (Unfinished, q)
    | (Normal _, q) =>
        (Exited EXIT_SUCCESS, emit (Dds finalize_participant_factory) q)
    end.
Proof.
  intros Hp. unfold HelloWorldPublisher.main. rewrite Hp. reflexivity.
Qed.

Lemma hello_run_example_setup fuel w d sc p :
  HelloWorldPublisher.run_example fuel w d sc p
  = match setup_throw w with
    | Some (k, what) => (Threw what, emits (firstn k (hello_ctors d)) p)
    | None =>
        HelloWorldPublisher.write_loop fuel w 0 0 sc (emits (hello_ctors d) p)
    end.
Proof.
  unfold HelloWorldPublisher.run_example, setup_throw.
  destruct (HelloWorldPublisher.participant_throws w); [reflexivity|].
  destruct (HelloWorldPublisher.topic_throws w);
    [rewrite !emit_emits, !emits_emits; reflexivity|].
  destruct (HelloWorldPublisher.publisher_throws w);
    [rewrite !emit_emits, !emits_emits; reflexivity|].
  destruct (HelloWorldPublisher.datawriter_throws w);
    rewrite !emit_emits, !emits_emits; reflexivity.
Qed.

Lemma last_value_range is_flag (opts : list (string * Z)) : forall d,
  Forall (fun o => 0 <= snd o <= INT_MAX) opts ->
  0 <= d <= INT_MAX -> 0 <= last_value is_flag opts d <= INT_MAX.
Proof.
  induction opts as [|o opts IH]; intros d H Hd; [exact Hd|].
  inversion H as [|? ? Ho Hopts]; subst.
  cbn [last_value fold_left]. apply IH; [exact Hopts|].
  now destruct (is_flag (fst o)).
Qed.

(** The parse of a command line of valid options, as claim C1 has it, in
    the form the runs below start from. *)
Lemma parse_valid_options EXC prog (opts : list (string * Z)) :
  Forall (fun o => is_value_flag (fst o) = true /\ 0 <= snd o <= INT_MAX) opts ->
  let argv := prog :: tokens (map numeral_option opts) in
  parse_arguments EXC (List.length argv) argv
  = Some (Returned
            (mkArguments PARSE_RETURN_OK
               (last_value is_domain_flag opts 0)
               (last_value is_sample_count_flag opts 0)
               (last_value is_verbosity_flag opts EXC)),
          mkIo (seq 1 (2 * List.length opts)) [])
  /\ 0 <= last_value is_domain_flag opts 0 <= INT_MAX
  /\ 0 <= last_value is_sample_count_flag opts 0 <= INT_MAX.
Proof.
  intros H argv.
  assert (Hflags : Forall (fun o => is_value_flag (fst o) = true)
                     (map numeral_option opts)).
  { apply Forall_map. eapply Forall_impl; [|exact H].
    intros [f z] [Hf _]. exact Hf. }
  assert (Hvals : Forall (fun o : string * Z => 0 <= snd o <= INT_MAX) opts).
  { eapply Forall_impl; [|exact H]. intros o [_ Hz]. exact Hz. }
  split; [|split; apply last_value_range; trivial; unfold INT_MAX; lia].
  subst argv.
  rewrite (parse_arguments_end EXC prog _ Hflags).
  rewrite (assign_all_numerals opts 0 0 EXC Hvals), length_map.
  reflexivity.
Qed.




(** X9.  When one of the four constructors of [run_example] throws, no
    later entity is created and nothing is written: [main] prints
    "Exception in publisher_main(): " with the exception's text on
    standard error and exits with 1, without finalizing the participant
    factory. *)
Theorem hello_main_setup_exception (EXC : Verbosity) (prog : string)
    (opts : list (string * Z)) (fuel : nat) (w : HelloWorldPublisher.world)
    (k : nat) (what : string) :
  Forall (fun o => is_value_flag (fst o) = true /\ 0 <= snd o <= INT_MAX) opts ->
  setup_throw w = Some (k, what) ->
  HelloWorldPublisher.main EXC fuel w (prog :: tokens (map numeral_option opts))
  = (Exited 1,
     mkProcess true
       (hello_start (last_value is_verbosity_flag opts EXC)
        ++ firstn k (hello_ctors (last_value is_domain_flag opts 0))
        ++ [caught what])).
Proof.
  intros Hopts Hsetup.
  destruct (parse_valid_options EXC prog opts Hopts) as (Hp & Hd & Hs).
  rewrite (hello_main_proceeds _ _ _ _ _ _ _ _ Hp).
  rewrite hello_run_example_setup, Hsetup.
  rewrite !to_int_small by (unfold INT_MIN, INT_MAX in *; lia).
  rewrite emit_emits, !emits_emits. unfold emits. cbn [running events].
  reflexivity.
Qed.

Lemma hello_main_setup_exception_witness :
  HelloWorldPublisher.main 1 0
    (HelloWorldPublisher.mkWorld None (Some "no such type") None None
       (fun _ => None) (fun _ => []))
    ["publisher"; "-d"; "7"]
  = (Exited 1,
     mkProcess true
       (hello_start 1
        ++ [Dds (DomainParticipant_ctor 7); Dds (Topic_ctor "Example HelloMessage")]
        ++ [caught "no such type"])).
Proof.
  refine (hello_main_setup_exception 1 "publisher" [("-d", 7)] 0 _ 2
            "no such type" _ _).
  - repeat constructor; cbn; unfold INT_MAX; lia.
  - reflexivity.
Defined.

(** X10.  When the [write] of pass [k] is the first to throw, the run has
    made [k] complete passes and the print and the call of pass [k]: it
    does not sleep or write again, and [main] reports the exception on
    standard error and exits with 1 without finalizing the participant
    factory. *)
Theorem hello_main_write_exception (EXC : Verbosity) (prog : string)
    (opts : list (string * Z)) (fuel : nat) (w : HelloWorldPublisher.world)
    (k : nat) (what : string) :
  Forall (fun o => is_value_flag (fst o) = true /\ 0 <= snd o <= INT_MAX) opts ->
  let sc := last_value is_sample_count_flag opts 0 in
  setup_throw w = None ->
  quiet (HelloWorldPublisher.signals w) 0 (S k) ->
  (forall j, (j < k)%nat -> HelloWorldPublisher.write_throws w j = None) ->
  HelloWorldPublisher.write_throws w k = Some what ->
  Z.of_nat k < sc \/ sc = 0 ->
  Z.of_nat k <= INT_MAX -> (k < fuel)%nat ->
  HelloWorldPublisher.main EXC fuel w (prog :: tokens (map numeral_option opts))
  = (Exited 1,
     mkProcess true
       (hello_start (last_value is_verbosity_flag opts EXC)
        ++ hello_ctors (last_value is_domain_flag opts 0)
        ++ flat_map HelloWorldPublisher.iteration (map Z.of_nat (seq 0 k))
        ++ broken_pass (Z.of_nat k) ++ [caught what])).
Proof.
  intros Hopts sc Hsetup Hquiet Hthrow Hwhat Hsc Hmax Hfuel.
  destruct (parse_valid_options EXC prog opts Hopts) as (Hp & Hd & Hs).
  rewrite (hello_main_proceeds _ _ _ _ _ _ _ _ Hp).
  rewrite hello_run_example_setup, Hsetup.
  rewrite !to_int_small by (unfold INT_MIN, INT_MAX in *; lia).
  fold sc.
  change 0 with (hello_count 0) at 1.
  rewrite (hello_write_loop_passes w sc k fuel 0); trivial.
  - cbn [Nat.add].
    replace (fuel - k)%nat with (S (fuel - k - 1)) by lia.
    rewrite (hello_write_loop_throw _ w k _ sc _ what); trivial.
    + rewrite hello_passes_small, hello_count_small by lia.
      rewrite emit_emits, !emits_emits. unfold emits. cbn [running events].
      rewrite <- ?app_assoc. reflexivity.
    + apply Hquiet. lia.
    + rewrite hello_count_small by lia. exact Hsc.
  - intros j Hj. apply Hquiet. lia.
  - intros j Hj. apply Hthrow. lia.
  - intros j Hj. rewrite hello_count_small by lia.
    destruct Hsc; [left; lia|now right].
  - lia.
Qed.

Lemma hello_main_write_exception_witness :
  HelloWorldPublisher.main 1 5
    (HelloWorldPublisher.mkWorld None None None None
       (fun j => match j with 1%nat => Some "timed out" | _ => None end)
       (fun _ => []))
    ["publisher"]
  = (Exited 1,
     mkProcess true
       (hello_start 1 ++ hello_ctors 0
        ++ flat_map HelloWorldPublisher.iteration [0]
        ++ broken_pass 1 ++ [caught "timed out"])).
Proof.
  refine (hello_main_write_exception 1 "publisher" [] 5 _ 1 "timed out"
            _ _ _ _ _ _ _ _).
  - constructor.
  - reflexivity.
  - intros j Hj. reflexivity.
  - intros [|j] Hj; [reflexivity|lia].
  - reflexivity.
  - right. reflexivity.
  - unfold INT_MAX. cbn. lia.
  - lia.
Defined.

Lemma to_int_to_unsigned (z : Z) :
  INT_MIN <= z <= INT_MAX -> to_int (to_unsigned z) = z.
Proof.
  intros Hz. rewrite (to_unsigned_int z Hz).
  unfold INT_MIN, INT_MAX, to_int, UINT_MODULUS in *.
  destruct (Z.ltb_spec z 0).
  - replace (z + 2 ^ 32 + 2 ^ 31) with (z + 2 ^ 31 + 1 * 2 ^ 32) by lia.
    rewrite Z.mod_add by lia. rewrite Z.mod_small; lia.
  - rewrite Z.mod_small; lia.
Qed.

(** X11.  A negative sample count is no limit and no "forever": stored
    in the [unsigned int] field and handed to [run_example] as [int] it is
    negative again, the loop condition fails at once, and the publisher
    creates its entities, writes nothing, finalizes and exits with 0. *)
Theorem hello_main_negative_sample_count (EXC : Verbosity)
    (prog flag : string) (z : Z) (fuel : nat) (w : HelloWorldPublisher.world) :
  is_sample_count_flag flag = true ->
  INT_MIN <= z < 0 ->
  setup_throw w = None ->
  HelloWorldPublisher.signals w 0 = [] ->
  HelloWorldPublisher.main EXC fuel w [prog; flag; decimal z]
  = (Exited 0,
     mkProcess true
       (hello_start EXC ++ hello_ctors 0 ++ [Dds finalize_participant_factory])).
Proof.
  intros Hflag Hz Hsetup Hquiet.
  assert (Hrange : INT_MIN <= z <= INT_MAX) by (unfold INT_MAX; lia).
  assert (Hvalue : is_value_flag flag = true)
    by (unfold is_value_flag; rewrite Hflag;
        now destruct (is_domain_flag flag)).
  assert (Hopts : Forall (fun o => is_value_flag (fst o) = true)
                    [(flag, decimal z)])
    by (constructor; [exact Hvalue|constructor]).
  pose proof (parse_arguments_end EXC prog [(flag, decimal z)] Hopts) as Hp.
  cbn zeta in Hp. cbn [tokens flat_map option_tokens fst snd app] in Hp.
  cbn [assign_all fold_left] in Hp.
  change (flag, decimal z) with (numeral_option (flag, z)) in Hp.
  rewrite (assign_signed_numeral 0 0 EXC flag z Hrange) in Hp.
  destruct (flags_disjoint flag) as (Hd & Hs & _).
  destruct (is_domain_flag flag);
    [destruct Hd as (Hd & _); [reflexivity|congruence]|].
  rewrite Hflag in Hp. destruct (Hs Hflag) as (Hv & _). rewrite Hv in Hp.
  cbn [arguments_of] in Hp.
  rewrite (hello_main_proceeds _ _ _ _ _ _ _ _ Hp).
  rewrite hello_run_example_setup, Hsetup.
  unfold stored. cbn [fst snd].
  rewrite <- (to_unsigned_int z Hrange), (to_int_to_unsigned z Hrange).
  rewrite (hello_write_loop_limit fuel w 0 0 z _ Hquiet) by lia.
  rewrite emit_emits, !emits_emits. unfold emits. cbn [running events].
  rewrite <- ?app_assoc. reflexivity.
Qed.

Lemma hello_main_negative_sample_count_witness :
  HelloWorldPublisher.main 1 0 calm_world ["publisher"; "-s"; "-1"]
  = (Exited 0,
     mkProcess true
       (hello_start 1 ++ hello_ctors 0 ++ [Dds finalize_participant_factory])).
Proof.
  refine (hello_main_negative_sample_count 1 "publisher" "-s" (-1) 0
            calm_world _ _ _ _).
  - reflexivity.
  - unfold INT_MIN. lia.
  - reflexivity.
  - reflexivity.
Defined.

End HelloMore.

(** ** The temperature publisher *)

Section TemperatureMore.
Import Application RunLoop Further TemperaturePublisher.

Lemma temperature_passes_succ OK m sensor k n :
  temperature_passes OK m sensor k (S n)
  = temperature_pass OK m sensor k ++ temperature_passes OK m sensor (S k) n.
Proof. reflexivity. Qed.

(** One pass of the loop, when its condition holds. *)
Lemma temperature_write_loop_step OK m sensor sc fuel k p :
  running p = true -> signals m k = [] ->
  sc = 0 \/ temperature_count k < sc ->
  write_loop OK (S fuel) m k (temperature_count k) sc sensor p
  = write_loop OK fuel m (S k) (temperature_count (S k)) sc sensor
      (emits (temperature_pass OK m sensor k) p).
Proof.
  intros Hrun Hs Hc.
  rewrite (temperature_write_loop_passes OK m sensor sc 1 (S fuel) k p); trivial.
  - cbn [Nat.sub]. rewrite Nat.sub_0_r.
    replace (k + 1)%nat with (S k) by lia.
    unfold temperature_passes. cbn [seq flat_map]. now rewrite List.app_nil_r.
  - intros j Hj. replace j with k by lia. exact Hs.
  - intros j Hj. replace j with k by lia. exact Hc.
  - lia.
Qed.

(** The shape of every run of the loop: some passes, then the signals that
    came before the last evaluation of the condition. *)
Lemma temperature_write_loop_trace OK m sensor sc : forall fuel k p,
  exists i c,
    (i <= fuel)%nat
    /\ (c = Normal tt \/ c = Out_of_fuel)
    /\ write_loop OK fuel m k (temperature_count k) sc sensor p
       = (c, deliver (signals m (k + i))
               (emits (temperature_passes OK m sensor k i) p)).
Proof.
  assert (Hstop : forall fuel k p c,
            write_loop OK fuel m k (temperature_count k) sc sensor p
            = (c, deliver (signals m k) p) ->
            (c = Normal tt \/ c = Out_of_fuel) ->
            exists i c,
              (i <= fuel)%nat
              /\ (c = Normal tt \/ c = Out_of_fuel)
              /\ write_loop OK fuel m k (temperature_count k) sc sensor p
                 = (c, deliver (signals m (k + i))
                         (emits (temperature_passes OK m sensor k i) p))).
  { intros fuel k p c H Hc. exists 0%nat, c. rewrite Nat.add_0_r.
    unfold temperature_passes. cbn [seq flat_map]. rewrite emits_nil.
    split; [lia|]. split; [exact Hc|exact H]. }
  induction fuel as [|fuel IH]; intros k p.
  - apply (Hstop 0%nat k p
             (if (running (deliver (signals m k) p)
                  && ((sc =? 0) || (temperature_count k <? sc)))%bool
              then Out_of_fuel else Normal tt)).
    + cbn [write_loop].
      now destruct (running (deliver (signals m k) p)
                    && ((sc =? 0) || (temperature_count k <? sc)))%bool.
    + now destruct (running (deliver (signals m k) p)
                    && ((sc =? 0) || (temperature_count k <? sc)))%bool;
        [right|left].
  - destruct (running (deliver (signals m k) p)
              && ((sc =? 0) || (temperature_count k <? sc)))%bool eqn:Hcond.
    2:{ apply (Hstop (S fuel) k p (Normal tt)); [|now left].
        cbn [write_loop]. now rewrite Hcond. }
    apply Bool.andb_true_iff in Hcond. destruct Hcond as [Hrun Hc].
    assert (Hs : signals m k = []).
    { rewrite running_deliver in Hrun.
      destruct (signals m k); [reflexivity|discriminate]. }
    rewrite Hs, deliver_nil in Hrun.
    destruct (IH (S k) (emits (temperature_pass OK m sensor k) p))
      as (i & c & Hi & Hcs & Hloop).
    exists (S i), c. split; [lia|]. split; [exact Hcs|].
    rewrite temperature_write_loop_step; trivial.
    + rewrite Hloop, temperature_passes_succ, emits_emits.
      replace (S k + i)%nat with (k + S i)%nat by lia. reflexivity.
    + apply Bool.orb_true_iff in Hc. destruct Hc; [left|right]; lia.
Qed.

(** How the loop with a limit [n] ends, from pass [k] on. *)
Lemma temperature_write_loop_ends OK m sensor n : forall r k fuel p,
  (k + r = n)%nat -> (0 < n)%nat -> Z.of_nat n < UINT_MODULUS ->
  (r <= fuel)%nat -> running p = true ->
  exists i, (i <= r)%nat
    /\ quiet (signals m) k i
    /\ (i = r \/ signals m (k + i) <> [])
    /\ write_loop OK fuel m k (temperature_count k) (Z.of_nat n) sensor p
       = (Normal tt,
          deliver (signals m (k + i))
            (emits (temperature_passes OK m sensor k i) p)).
Proof.
  induction r as [|r IH]; intros k fuel p Hk Hn Hmax Hfuel Hrun.
  - exists 0%nat. rewrite Nat.add_0_r.
    split; [lia|]. split; [intros j Hj; lia|]. split; [now left|].
    unfold temperature_passes. cbn [seq flat_map]. rewrite emits_nil.
    destruct (signals m k) eqn:Hs.
    + rewrite temperature_write_loop_limit; trivial;
        rewrite ?temperature_count_small; lia.
    + rewrite temperature_write_loop_signal by congruence. now rewrite Hs.
  - destruct (signals m k) eqn:Hs.
    2:{ exists 0%nat. rewrite Nat.add_0_r.
        split; [lia|]. split; [intros j Hj; lia|].
        split; [right; congruence|].
        unfold temperature_passes. cbn [seq flat_map]. rewrite emits_nil.
        rewrite temperature_write_loop_signal by congruence. now rewrite Hs. }
    destruct fuel as [|fuel]; [lia|].
    assert (Hrun' : running (emits (temperature_pass OK m sensor k) p) = true)
      by exact Hrun.
    destruct (IH (S k) fuel (emits (temperature_pass OK m sensor k) p))
      as (i & Hi & Hquiet & Hend & Hloop); trivial; try lia.
    exists (S i). replace (k + S i)%nat with (S k + i)%nat by lia.
    split; [lia|].
    split; [intros j Hj; destruct (Nat.eq_dec j k) as [->|];
            [exact Hs|apply Hquiet; lia]|].
    split; [destruct Hend; [left; lia|now right]|].
    rewrite temperature_write_loop_step; trivial.
    + rewrite Hloop, temperature_passes_succ, emits_emits. reflexivity.
    + right. rewrite temperature_count_small; lia.
Qed.

(** X12.  With a limit [sample_count = n > 0] the loop of the temperature
    publisher always ends, whatever the signals and the writes do: after
    [i <= n] passes, where pass [i] is the limit or the first evaluation of
    the condition that a signal precedes.  A failed [write] never ends
    it. *)
Theorem temperature_write_loop_terminates (OK : Z) (m : middleware)
    (sensor : string) (n fuel : nat) (p : process) :
  (0 < n <= fuel)%nat -> Z.of_nat n < UINT_MODULUS -> running p = true ->
  exists i, (i <= n)%nat
    /\ quiet (signals m) 0 i
    /\ (i = n \/ signals m i <> [])
    /\ write_loop OK fuel m 0 0 (Z.of_nat n) sensor p
       = (Normal tt,
          deliver (signals m i) (emits (temperature_passes OK m sensor 0 i) p)).
Proof.
  intros Hn Hmax Hrun.
  destruct (temperature_write_loop_ends OK m sensor n n 0 fuel p)
    as (i & H); trivial; try lia.
  exists i. exact H.
Qed.

Lemma temperature_write_loop_terminates_witness :
  exists i, (i <= 2)%nat
    /\ quiet (signals calm_middleware) 0 i
    /\ (i = 2%nat \/ signals calm_middleware i <> [])
    /\ write_loop 0 2 calm_middleware 0 0 (Z.of_nat 2) "oven" initial_process
       = (Normal tt,
          deliver (signals calm_middleware i)
            (emits (temperature_passes 0 calm_middleware "oven" 0 i)
               initial_process)).
Proof.
  refine (temperature_write_loop_terminates 0 calm_middleware "oven" 2 2
            initial_process _ _ _).
  - lia.
  - unfold UINT_MODULUS. cbn. lia.
  - reflexivity.
Defined.

(** Every run of [run_example], by its first failing set-up step or, when
    there is none, by the passes of its loop. *)
Lemma temperature_run_example_shape OK fuel m domain sc sensor p :
  match setup_failure OK m with
  | Some s =>
      run_example OK fuel m domain sc sensor p
      = (Some EXIT_FAILURE,
         emits (setup_calls domain s
                ++ Cout [Str (error_message s)]
                   :: cleanup OK m (r_create_participant m)) p)
  | None =>
      exists i,
        (i <= fuel)%nat
        /\ let q := deliver (signals m i)
                      (emits (all_setup_calls domain
                              ++ temperature_passes OK m sensor 0 i) p) in
           run_example OK fuel m domain sc sensor p = (None, q)
           \/ run_example OK fuel m domain sc sensor p
              = (Some (if cleanup_failed OK m (r_create_participant m)
                       then EXIT_FAILURE else EXIT_SUCCESS),
                 emits (wind_down OK m) q)
  end.
Proof.
  unfold setup_failure, run_example. cbv zeta beta.
  repeat match goal with
         | |- match (if ?b then _ else _) with _ => _ end =>
             destruct b;
             [rewrite leave_events, !emit_emits, !emits_emits; reflexivity|]
         end.
  rewrite !emit_emits, !emits_emits. cbn [app]. fold (all_setup_calls domain).
  destruct (temperature_write_loop_trace OK m sensor sc fuel 0
              (emits (all_setup_calls domain) p)) as (i & c & Hi & Hc & Hloop).
  change (temperature_count 0) with 0 in Hloop. cbn [Nat.add] in Hloop.
  rewrite emits_emits in Hloop.
  exists i. split; [exact Hi|]. cbn zeta. rewrite Hloop.
  destruct Hc as [-> | ->]; [right|left; reflexivity].
  rewrite shutdown_events. f_equal. unfold wind_down.
  destruct (negb (r_delete_data m =? OK));
    rewrite !emit_emits, !emits_emits, <- ?app_assoc; reflexivity.
Qed.

Lemma length_substring_0 (s : string) : forall n,
  String.length (substring 0 n s) = Nat.min n (String.length s).
Proof.
  induction s as [|c s IH]; intros [|n]; cbn; trivial. now rewrite IH.
Qed.

Lemma prefix_substring_0 (s : string) : forall n,
  prefix (substring 0 n s) s = true.
Proof.
  induction s as [|c s IH]; intros [|n]; cbn; trivial.
  destruct (ascii_dec c c); [apply IH|congruence].
Qed.

Lemma degrees_in_range (r : Z) :
  0 <= r -> 30 <= to_int (Z.rem r 3 + 30) <= 32.
Proof.
  intros Hr. pose proof (Z.rem_bound_pos r 3 Hr ltac:(lia)).
  rewrite to_int_small; unfold INT_MIN, INT_MAX; lia.
Qed.

Lemma not_write_written sensor (t : trace) :
  forallb (fun e => negb (is_write e)) t = true ->
  Forall (sample_written sensor) t.
Proof.
  intros H. apply Forall_forall. intros e He.
  rewrite forallb_forall in H. specialize (H e He).
  destruct e as [| | |[]]; cbn in *; trivial. discriminate.
Qed.

Lemma cleanup_no_write OK m q :
  forallb (fun e => negb (is_write e)) (cleanup OK m q) = true.
Proof.
  unfold cleanup. destruct (is_null q); [reflexivity|].
  destruct (negb (r_delete_contained_entities m =? OK));
    destruct (negb (r_delete_participant m =? OK)); reflexivity.
Qed.

Lemma passes_written OK m sensor :
  (forall k, 0 <= r_rand m k) ->
  forall k i, Forall (sample_written sensor) (temperature_passes OK m sensor k i).
Proof.
  intros Hrand k i. unfold temperature_passes. apply Forall_flat_map.
  apply Forall_forall. intros j _. unfold temperature_pass.
  repeat constructor.
  - apply prefix_substring_0.
  - unfold snprintf. now rewrite length_substring_0.
  - apply degrees_in_range, Hrand.
  - apply degrees_in_range, Hrand.
  - destruct (negb (r_write m j =? OK)); repeat constructor.
Qed.

Lemma deliver_written sensor signos p :
  Forall (sample_written sensor) (events p) ->
  Forall (sample_written sensor) (events (deliver signos p)).
Proof.
  intros H. rewrite deliver_events. cbn [events].
  apply Forall_app. split; [exact H|].
  apply Forall_map, Forall_forall. intros; exact I.
Qed.

(** X13.  Every sample the temperature publisher writes carries the first
    254 characters of the sensor identifier it was given (all of it when
    it is no longer) and a temperature between 30 and 32, provided
    [rand()] answers non-negative numbers, as it does. *)
Theorem temperature_samples_written (OK : Z) (fuel : nat) (m : middleware)
    (domain sc : Z) (sensor : string) (p : process) :
  (forall k, 0 <= r_rand m k) ->
  Forall (sample_written sensor) (events p) ->
  Forall (sample_written sensor)
    (events (snd (run_example OK fuel m domain sc sensor p))).
Proof.
  intros Hrand Hp.
  pose proof (temperature_run_example_shape OK fuel m domain sc sensor p) as H.
  assert (Hsetup : forall n, Forall (sample_written sensor)
                               (firstn n (all_setup_calls domain))).
  { intros n. apply not_write_written.
    do 9 (destruct n as [|n]; [reflexivity|]). reflexivity. }
  assert (Hclean : Forall (sample_written sensor)
                     (cleanup OK m (r_create_participant m)))
    by apply not_write_written, cleanup_no_write.
  destruct (setup_failure OK m) as [s|].
  - rewrite H. cbn [snd emits events].
    repeat (apply Forall_app; split); trivial; [apply Hsetup|].
    constructor; [exact I|exact Hclean].
  - destruct H as (i & _ & H). cbn zeta in H.
    assert (Hq : Forall (sample_written sensor)
                   (events (deliver (signals m i)
                              (emits (all_setup_calls domain
                                      ++ temperature_passes OK m sensor 0 i) p)))).
    { apply deliver_written. cbn [emits events].
      repeat (apply Forall_app; split); trivial.
      - apply (Hsetup 8%nat).
      - now apply passes_written. }
    destruct H as [-> | ->]; cbn [snd]; [exact Hq|].
    cbn [emits events]. apply Forall_app. split; [exact Hq|].
    unfold wind_down. repeat (apply Forall_app; split);
      [repeat constructor
      |destruct (negb (r_delete_data m =? OK)); repeat constructor
      |constructor; [exact I|exact Hclean]].
Qed.

Lemma temperature_samples_written_witness :
  Forall (sample_written "oven")
    (events (snd (run_example 0 3 calm_middleware 0 3 "oven" initial_process))).
Proof.
  refine (temperature_samples_written 0 3 calm_middleware 0 3 "oven"
            initial_process _ _).
  - intros k. cbn. lia.
  - constructor.
Defined.

Lemma filter_delete_none (t : trace) :
  forallb (fun e => negb (is_delete e)) t = true -> filter is_delete t = [].
Proof.
  induction t as [|e t IH]; [reflexivity|]. cbn [forallb filter].
  intros H. apply Bool.andb_true_iff in H. destruct H as [He Ht].
  destruct (is_delete e); [discriminate|]. now apply IH.
Qed.

Lemma filter_delete_cleanup OK m q :
  filter is_delete (cleanup OK m q)
  = if is_null q then []
    else [Dds delete_contained_entities; Dds delete_participant].
Proof.
  unfold cleanup. destruct (is_null q); [reflexivity|].
  destruct (negb (r_delete_contained_entities m =? OK));
    destruct (negb (r_delete_participant m =? OK)); reflexivity.
Qed.

Lemma filter_delete_passes OK m sensor k i :
  filter is_delete (temperature_passes OK m sensor k i) = [].
Proof.
  apply filter_delete_none. unfold temperature_passes.
  apply forallb_forall. intros e He. apply in_flat_map in He.
  destruct He as (j & _ & He). unfold temperature_pass in He.
  destruct (negb (r_write m j =? OK)); cbn in He;
    repeat (destruct He as [<-|He]; [reflexivity|]); contradiction.
Qed.

Lemma filter_delete_notices (signos : list Z) :
  filter is_delete (map (fun _ => shutdown_notice) signos) = [].
Proof. induction signos; [reflexivity|exact IHsignos]. Qed.

(** X14.  Whenever [run_example] of the temperature publisher returns, it
    has deleted what it created, once: if [create_participant] gave a
    participant, [delete_contained_entities] and then [delete_participant]
    are called exactly once each, on whichever path the function returns;
    if it gave none, neither is called. *)
Theorem temperature_run_example_deletes_once (OK : Z) (fuel : nat)
    (m : middleware) (domain sc : Z) (sensor : string) (p : process)
    (st : Z) (q : process) :
  run_example OK fuel m domain sc sensor p = (Some st, q) ->
  exists t,
    events q = events p ++ t
    /\ filter is_delete t
       = if is_null (r_create_participant m) then []
         else [Dds delete_contained_entities; Dds delete_participant].
Proof.
  intros Hrun.
  pose proof (temperature_run_example_shape OK fuel m domain sc sensor p) as H.
  destruct (setup_failure OK m) as [s|].
  - rewrite Hrun in H. injection H as _ ->. eexists. split; [reflexivity|].
    rewrite filter_app. cbn [filter is_delete].
    rewrite filter_delete_cleanup, filter_delete_none; [reflexivity|].
    destruct s; reflexivity.
  - destruct H as (i & _ & H). cbn zeta in H. rewrite Hrun in H.
    destruct H as [H|H]; [discriminate|]. injection H as _ ->.
    rewrite deliver_events. cbn [emits events]. eexists.
    split; [rewrite <- !app_assoc; reflexivity|].
    unfold wind_down. rewrite !filter_app.
    cbn [filter is_delete app].
    rewrite filter_delete_passes, filter_delete_notices, filter_delete_cleanup.
    cbn [app].
    now destruct (negb (r_delete_data m =? OK)).
Qed.

Lemma temperature_run_example_deletes_once_witness :
  exists t,
    events (emits (all_setup_calls 0
                   ++ temperature_passes 0 calm_middleware "oven" 0 2
                   ++ wind_down 0 calm_middleware) initial_process)
    = events initial_process ++ t
    /\ filter is_delete t
       = if is_null (r_create_participant calm_middleware) then []
         else [Dds delete_contained_entities; Dds delete_participant].
Proof.
  refine (temperature_run_example_deletes_once 0 2 calm_middleware 0 2 "oven"
            initial_process EXIT_SUCCESS _ _).
  reflexivity.
Defined.

(** X15.  The status of the temperature publisher says whether set-up and
    teardown went well, and nothing else.  [run_example], when it returns,
    returns [EXIT_FAILURE] if a set-up step failed or a clean-up call of
    [shutdown] failed and [EXIT_SUCCESS] otherwise: failed writes, a failed
    [delete_data] and an interrupting signal leave it [EXIT_SUCCESS].
    [main], when it returns, exits with 0 on help, with 1 on a bad command
    line, and otherwise with 1 exactly when set-up, clean-up or
    [finalize_instance] failed. *)
Theorem temperature_exit_status (OK : Z) (fuel : nat) (m : middleware) :
  (forall domain sc sensor p st q,
     run_example OK fuel m domain sc sensor p = (Some st, q) ->
     st = match setup_failure OK m with
          | Some _ => EXIT_FAILURE
          | None => if cleanup_failed OK m (r_create_participant m)
                    then EXIT_FAILURE else EXIT_SUCCESS
          end)
  /\ (forall arguments p st q,
        main OK fuel m arguments p = (Exited st, q) ->
        st = match parse_result arguments with
             | PARSE_RETURN_EXIT => 0
             | PARSE_RETURN_FAILURE => 1
             | PARSE_RETURN_OK =>
                 match setup_failure OK m with
                 | Some _ => 1
                 | None =>
                     if (cleanup_failed OK m (r_create_participant m)
                         || finalize_failed OK m)%bool
                     then 1 else 0
                 end
             end).
Proof.
  assert (Hrun : forall domain sc sensor p st q,
            run_example OK fuel m domain sc sensor p = (Some st, q) ->
            st = match setup_failure OK m with
                 | Some _ => EXIT_FAILURE
                 | None => if cleanup_failed OK m (r_create_participant m)
                           then EXIT_FAILURE else EXIT_SUCCESS
                 end).
  { intros domain sc sensor p st q Hrun.
    pose proof (temperature_run_example_shape OK fuel m domain sc sensor p) as H.
    destruct (setup_failure OK m) as [s|].
    - rewrite Hrun in H. now injection H as -> _.
    - destruct H as (i & _ & H). cbn zeta in H. rewrite Hrun in H.
      destruct H as [H|H]; [discriminate|]. now injection H as -> _. }
  split; [exact Hrun|].
  intros arguments p st q. unfold main.
  destruct (parse_result arguments).
  - destruct (run_example OK fuel m (domain_id arguments)
                (sample_count arguments) (sensor_id arguments)
                (set_verbosity (verbosity arguments)
                   (setup_signal_handlers p))) as [[st'|] q'] eqn:E;
      [|discriminate].
    apply Hrun in E. unfold finalize_failed.
    destruct (negb (r_finalize_instance m =? OK)); intros H;
      injection H as <- _.
    + destruct (setup_failure OK m); [reflexivity|].
      now rewrite Bool.orb_true_r.
    + rewrite E. destruct (setup_failure OK m); [reflexivity|].
      now rewrite Bool.orb_false_r.
  - intros H. now injection H as <- _.
  - intros H. now injection H as <- _.
Qed.

Lemma temperature_exit_status_witness :
  EXIT_SUCCESS
  = match setup_failure 0 calm_middleware with
    | Some _ => EXIT_FAILURE
    | None => if cleanup_failed 0 calm_middleware
                   (r_create_participant calm_middleware)
              then EXIT_FAILURE else EXIT_SUCCESS
    end.
Proof.
  refine (proj1 (temperature_exit_status 0 2 calm_middleware)
            0 2 "oven" initial_process EXIT_SUCCESS _ _).
  reflexivity.
Defined.

End TemperatureMore.

(** ** The temperature subscriber *)

Section SubscriberMore.
Import Application RunLoop Further TemperatureSubscriber.

Lemma process_samples_counts (valid : list bool) : forall n r,
  0 <= n < UINT_MODULUS ->
  process_samples valid n r
  = (to_unsigned (n + Z.of_nat (count_valid valid)),
     mkRun (emits (map sample_event valid) (proc r)) (shutdowns r)).
Proof.
  induction valid as [|[] valid IH]; intros n r Hn; cbn [process_samples].
  - unfold count_valid. cbn. rewrite Z.add_0_r, emits_nil.
    rewrite to_unsigned_small by exact Hn. now destruct r.
  - rewrite IH by (unfold to_unsigned; apply Z.mod_pos_bound;
                   unfold UINT_MODULUS; lia).
    f_equal.
    + unfold count_valid. cbn [filter List.length].
      unfold to_unsigned. rewrite Zplus_mod_idemp_l. f_equal. lia.
    + unfold say. cbn [proc shutdowns map sample_event].
      now rewrite emit_emits, emits_emits.
  - rewrite IH by exact Hn. f_equal.
    unfold say. cbn [proc shutdowns map sample_event].
    now rewrite emit_emits, emits_emits.
Qed.

Lemma process_data_run (m : middleware) (k : nat) (r : run) :
  process_data m k r
  = (to_unsigned (Z.of_nat (count_valid (r_take m k))),
     mkRun (emits ([Dds take] ++ map sample_event (r_take m k)
                   ++ [Dds return_loan]) (proc r))
       (shutdowns r)).
Proof.
  unfold process_data.
  rewrite process_samples_counts by (unfold UINT_MODULUS; lia).
  cbn [Z.add]. unfold say. cbn [proc shutdowns].
  now rewrite !emit_emits, !emits_emits.
Qed.

(** X16.  [process_data] returns the number of valid samples of the take
    (as an [unsigned int]): it prints each valid sample, prints a notice
    for each sample that is an instance state notification and does not
    count it, and always returns the loan, also when the take is empty. *)
Theorem process_data_counts (m : middleware) (k : nat) (r : run) :
  process_data m k r
  = (to_unsigned (Z.of_nat (count_valid (r_take m k))),
     mkRun (emits ([Dds take] ++ map sample_event (r_take m k)
                   ++ [Dds return_loan]) (proc r))
       (shutdowns r)).
Proof. apply process_data_run. Qed.

Variables OK TIMEOUT DATA_AVAILABLE : Z.

Lemma deletions_emits (t : trace) (p : process) :
  deletions (emits t p)
  = (deletions p + List.length (filter is_delete_participant t))%nat.
Proof.
  unfold deletions, emits. cbn [events].
  now rewrite filter_app, length_app.
Qed.

Lemma deletions_say (e : event) (r : run) :
  deletions (proc (say e r))
  = (deletions (proc r) + if is_delete_participant e then 1 else 0)%nat.
Proof.
  unfold say. cbn [proc]. rewrite emit_emits, deletions_emits.
  cbn [filter]. now destruct (is_delete_participant e).
Qed.

Lemma deletions_deliver (signos : list Z) (p : process) :
  deletions (deliver signos p) = deletions p.
Proof.
  rewrite deliver_events. unfold deletions. cbn [events].
  rewrite filter_app, length_app.
  replace (filter is_delete_participant
             (map (fun _ => shutdown_notice) signos)) with (@nil event);
    [cbn; lia|].
  induction signos as [|s signos IH]; [reflexivity|exact IH].
Qed.

Lemma filter_sample_events (valid : list bool) :
  filter is_delete_participant (map sample_event valid) = [].
Proof.
  induction valid as [|[] valid IH]; cbn [map filter sample_event]; auto.
Qed.

Lemma process_data_keeps (m : middleware) (k : nat) (r : run) :
  shutdowns (snd (process_data m k r)) = shutdowns r
  /\ deletions (proc (snd (process_data m k r))) = deletions (proc r).
Proof.
  rewrite process_data_run. cbn [snd shutdowns proc]. split; [reflexivity|].
  rewrite deletions_emits, !filter_app, filter_sample_events.
  cbn. lia.
Qed.

Lemma read_loop_keeps (m : middleware) (sc : Z) : forall fuel k n r,
  shutdowns (snd (read_loop OK TIMEOUT DATA_AVAILABLE fuel m k n sc r))
  = shutdowns r
  /\ deletions
       (proc (snd (read_loop OK TIMEOUT DATA_AVAILABLE fuel m k n sc r)))
     = deletions (proc r).
Proof.
  induction fuel as [|fuel IH]; intros k n r; cbn [read_loop proc shutdowns].
  - destruct (running (deliver (signals m k) (proc r))
              && ((n <? sc) || (sc =? 0)))%bool;
      cbn [snd proc shutdowns]; now rewrite deletions_deliver.
  - destruct (running (deliver (signals m k) (proc r))
              && ((n <? sc) || (sc =? 0)))%bool;
      [|cbn [snd proc shutdowns]; now rewrite deletions_deliver].
    destruct (r_wait m k =? TIMEOUT).
    { destruct (IH (S k) n
                  (say (Cout [Str "Wait timed out after 4 seconds."])
                     (say (Dds (waitset_wait 4 0))
                        (mkRun (deliver (signals m k) (proc r))
                           (shutdowns r))))) as [-> ->].
      cbn [say proc shutdowns]. rewrite !emit_emits, !deletions_emits.
      rewrite deletions_deliver. cbn. split; [reflexivity|lia]. }
    destruct (negb (r_wait m k =? OK)).
    { cbn [snd say proc shutdowns].
      rewrite !emit_emits, !deletions_emits, deletions_deliver.
      cbn. split; [reflexivity|lia]. }
    destruct (is_null (r_narrow m)).
    { cbn [snd say proc shutdowns].
      rewrite !emit_emits, !deletions_emits, deletions_deliver.
      cbn. split; [reflexivity|lia]. }
    assert (Hbase : forall r0 : run,
              r0 = say (Dds get_status_changes)
                     (say (Dds (waitset_wait 4 0))
                        (mkRun (deliver (signals m k) (proc r))
                           (shutdowns r))) ->
              shutdowns r0 = shutdowns r
              /\ deletions (proc r0) = deletions (proc r)).
    { intros r0 ->. cbn [say proc shutdowns].
      rewrite !emit_emits, !deletions_emits, deletions_deliver.
      cbn. split; [reflexivity|lia]. }
    destruct (negb (Z.land (r_get_status_changes m k) DATA_AVAILABLE =? 0)).
    + match goal with
      | |- context [process_data m k ?r0] =>
          destruct (process_data_keeps m k r0) as [Hs Hd];
          destruct (Hbase r0 eq_refl) as [Hs0 Hd0];
          destruct (process_data m k r0) as [v r1]
      end.
      cbn [snd] in Hs, Hd.
      destruct (IH (S k) (to_unsigned (n + v)) r1) as [-> ->].
      split; congruence.
    + match goal with
      | |- context [read_loop _ _ _ fuel m (S k) n sc ?r0] =>
          destruct (Hbase r0 eq_refl) as [Hs0 Hd0];
          destruct (IH (S k) n r0) as [-> ->]
      end.
      split; congruence.
Qed.

Lemma read_loop_no_status (m : middleware) (sc : Z) : forall fuel k n r e r',
  read_loop OK TIMEOUT DATA_AVAILABLE fuel m k n sc r = (Some e, r') ->
  forall st, e <> Returns st.
Proof.
  induction fuel as [|fuel IH]; intros k n r e r' H st; cbn [read_loop] in H.
  - destruct (_ && _)%bool in H; inversion H; discriminate.
  - destruct (_ && _)%bool in H; [|discriminate].
    destruct (r_wait m k =? TIMEOUT); [exact (IH _ _ _ _ _ H st)|].
    destruct (negb (r_wait m k =? OK)); [discriminate|].
    destruct (is_null (r_narrow m)); [inversion H; discriminate|].
    destruct (negb (Z.land (r_get_status_changes m k) DATA_AVAILABLE =? 0)).
    + destruct (process_data m k _) as [v r1]. exact (IH _ _ _ _ _ H st).
    + exact (IH _ _ _ _ _ H st).
Qed.

Lemma shutdown_participant (m : middleware) (a : nat) (msg : string)
    (status : Z) (r : run) :
  let res := shutdown OK m (Ptr a) msg status r in
  fst res = (if deletion_fails OK m (shutdowns r) then EXIT_FAILURE
             else status)
  /\ shutdowns (snd res) = S (shutdowns r)
  /\ deletions (proc (snd res)) = S (deletions (proc r)).
Proof.
  unfold shutdown, deletion_fails. cbv zeta.
  destruct (negb (r_delete_contained_entities m (shutdowns r) =? OK));
    destruct (negb (r_delete_participant m (shutdowns r) =? OK));
    cbn [fst snd orb shutdowns say proc];
    rewrite !emit_emits, ?emits_emits, deletions_emits; cbn;
    (split; [reflexivity|split; [reflexivity|lia]]).
Qed.

Lemma after_shutdowns (m : middleware) (a : nat) (b : bool) (msg : string)
    (r : run) :
  shutdowns (if b then snd (shutdown OK m (Ptr a) msg EXIT_FAILURE r) else r)
  = (shutdowns r + if b then 1 else 0)%nat.
Proof.
  destruct b; [|lia].
  destruct (shutdown_participant m a msg EXIT_FAILURE r) as (_ & -> & _). lia.
Qed.

Lemma after_deletions (m : middleware) (a : nat) (b : bool) (msg : string)
    (r : run) :
  deletions
    (proc (if b then snd (shutdown OK m (Ptr a) msg EXIT_FAILURE r) else r))
  = (deletions (proc r) + if b then 1 else 0)%nat.
Proof.
  destruct b; [|lia].
  destruct (shutdown_participant m a msg EXIT_FAILURE r) as (_ & _ & ->). lia.
Qed.

Lemma shutdowns_say (e : event) (r : run) : shutdowns (say e r) = shutdowns r.
Proof. reflexivity. Qed.

(** What a run of the subscriber that returns a status has done. *)
Lemma subscriber_run_example_returns fuel m d sc p st q :
  run_example OK TIMEOUT DATA_AVAILABLE fuel m d sc p = (Returns st, q) ->
  (is_null (r_create_participant m) || is_null (r_create_subscriber m)
   || is_null (r_create_datareader m) || is_null (r_get_statuscondition m)
   = false)
  /\ st = (if deletion_fails OK m (failed_steps OK m) then EXIT_FAILURE
           else 0)
  /\ deletions q = (deletions p + S (failed_steps OK m))%nat.
Proof.
  intros H. unfold run_example in H. cbv zeta beta in H.
  destruct (r_create_participant m) as [|a]; cbn [is_null] in H;
    [discriminate|].
  destruct (r_create_subscriber m) as [|b]; cbn [is_null] in H;
    [discriminate|].
  destruct (r_create_datareader m) as [|c]; cbn [is_null] in H;
    [discriminate|].
  destruct (r_get_statuscondition m) as [|e]; cbn [is_null] in H;
    [discriminate|].
  split; [reflexivity|].
  match type of H with
  | context [read_loop _ _ _ fuel m 0%nat 0 sc ?R] =>
      assert (HR : shutdowns R = failed_steps OK m
                   /\ deletions (proc R)
                      = (deletions p + failed_steps OK m)%nat);
      [|destruct (read_loop_keeps m sc fuel 0%nat 0 R) as [Hs Hd];
        pose proof (read_loop_no_status m sc fuel 0%nat 0 R) as Hno;
        destruct (read_loop OK TIMEOUT DATA_AVAILABLE fuel m 0%nat 0 sc R)
          as [[e'|] r']]
  end.
  - repeat (rewrite after_shutdowns || rewrite shutdowns_say
            || rewrite after_deletions || rewrite deletions_say).
    cbn [shutdowns proc is_delete_participant].
    unfold failed_steps, count_valid.
    destruct (negb (r_register_type m =? OK));
      destruct (is_null (r_create_topic m));
      destruct (negb (r_set_enabled_statuses m =? OK));
      destruct (negb (r_attach_condition m =? OK));
      destruct (is_null (r_narrow m)); cbn; split; lia.
  - injection H as He _. now elim (Hno e' r' eq_refl st).
  - cbn [snd] in Hs, Hd. destruct HR as [HRs HRd].
    destruct (shutdown_participant m a "shutting down" 0 r')
      as (Hst & _ & Hdel).
    destruct (shutdown OK m (Ptr a) "shutting down" 0 r') as [status r''].
    cbn [fst snd] in Hst, Hdel. injection H as <- <-.
    rewrite Hst, Hdel, Hs, Hd, HRs, HRd. split; [reflexivity|lia].
Qed.

(** X17.  The status that [run_example] of the subscriber returns tells
    nothing about its set-up: whichever of [register_type],
    [create_topic], [set_enabled_statuses], [attach_condition] and the
    narrowing fail, and however the loop is left, the status is [0]
    unless one of the two deletions of the last [shutdown] fails. *)
Theorem subscriber_status_ignores_setup fuel m d sc p st q :
  run_example OK TIMEOUT DATA_AVAILABLE fuel m d sc p = (Returns st, q) ->
  st = (if deletion_fails OK m (failed_steps OK m) then EXIT_FAILURE else 0).
Proof. intros H. now apply subscriber_run_example_returns in H. Qed.

(** X18.  A run of the subscriber that returns has deleted the
    participant once more than set-up steps have failed: after a failed
    step [shutdown] deletes the participant, the run goes on with it, and
    the [shutdown] at the end deletes it again. *)
Theorem subscriber_deletes_participant_again fuel m d sc p st q :
  run_example OK TIMEOUT DATA_AVAILABLE fuel m d sc p = (Returns st, q) ->
  deletions q = (deletions p + S (failed_steps OK m))%nat.
Proof. intros H. now apply subscriber_run_example_returns in H. Qed.

(** X19.  When the participant, the subscriber, the reader or the status
    condition cannot be created, [run_example] of the subscriber returns
    no status: it ends in a member call through the null pointer. *)
Theorem subscriber_null_entity_no_status fuel m d sc p :
  (is_null (r_create_participant m) || is_null (r_create_subscriber m)
   || is_null (r_create_datareader m) || is_null (r_get_statuscondition m)
   = true) ->
  exists c q,
    run_example OK TIMEOUT DATA_AVAILABLE fuel m d sc p
    = (Null_pointer_call c, q)
    /\ In c [create_subscriber; create_datareader; get_statuscondition;
             set_enabled_statuses].
Proof.
  intros H. unfold run_example. cbv zeta beta.
  destruct (r_create_participant m) as [|a]; cbn [is_null];
    [eexists; eexists; split; [reflexivity|cbn; tauto]|].
  destruct (r_create_subscriber m) as [|b]; cbn [is_null];
    [eexists; eexists; split; [reflexivity|cbn; tauto]|].
  destruct (r_create_datareader m) as [|c]; cbn [is_null];
    [eexists; eexists; split; [reflexivity|cbn; tauto]|].
  destruct (r_get_statuscondition m) as [|e]; cbn [is_null];
    [eexists; eexists; split; [reflexivity|cbn; tauto]|].
  discriminate H.
Qed.

Lemma read_loop_timed_out (m : middleware) (sc : Z) : forall n fuel k sr r,
  running (proc r) = true ->
  quiet (signals m) k n ->
  (forall j, (k <= j < k + n)%nat -> r_wait m j = TIMEOUT) ->
  sr < sc \/ sc = 0 ->
  read_loop OK TIMEOUT DATA_AVAILABLE (n + fuel) m k sr sc r
  = read_loop OK TIMEOUT DATA_AVAILABLE fuel m (k + n) sr sc
      (mkRun (emits (List.concat (repeat timed_out_pass n)) (proc r))
         (shutdowns r)).
Proof.
  induction n as [|n IH]; intros fuel k sr r Hrun Hquiet Hwait Hcond.
  - cbn [repeat concat Nat.add]. rewrite Nat.add_0_r, emits_nil.
    now destruct r.
  - change (S n + fuel)%nat with (S (n + fuel)). cbn [read_loop proc].
    rewrite (Hquiet k) by lia. rewrite deliver_nil, Hrun.
    replace ((sr <? sc) || (sc =? 0))%bool with true
      by (symmetry; apply Bool.orb_true_iff; destruct Hcond;
          [left; now apply Z.ltb_lt|right; now apply Z.eqb_eq]).
    cbn [andb]. rewrite (Hwait k) by lia. rewrite Z.eqb_refl.
    rewrite IH.
    + replace (S k + n)%nat with (k + S n)%nat by lia.
      cbn [say proc shutdowns repeat concat].
      now rewrite !emit_emits, !emits_emits.
    + exact Hrun.
    + intros j Hj. apply Hquiet. lia.
    + intros j Hj. apply Hwait. lia.
    + exact Hcond.
Qed.

(** X20.  A wait that times out changes nothing but the output: after
    [n] timeouts in a row, without a signal, the loop of the subscriber
    is where it started, with the same number of samples read, having
    printed the timeout notice [n] times; it has no limit on the number
    of timeouts. *)
Theorem read_loop_timeouts (m : middleware) (sc : Z) n fuel sr r :
  running (proc r) = true ->
  quiet (signals m) 0 n ->
  (forall j, (j < n)%nat -> r_wait m j = TIMEOUT) ->
  sr < sc \/ sc = 0 ->
  read_loop OK TIMEOUT DATA_AVAILABLE (n + fuel) m 0 sr sc r
  = read_loop OK TIMEOUT DATA_AVAILABLE fuel m n sr sc
      (mkRun (emits (List.concat (repeat timed_out_pass n)) (proc r))
         (shutdowns r)).
Proof.
  intros Hrun Hquiet Hwait Hcond.
  apply (read_loop_timed_out m sc n fuel 0%nat sr r Hrun Hquiet); [|exact Hcond].
  intros j Hj. apply Hwait. lia.
Qed.

(** X21.  The sample limit is looked at between takes only: a take that
    brings the number of valid samples to the limit or beyond is
    processed to its end, every sample of it, and then the loop is
    left. *)
Theorem read_loop_finishes_the_take (m : middleware) (sc : Z) fuel k sr r :
  OK <> TIMEOUT ->
  running (proc r) = true ->
  signals m k = [] -> signals m (S k) = [] ->
  r_wait m k = OK ->
  r_narrow m <> NULL ->
  Z.land (r_get_status_changes m k) DATA_AVAILABLE <> 0 ->
  0 <= sr < sc ->
  sc <= sr + Z.of_nat (count_valid (r_take m k)) < UINT_MODULUS ->
  read_loop OK TIMEOUT DATA_AVAILABLE (S fuel) m k sr sc r
  = (None,
     mkRun (emits ([Dds (waitset_wait 4 0); Dds get_status_changes; Dds take]
                   ++ map sample_event (r_take m k) ++ [Dds return_loan])
              (proc r))
       (shutdowns r)).
Proof.
  intros Hne Hrun Hsig Hsig' Hwait Hnarrow Hbit Hsr Hlimit.
  cbn [read_loop proc]. rewrite Hsig, deliver_nil, Hrun.
  replace (sr <? sc) with true by (symmetry; apply Z.ltb_lt; lia).
  cbn [orb andb]. rewrite Hwait.
  replace (OK =? TIMEOUT) with false by (symmetry; now apply Z.eqb_neq).
  rewrite Z.eqb_refl. cbn [negb].
  destruct (r_narrow m) as [|a]; [now elim Hnarrow|]. cbn [is_null].
  replace (Z.land (r_get_status_changes m k) DATA_AVAILABLE =? 0) with false
    by (symmetry; now apply Z.eqb_neq).
  cbn [negb]. rewrite process_data_run.
  rewrite (to_unsigned_small (Z.of_nat (count_valid (r_take m k)))) by lia.
  rewrite to_unsigned_small by lia.
  assert (Hend : forall r0,
            read_loop OK TIMEOUT DATA_AVAILABLE fuel m (S k)
              (sr + Z.of_nat (count_valid (r_take m k))) sc r0
            = (None, mkRun (proc r0) (shutdowns r0))).
  { intros r0.
    destruct fuel; cbn [read_loop proc]; rewrite Hsig', deliver_nil;
      replace (sr + Z.of_nat (count_valid (r_take m k)) <? sc) with false
        by (symmetry; apply Z.ltb_ge; lia);
      replace (sc =? 0) with false by (symmetry; apply Z.eqb_neq; lia);
      now rewrite Bool.andb_false_r. }
  rewrite Hend. cbn [say proc shutdowns].
  rewrite !emit_emits, !emits_emits. cbn [app].
  now destruct r.
Qed.

(** X22.  The exit status of the subscriber: success after the help
    text, failure after a parse error; after a run, failure when
    [finalize_instance] or one of the two deletions of the last
    [shutdown] fails and success otherwise, whatever went wrong in the
    set-up or in a wait. *)
Theorem subscriber_exit_status fuel m finalize_retcode arguments p st q :
  main OK TIMEOUT DATA_AVAILABLE fuel m finalize_retcode arguments p
  = (Returns st, q) ->
  st = match TemperaturePublisher.parse_result arguments with
       | PARSE_RETURN_EXIT => EXIT_SUCCESS
       | PARSE_RETURN_FAILURE => EXIT_FAILURE
       | PARSE_RETURN_OK =>
           if negb (finalize_retcode =? OK)
              || deletion_fails OK m (failed_steps OK m)
           then EXIT_FAILURE else EXIT_SUCCESS
       end.
Proof.
  unfold main. intros H.
  destruct (TemperaturePublisher.parse_result arguments);
    [|now inversion H|now inversion H].
  cbv zeta in H.
  destruct (run_example OK TIMEOUT DATA_AVAILABLE fuel m
              (TemperaturePublisher.domain_id arguments)
              (TemperaturePublisher.sample_count arguments)
              (set_verbosity (TemperaturePublisher.verbosity arguments)
                 (setup_signal_handlers p))) as [[status| |] p'] eqn:Hrun;
    [|discriminate|discriminate].
  apply subscriber_run_example_returns in Hrun.
  destruct Hrun as (_ & Hstatus & _).
  destruct (negb (finalize_retcode =? OK)); cbn [orb];
    injection H as <- _; [reflexivity|exact Hstatus].
Qed.

End SubscriberMore.

Lemma subscriber_status_ignores_setup_witness :
  0 = (if Further.deletion_fails 0 Further.failing_registration
            (Further.failed_steps 0 Further.failing_registration)
       then EXIT_FAILURE else 0).
Proof.
  exact (subscriber_status_ignores_setup 0 10 1024 3
           Further.failing_registration 0 1 Application.initial_process 0 _
           eq_refl).
Defined.

Lemma subscriber_deletes_participant_again_witness :
  Further.deletions
    (snd (TemperatureSubscriber.run_example 0 10 1024 3
            Further.failing_registration 0 1 Application.initial_process))
  = 2%nat.
Proof.
  exact (subscriber_deletes_participant_again 0 10 1024 3
           Further.failing_registration 0 1 Application.initial_process 0 _
           eq_refl).
Defined.

Lemma subscriber_null_entity_no_status_witness :
  exists c q,
    TemperatureSubscriber.run_example 0 10 1024 3 Further.no_participant 0 1
      Application.initial_process
    = (TemperatureSubscriber.Null_pointer_call c, q)
    /\ In c [create_subscriber; create_datareader; get_statuscondition;
             set_enabled_statuses].
Proof.
  exact (subscriber_null_entity_no_status 0 10 1024 3 Further.no_participant
           0 1 Application.initial_process eq_refl).
Defined.

Lemma read_loop_timeouts_witness :
  TemperatureSubscriber.read_loop 0 10 1024 (2 + 1) Further.slow_start 0 0 2
    (TemperatureSubscriber.mkRun Application.initial_process 0)
  = TemperatureSubscriber.read_loop 0 10 1024 1 Further.slow_start 2 0 2
      (TemperatureSubscriber.mkRun
         (Application.emits (List.concat (repeat Further.timed_out_pass 2))
            Application.initial_process) 0).
Proof.
  refine (read_loop_timeouts 0 10 1024 Further.slow_start 2 2 1 0
            (TemperatureSubscriber.mkRun Application.initial_process 0)
            eq_refl _ _ _).
  - intros j Hj. reflexivity.
  - intros j Hj. destruct j as [|[|j]]; [reflexivity|reflexivity|lia].
  - left. lia.
Defined.

Lemma read_loop_finishes_the_take_witness :
  TemperatureSubscriber.read_loop 0 10 1024 1 Further.slow_start 2 0 1
    (TemperatureSubscriber.mkRun Application.initial_process 0)
  = (None,
     TemperatureSubscriber.mkRun
       (Application.emits
          [Dds (waitset_wait 4 0); Dds get_status_changes; Dds take;
           Dds print_data; Cout [Str "Received instance state notification"];
           Dds print_data; Dds return_loan]
          Application.initial_process) 0).
Proof.
  refine (read_loop_finishes_the_take 0 10 1024 Further.slow_start 1 0 2 0
            (TemperatureSubscriber.mkRun Application.initial_process 0)
            _ eq_refl eq_refl eq_refl eq_refl _ _ _ _).
  - discriminate.
  - discriminate.
  - discriminate.
  - lia.
  - vm_compute. split; [discriminate|reflexivity].
Defined.

Lemma subscriber_exit_status_witness :
  EXIT_FAILURE
  = (if negb (5 =? 0)
        || Further.deletion_fails 0 Further.failing_registration
             (Further.failed_steps 0 Further.failing_registration)
     then EXIT_FAILURE else EXIT_SUCCESS).
Proof.
  exact (subscriber_exit_status 0 10 1024 3 Further.failing_registration 5
           (TemperaturePublisher.mkArguments Application.PARSE_RETURN_OK 0 1 0
              "oven")
           Application.initial_process EXIT_FAILURE _ eq_refl).
Defined.
